(** * The stretch orchestrator of Rubber Band (src/StretcherImpl.cpp)

    A shallow embedding of [RubberBandStretcher::Impl] and the properties
    of its sizing, study, consume and accessor code.

    Data model.  The C++ is read on an LP64 platform: [size_t] and [long]
    have 64 bits, [int] has 32.  Integers are carried in [Z]; every
    unsigned operation that can leave the type is followed by
    [wrap_size_t], every value stored in an [int] by [wrap_int].  The
    [float] and [double] quantities (ratios, samples, detection values)
    are carried as rationals ([Q]): each finite double is one, and sums,
    products and quotients are the exact ones, without the rounding of
    the machine.

    Effects.  A member function is a function from the object's state
    [Impl] to a [Run]: either no result (the loop does not end within its
    fuel, or the code indexes a channel that does not exist) or the new
    state with the diagnostics written to [cerr].  Tracing that the
    source prints under [m_debugLevel > 0] is left out.

    Collaborators.  Classes that the file uses but does not define
    (ring buffer, channel data, window, FFT, detection curves, stretch
    calculator) are taken through the interface [Collaborators], or
    modelled from the specification where a claim depends on them. *)

From Stdlib Require Import ZArith QArith Qround Lia List Bool.
From stdpp Require Import base option list gmap.

Local Open Scope Z_scope.

(** ** Machine integers *)

Module Mach.

Definition size_t_modulus : Z := 2 ^ 64.
Definition int_modulus : Z := 2 ^ 32.
Definition int_half : Z := 2 ^ 31.
Definition long_half : Z := 2 ^ 63.

(** Unsigned 64-bit wrap-around: what a [size_t] keeps of [z]. *)
Definition wrap_size_t (z : Z) : Z := z mod size_t_modulus.

(** Two's complement 32-bit wrap-around: what an [int] keeps of [z]. *)
Definition wrap_int (z : Z) : Z := (z + int_half) mod int_modulus - int_half.

(** Two's complement 64-bit wrap-around: what a [long] keeps of [z]. *)
Definition wrap_long (z : Z) : Z :=
  (z + long_half) mod size_t_modulus - long_half.

Definition in_size_t (z : Z) : Prop := 0 <= z < size_t_modulus.
Definition in_int (z : Z) : Prop := - int_half <= z < int_half.
Definition in_long (z : Z) : Prop := - long_half <= z < long_half.

(** Unsigned arithmetic on [size_t]. *)
Definition size_add (a b : Z) : Z := wrap_size_t (a + b).
Definition size_sub (a b : Z) : Z := wrap_size_t (a - b).
Definition size_mul (a b : Z) : Z := wrap_size_t (a * b).

(** ** Conversions between floating point and integers

    C++ converts a floating point value to an integer type by dropping
    the fraction; it leaves the conversion undefined when the result
    does not fit, where the model keeps what the wrap-around leaves. *)

Definition Qtrunc (x : Q) : Z := Z.quot (Qnum x) (Zpos (Qden x)).

Definition int_of_double (x : Q) : Z := wrap_int (Qtrunc x).
Definition size_t_of_double (x : Q) : Z := wrap_size_t (Qtrunc x).
Definition double_of_size_t (n : Z) : Q := inject_Z n.

(** [floor] and [ceil] return a double holding an integer. *)
Definition floor (x : Q) : Q := inject_Z (Qfloor x).
Definition ceil (x : Q) : Q := inject_Z (Qceiling x).

(** [lrint] rounds to the nearest [long], ties to even (the default
    rounding mode). *)
Definition Qround_even (x : Q) : Z :=
  let f := Qfloor x in
  match Qcompare (x - inject_Z f) (1 # 2) with
  | Lt => f
  | Gt => f + 1
  | Eq => if Z.even f then f else f + 1
  end.

Definition lrint (x : Q) : Z := wrap_long (Qround_even x).

Definition Qltb (x y : Q) : bool := negb (Qle_bool y x).

End Mach.

Import Mach.

(** ** Loops

    [while (cond) body] on a loop state; [None] when the fuel runs out. *)
Fixpoint while_loop {S : Type} (fuel : nat) (cond : S -> bool)
    (body : S -> S) (s : S) : option S :=
  match fuel with
  | O => None
  | Datatypes.S fuel' =>
      if cond s then while_loop fuel' cond body (body s) else Some s
  end.

(** The [k]-th iterate of a loop body. *)
Fixpoint iterate {S : Type} (k : nat) (body : S -> S) (s : S) : S :=
  match k with
  | O => s
  | Datatypes.S k' => iterate k' body (body s)
  end.

(** ** roundUp (lines 287-295) *)

(** The loop [while (value) { ++bits; value >>= 1; }]: one iteration per
    binary digit of [value], so the recursion follows the numeral. *)
Fixpoint count_bits (value : positive) (bits : Z) : Z :=
  match value with
  | xH => wrap_int (bits + 1)
  | xO value' | xI value' => count_bits value' (wrap_int (bits + 1))
  end.

(** [1 << bits] is computed in [int]; C++ leaves it undefined from 32 bits
    on, where the model keeps what the wrap-around leaves. *)
Definition int_shl (a bits : Z) : Z := wrap_int (Z.shiftl a bits).

Definition roundUp (value : Z) : Z :=
  if Z.land value (size_sub value 1) =? 0 then value
  else
    let bits := match value with
                | Zpos p => count_bits p 0
                | _ => 0
                end in
    wrap_size_t (int_shl 1 bits).

Definition is_power_of_two (v : Z) : Prop := exists k, 0 <= k /\ v = 2 ^ k.

(** [r] is the least power of two that is at least [v]. *)
Definition least_power_of_two_above (v r : Z) : Prop :=
  is_power_of_two r /\ v <= r /\
  forall r', is_power_of_two r' -> v <= r' -> r <= r'.

(** Being a power of two, read off the binary numeral. *)
Fixpoint pow2_pos (p : positive) : bool :=
  match p with
  | xH => true
  | xO q => pow2_pos q
  | xI _ => false
  end.

(** ** Samples and ring buffers *)

Definition sample : Type := Q.

Module RingBuffer.

(** Modelled from the spec: the class RingBuffer (RingBuffer.h) is not
    part of the sources.  Section 2 of the specification describes it as
    a bounded first-in first-out queue of floats with [write_space],
    [read_space], [peek(n)], [skip(n)] and [zero(n)], which pre-fills [n]
    zeros as if written.  [size] is the capacity, [data] the samples
    written and not yet skipped, oldest first. *)
Record t : Type := { size : Z; data : list sample }.

Definition create (n : Z) : t := {| size := n; data := [] |}.

Definition getReadSpace (rb : t) : Z := Z.of_nat (length (data rb)).

Definition getWriteSpace (rb : t) : Z := Z.max 0 (size rb - getReadSpace rb).

(** [write(source, n)]: as many of the [n] samples as there is space for. *)
Definition write (rb : t) (source : list sample) (n : Z) : t :=
  let n' := Z.min n (getWriteSpace rb) in
  {| size := size rb; data := data rb ++ firstn (Z.to_nat n') source |}.

Definition zero (rb : t) (n : Z) : t :=
  write rb (repeat (0%Q : sample) (Z.to_nat n)) n.

(** [peek(destination, n)]: the oldest [n] samples, fewer when fewer are
    buffered. *)
Definition peek (rb : t) (n : Z) : list sample := firstn (Z.to_nat n) (data rb).

Definition skip (rb : t) (n : Z) : t :=
  {| size := size rb; data := skipn (Z.to_nat n) (data rb) |}.

Definition reset (rb : t) : t := {| size := size rb; data := [] |}.

(** The queue never holds more than its capacity. *)
Definition wf (rb : t) : Prop := 0 <= getReadSpace rb <= size rb.

End RingBuffer.

(** ** Processing modes and diagnostics *)

Inductive ProcessMode : Type := JustCreated | Studying | Processing | Finished.

Definition ProcessMode_eqb (a b : ProcessMode) : bool :=
  match a, b with
  | JustCreated, JustCreated | Studying, Studying
  | Processing, Processing | Finished, Finished => true
  | _, _ => false
  end.

(** What the code writes to [cerr] outside of debug tracing. *)
Inductive Diagnostic : Type :=
  | WindowShortAndLongTogether
  | RealTimeEnablesStretchPrecise
  | CannotSetRatioWhileStudyingOrProcessing
  | CannotSetPitchScaleWhileStudyingOrProcessing
  | WindowAllocationRequiredInRT (windowSize : Z)
  | ResamplerConstructionRequiredInRT
  | CannotStudyAfterProcessing
  | WritableIsZero (consumed samples : Z)
  | CannotProcessAfterFinalChunk.

(** ** Results of member functions *)

Definition Run (A : Type) : Type := option (A * list Diagnostic).

Definition ret {A : Type} (a : A) : Run A := Some (a, []).

Definition bind {A B : Type} (m : Run A) (k : A -> Run B) : Run B :=
  match m with
  | None => None
  | Some (a, out) =>
      match k a with
      | None => None
      | Some (b, out') => Some (b, out ++ out')
      end
  end.

(** [cerr << ...] *)
Definition cerr (d : Diagnostic) : Run unit := Some (tt, [d]).

(** No result: a loop out of fuel, or an access outside a vector. *)
Definition stuck {A : Type} : Run A := None.

Definition lift {A : Type} (o : option A) : Run A :=
  match o with
  | Some a => ret a
  | None => stuck
  end.

Declare Scope run_scope.
Delimit Scope run_scope with run.
Notation "x <- m ;; k" := (bind m (fun x => k))
  (at level 100, m at next level, right associativity) : run_scope.
Notation "m ;;; k" := (bind m (fun _ => k))
  (at level 100, right associativity) : run_scope.

(** Whether a run gives a result. *)
Definition returns {A : Type} (m : Run A) : bool :=
  match m with
  | Some _ => true
  | None => false
  end.

(** Whether a run gives a state to go on with. *)
Definition goes_on {A : Type} (m : Run (option A)) : bool :=
  match m with
  | Some (Some _, _) => true
  | _ => false
  end.

(** The state a [Run] ends in, without what it printed. *)
Definition final_state {A : Type} (m : Run A) : option A := fst <$> m.

(** ** The stretch calculator's settings *)

Record StretchCalculator : Type := {
  sc_sampleRate : Z;
  sc_increment : Z;
  sc_useHardPeaks : bool
}.

(** ** Channel data

    Modelled from the spec: the class ChannelData (StretcherChannelData.h)
    is not part of the sources.  Section 2 lists its state: input ring,
    output ring, scratch spectrum buffers, per-channel resampler plus
    resample scratch, and the counters inCount, outCount, inputSize and
    the draining flag.  [inputSize] is a [long] holding -1 while the
    input size is unknown; [resampler] tells whether one is allocated. *)
Record ChannelData : Type := {
  inbuf : RingBuffer.t;
  outbuf : RingBuffer.t;
  accumulator : list sample;
  fltbuf : list sample;
  resampler : bool;
  resamplebufSize : Z;
  inCount : Z;
  outCount : Z;
  inputSize : Z;
  draining : bool
}.

Definition set_inbuf (v : RingBuffer.t) (cd : ChannelData) : ChannelData :=
  {| inbuf := v; outbuf := outbuf cd; accumulator := accumulator cd;
     fltbuf := fltbuf cd; resampler := resampler cd;
     resamplebufSize := resamplebufSize cd; inCount := inCount cd;
     outCount := outCount cd; inputSize := inputSize cd;
     draining := draining cd |}.

Definition set_scratch (acc flt : list sample) (cd : ChannelData) : ChannelData :=
  {| inbuf := inbuf cd; outbuf := outbuf cd; accumulator := acc;
     fltbuf := flt; resampler := resampler cd;
     resamplebufSize := resamplebufSize cd; inCount := inCount cd;
     outCount := outCount cd; inputSize := inputSize cd;
     draining := draining cd |}.

Definition set_resampler (size : Z) (cd : ChannelData) : ChannelData :=
  {| inbuf := inbuf cd; outbuf := outbuf cd; accumulator := accumulator cd;
     fltbuf := fltbuf cd; resampler := true;
     resamplebufSize := size; inCount := inCount cd;
     outCount := outCount cd; inputSize := inputSize cd;
     draining := draining cd |}.

Definition set_inCount (v : Z) (cd : ChannelData) : ChannelData :=
  {| inbuf := inbuf cd; outbuf := outbuf cd; accumulator := accumulator cd;
     fltbuf := fltbuf cd; resampler := resampler cd;
     resamplebufSize := resamplebufSize cd; inCount := v;
     outCount := outCount cd; inputSize := inputSize cd;
     draining := draining cd |}.

(** ** Collaborators

    What the file uses of classes and constants declared elsewhere. *)
Class Collaborators : Type := {
  (** detection curves: AudioCurve and its three subclasses *)
  AudioCurve : Type;
  PercussiveAudioCurve : Z -> Z -> AudioCurve;
  HighFrequencyAudioCurve : Z -> Z -> AudioCurve;
  ConstantAudioCurve : Z -> Z -> AudioCurve;
  curve_process : AudioCurve -> list sample -> Z -> Q * AudioCurve;
  curve_reset : AudioCurve -> AudioCurve;
  curve_setWindowSize : AudioCurve -> Z -> AudioCurve;
  (** StretchCalculator::calculate *)
  calculate : StretchCalculator -> Q -> Z -> list Q -> list Q -> list Z;
  (** Window<float>::cut for the window of a size, FFT::forwardMagnitude *)
  window_cut : Z -> list sample -> list sample;
  forwardMagnitude : Z -> list sample -> list sample;
  (** ChannelData: the constructor from the window size and the output
      buffer size, the one that also takes the set of window sizes;
      reset, setWindowSize and setOutbufSize *)
  ChannelData_new : Z -> Z -> ChannelData;
  ChannelData_new_sizes : gset Z -> Z -> Z -> ChannelData;
  ChannelData_reset : ChannelData -> ChannelData;
  ChannelData_setWindowSize : ChannelData -> Z -> ChannelData;
  ChannelData_setOutbufSize : ChannelData -> Z -> ChannelData;
  (** Thread::threadingAvailable() && system_is_multiprocessor() *)
  threadingPossible : bool;
  (** option bits of RubberBandStretcher.h *)
  OptionProcessRealTime : Z;
  OptionStretchPrecise : Z;
  OptionTransientsSmooth : Z;
  OptionThreadingNone : Z;
  OptionWindowShort : Z;
  OptionWindowLong : Z
}.

(** ** The state of RubberBandStretcher::Impl

    One field per data member that the file reads or writes.  [m_windows]
    is the set of sizes for which a Hann window is cached, [m_window] and
    [m_studyFFT] the size of the current window and of the study FFT
    (none while the pointer is null).  The thread set and the two
    16-entry logs of the realtime path belong to code outside this file. *)

Section Stretcher.

Context `{Collaborators}.

Record Impl : Type := {
  m_sampleRate : Z;
  m_channels : Z;
  m_timeRatio : Q;
  m_pitchScale : Q;
  m_windowSize : Z;
  m_increment : Z;
  m_outbufSize : Z;
  m_maxProcessSize : Z;
  m_expectedInputDuration : Z;
  m_threaded : bool;
  m_realtime : bool;
  m_options : Z;
  m_mode : ProcessMode;
  m_windows : gset Z;
  m_window : option Z;
  m_studyFFT : option Z;
  m_inputDuration : Z;
  m_phaseResetDf : list Q;
  m_stretchDf : list Q;
  m_outputIncrements : list Z;
  m_phaseResetAudioCurve : option AudioCurve;
  m_stretchAudioCurve : option AudioCurve;
  m_stretchCalculator : option StretchCalculator;
  m_freq0 : Q;
  m_freq1 : Q;
  m_freq2 : Q;
  m_baseWindowSize : Z;
  m_rateMultiple : Q;
  m_channelData : list ChannelData
}.

(** Assignments to one data member. *)

Definition set_m_timeRatio (v : Q) (st : Impl) : Impl :=
  {| m_sampleRate := m_sampleRate st; m_channels := m_channels st;
     m_timeRatio := v; m_pitchScale := m_pitchScale st;
     m_windowSize := m_windowSize st; m_increment := m_increment st;
     m_outbufSize := m_outbufSize st;
     m_maxProcessSize := m_maxProcessSize st;
     m_expectedInputDuration := m_expectedInputDuration st;
     m_threaded := m_threaded st; m_realtime := m_realtime st;
     m_options := m_options st; m_mode := m_mode st;
     m_windows := m_windows st; m_window := m_window st;
     m_studyFFT := m_studyFFT st; m_inputDuration := m_inputDuration st;
     m_phaseResetDf := m_phaseResetDf st; m_stretchDf := m_stretchDf st;
     m_outputIncrements := m_outputIncrements st;
     m_phaseResetAudioCurve := m_phaseResetAudioCurve st;
     m_stretchAudioCurve := m_stretchAudioCurve st;
     m_stretchCalculator := m_stretchCalculator st; m_freq0 := m_freq0 st;
     m_freq1 := m_freq1 st; m_freq2 := m_freq2 st;
     m_baseWindowSize := m_baseWindowSize st;
     m_rateMultiple := m_rateMultiple st; m_channelData := m_channelData st
     |}.

Definition set_m_pitchScale (v : Q) (st : Impl) : Impl :=
  {| m_sampleRate := m_sampleRate st; m_channels := m_channels st;
     m_timeRatio := m_timeRatio st; m_pitchScale := v;
     m_windowSize := m_windowSize st; m_increment := m_increment st;
     m_outbufSize := m_outbufSize st;
     m_maxProcessSize := m_maxProcessSize st;
     m_expectedInputDuration := m_expectedInputDuration st;
     m_threaded := m_threaded st; m_realtime := m_realtime st;
     m_options := m_options st; m_mode := m_mode st;
     m_windows := m_windows st; m_window := m_window st;
     m_studyFFT := m_studyFFT st; m_inputDuration := m_inputDuration st;
     m_phaseResetDf := m_phaseResetDf st; m_stretchDf := m_stretchDf st;
     m_outputIncrements := m_outputIncrements st;
     m_phaseResetAudioCurve := m_phaseResetAudioCurve st;
     m_stretchAudioCurve := m_stretchAudioCurve st;
     m_stretchCalculator := m_stretchCalculator st; m_freq0 := m_freq0 st;
     m_freq1 := m_freq1 st; m_freq2 := m_freq2 st;
     m_baseWindowSize := m_baseWindowSize st;
     m_rateMultiple := m_rateMultiple st; m_channelData := m_channelData st
     |}.

Definition set_m_windowSize (v : Z) (st : Impl) : Impl :=
  {| m_sampleRate := m_sampleRate st; m_channels := m_channels st;
     m_timeRatio := m_timeRatio st; m_pitchScale := m_pitchScale st;
     m_windowSize := v; m_increment := m_increment st;
     m_outbufSize := m_outbufSize st;
     m_maxProcessSize := m_maxProcessSize st;
     m_expectedInputDuration := m_expectedInputDuration st;
     m_threaded := m_threaded st; m_realtime := m_realtime st;
     m_options := m_options st; m_mode := m_mode st;
     m_windows := m_windows st; m_window := m_window st;
     m_studyFFT := m_studyFFT st; m_inputDuration := m_inputDuration st;
     m_phaseResetDf := m_phaseResetDf st; m_stretchDf := m_stretchDf st;
     m_outputIncrements := m_outputIncrements st;
     m_phaseResetAudioCurve := m_phaseResetAudioCurve st;
     m_stretchAudioCurve := m_stretchAudioCurve st;
     m_stretchCalculator := m_stretchCalculator st; m_freq0 := m_freq0 st;
     m_freq1 := m_freq1 st; m_freq2 := m_freq2 st;
     m_baseWindowSize := m_baseWindowSize st;
     m_rateMultiple := m_rateMultiple st; m_channelData := m_channelData st
     |}.

Definition set_m_increment (v : Z) (st : Impl) : Impl :=
  {| m_sampleRate := m_sampleRate st; m_channels := m_channels st;
     m_timeRatio := m_timeRatio st; m_pitchScale := m_pitchScale st;
     m_windowSize := m_windowSize st; m_increment := v;
     m_outbufSize := m_outbufSize st;
     m_maxProcessSize := m_maxProcessSize st;
     m_expectedInputDuration := m_expectedInputDuration st;
     m_threaded := m_threaded st; m_realtime := m_realtime st;
     m_options := m_options st; m_mode := m_mode st;
     m_windows := m_windows st; m_window := m_window st;
     m_studyFFT := m_studyFFT st; m_inputDuration := m_inputDuration st;
     m_phaseResetDf := m_phaseResetDf st; m_stretchDf := m_stretchDf st;
     m_outputIncrements := m_outputIncrements st;
     m_phaseResetAudioCurve := m_phaseResetAudioCurve st;
     m_stretchAudioCurve := m_stretchAudioCurve st;
     m_stretchCalculator := m_stretchCalculator st; m_freq0 := m_freq0 st;
     m_freq1 := m_freq1 st; m_freq2 := m_freq2 st;
     m_baseWindowSize := m_baseWindowSize st;
     m_rateMultiple := m_rateMultiple st; m_channelData := m_channelData st
     |}.

Definition set_m_outbufSize (v : Z) (st : Impl) : Impl :=
  {| m_sampleRate := m_sampleRate st; m_channels := m_channels st;
     m_timeRatio := m_timeRatio st; m_pitchScale := m_pitchScale st;
     m_windowSize := m_windowSize st; m_increment := m_increment st;
     m_outbufSize := v; m_maxProcessSize := m_maxProcessSize st;
     m_expectedInputDuration := m_expectedInputDuration st;
     m_threaded := m_threaded st; m_realtime := m_realtime st;
     m_options := m_options st; m_mode := m_mode st;
     m_windows := m_windows st; m_window := m_window st;
     m_studyFFT := m_studyFFT st; m_inputDuration := m_inputDuration st;
     m_phaseResetDf := m_phaseResetDf st; m_stretchDf := m_stretchDf st;
     m_outputIncrements := m_outputIncrements st;
     m_phaseResetAudioCurve := m_phaseResetAudioCurve st;
     m_stretchAudioCurve := m_stretchAudioCurve st;
     m_stretchCalculator := m_stretchCalculator st; m_freq0 := m_freq0 st;
     m_freq1 := m_freq1 st; m_freq2 := m_freq2 st;
     m_baseWindowSize := m_baseWindowSize st;
     m_rateMultiple := m_rateMultiple st; m_channelData := m_channelData st
     |}.

Definition set_m_maxProcessSize (v : Z) (st : Impl) : Impl :=
  {| m_sampleRate := m_sampleRate st; m_channels := m_channels st;
     m_timeRatio := m_timeRatio st; m_pitchScale := m_pitchScale st;
     m_windowSize := m_windowSize st; m_increment := m_increment st;
     m_outbufSize := m_outbufSize st; m_maxProcessSize := v;
     m_expectedInputDuration := m_expectedInputDuration st;
     m_threaded := m_threaded st; m_realtime := m_realtime st;
     m_options := m_options st; m_mode := m_mode st;
     m_windows := m_windows st; m_window := m_window st;
     m_studyFFT := m_studyFFT st; m_inputDuration := m_inputDuration st;
     m_phaseResetDf := m_phaseResetDf st; m_stretchDf := m_stretchDf st;
     m_outputIncrements := m_outputIncrements st;
     m_phaseResetAudioCurve := m_phaseResetAudioCurve st;
     m_stretchAudioCurve := m_stretchAudioCurve st;
     m_stretchCalculator := m_stretchCalculator st; m_freq0 := m_freq0 st;
     m_freq1 := m_freq1 st; m_freq2 := m_freq2 st;
     m_baseWindowSize := m_baseWindowSize st;
     m_rateMultiple := m_rateMultiple st; m_channelData := m_channelData st
     |}.

Definition set_m_expectedInputDuration (v : Z) (st : Impl) : Impl :=
  {| m_sampleRate := m_sampleRate st; m_channels := m_channels st;
     m_timeRatio := m_timeRatio st; m_pitchScale := m_pitchScale st;
     m_windowSize := m_windowSize st; m_increment := m_increment st;
     m_outbufSize := m_outbufSize st;
     m_maxProcessSize := m_maxProcessSize st; m_expectedInputDuration := v;
     m_threaded := m_threaded st; m_realtime := m_realtime st;
     m_options := m_options st; m_mode := m_mode st;
     m_windows := m_windows st; m_window := m_window st;
     m_studyFFT := m_studyFFT st; m_inputDuration := m_inputDuration st;
     m_phaseResetDf := m_phaseResetDf st; m_stretchDf := m_stretchDf st;
     m_outputIncrements := m_outputIncrements st;
     m_phaseResetAudioCurve := m_phaseResetAudioCurve st;
     m_stretchAudioCurve := m_stretchAudioCurve st;
     m_stretchCalculator := m_stretchCalculator st; m_freq0 := m_freq0 st;
     m_freq1 := m_freq1 st; m_freq2 := m_freq2 st;
     m_baseWindowSize := m_baseWindowSize st;
     m_rateMultiple := m_rateMultiple st; m_channelData := m_channelData st
     |}.

Definition set_m_mode (v : ProcessMode) (st : Impl) : Impl :=
  {| m_sampleRate := m_sampleRate st; m_channels := m_channels st;
     m_timeRatio := m_timeRatio st; m_pitchScale := m_pitchScale st;
     m_windowSize := m_windowSize st; m_increment := m_increment st;
     m_outbufSize := m_outbufSize st;
     m_maxProcessSize := m_maxProcessSize st;
     m_expectedInputDuration := m_expectedInputDuration st;
     m_threaded := m_threaded st; m_realtime := m_realtime st;
     m_options := m_options st; m_mode := v; m_windows := m_windows st;
     m_window := m_window st; m_studyFFT := m_studyFFT st;
     m_inputDuration := m_inputDuration st;
     m_phaseResetDf := m_phaseResetDf st; m_stretchDf := m_stretchDf st;
     m_outputIncrements := m_outputIncrements st;
     m_phaseResetAudioCurve := m_phaseResetAudioCurve st;
     m_stretchAudioCurve := m_stretchAudioCurve st;
     m_stretchCalculator := m_stretchCalculator st; m_freq0 := m_freq0 st;
     m_freq1 := m_freq1 st; m_freq2 := m_freq2 st;
     m_baseWindowSize := m_baseWindowSize st;
     m_rateMultiple := m_rateMultiple st; m_channelData := m_channelData st
     |}.

Definition set_m_windows (v : gset Z) (st : Impl) : Impl :=
  {| m_sampleRate := m_sampleRate st; m_channels := m_channels st;
     m_timeRatio := m_timeRatio st; m_pitchScale := m_pitchScale st;
     m_windowSize := m_windowSize st; m_increment := m_increment st;
     m_outbufSize := m_outbufSize st;
     m_maxProcessSize := m_maxProcessSize st;
     m_expectedInputDuration := m_expectedInputDuration st;
     m_threaded := m_threaded st; m_realtime := m_realtime st;
     m_options := m_options st; m_mode := m_mode st; m_windows := v;
     m_window := m_window st; m_studyFFT := m_studyFFT st;
     m_inputDuration := m_inputDuration st;
     m_phaseResetDf := m_phaseResetDf st; m_stretchDf := m_stretchDf st;
     m_outputIncrements := m_outputIncrements st;
     m_phaseResetAudioCurve := m_phaseResetAudioCurve st;
     m_stretchAudioCurve := m_stretchAudioCurve st;
     m_stretchCalculator := m_stretchCalculator st; m_freq0 := m_freq0 st;
     m_freq1 := m_freq1 st; m_freq2 := m_freq2 st;
     m_baseWindowSize := m_baseWindowSize st;
     m_rateMultiple := m_rateMultiple st; m_channelData := m_channelData st
     |}.

Definition set_m_window (v : option Z) (st : Impl) : Impl :=
  {| m_sampleRate := m_sampleRate st; m_channels := m_channels st;
     m_timeRatio := m_timeRatio st; m_pitchScale := m_pitchScale st;
     m_windowSize := m_windowSize st; m_increment := m_increment st;
     m_outbufSize := m_outbufSize st;
     m_maxProcessSize := m_maxProcessSize st;
     m_expectedInputDuration := m_expectedInputDuration st;
     m_threaded := m_threaded st; m_realtime := m_realtime st;
     m_options := m_options st; m_mode := m_mode st;
     m_windows := m_windows st; m_window := v; m_studyFFT := m_studyFFT st;
     m_inputDuration := m_inputDuration st;
     m_phaseResetDf := m_phaseResetDf st; m_stretchDf := m_stretchDf st;
     m_outputIncrements := m_outputIncrements st;
     m_phaseResetAudioCurve := m_phaseResetAudioCurve st;
     m_stretchAudioCurve := m_stretchAudioCurve st;
     m_stretchCalculator := m_stretchCalculator st; m_freq0 := m_freq0 st;
     m_freq1 := m_freq1 st; m_freq2 := m_freq2 st;
     m_baseWindowSize := m_baseWindowSize st;
     m_rateMultiple := m_rateMultiple st; m_channelData := m_channelData st
     |}.

Definition set_m_studyFFT (v : option Z) (st : Impl) : Impl :=
  {| m_sampleRate := m_sampleRate st; m_channels := m_channels st;
     m_timeRatio := m_timeRatio st; m_pitchScale := m_pitchScale st;
     m_windowSize := m_windowSize st; m_increment := m_increment st;
     m_outbufSize := m_outbufSize st;
     m_maxProcessSize := m_maxProcessSize st;
     m_expectedInputDuration := m_expectedInputDuration st;
     m_threaded := m_threaded st; m_realtime := m_realtime st;
     m_options := m_options st; m_mode := m_mode st;
     m_windows := m_windows st; m_window := m_window st; m_studyFFT := v;
     m_inputDuration := m_inputDuration st;
     m_phaseResetDf := m_phaseResetDf st; m_stretchDf := m_stretchDf st;
     m_outputIncrements := m_outputIncrements st;
     m_phaseResetAudioCurve := m_phaseResetAudioCurve st;
     m_stretchAudioCurve := m_stretchAudioCurve st;
     m_stretchCalculator := m_stretchCalculator st; m_freq0 := m_freq0 st;
     m_freq1 := m_freq1 st; m_freq2 := m_freq2 st;
     m_baseWindowSize := m_baseWindowSize st;
     m_rateMultiple := m_rateMultiple st; m_channelData := m_channelData st
     |}.

Definition set_m_inputDuration (v : Z) (st : Impl) : Impl :=
  {| m_sampleRate := m_sampleRate st; m_channels := m_channels st;
     m_timeRatio := m_timeRatio st; m_pitchScale := m_pitchScale st;
     m_windowSize := m_windowSize st; m_increment := m_increment st;
     m_outbufSize := m_outbufSize st;
     m_maxProcessSize := m_maxProcessSize st;
     m_expectedInputDuration := m_expectedInputDuration st;
     m_threaded := m_threaded st; m_realtime := m_realtime st;
     m_options := m_options st; m_mode := m_mode st;
     m_windows := m_windows st; m_window := m_window st;
     m_studyFFT := m_studyFFT st; m_inputDuration := v;
     m_phaseResetDf := m_phaseResetDf st; m_stretchDf := m_stretchDf st;
     m_outputIncrements := m_outputIncrements st;
     m_phaseResetAudioCurve := m_phaseResetAudioCurve st;
     m_stretchAudioCurve := m_stretchAudioCurve st;
     m_stretchCalculator := m_stretchCalculator st; m_freq0 := m_freq0 st;
     m_freq1 := m_freq1 st; m_freq2 := m_freq2 st;
     m_baseWindowSize := m_baseWindowSize st;
     m_rateMultiple := m_rateMultiple st; m_channelData := m_channelData st
     |}.

Definition set_m_phaseResetDf (v : list Q) (st : Impl) : Impl :=
  {| m_sampleRate := m_sampleRate st; m_channels := m_channels st;
     m_timeRatio := m_timeRatio st; m_pitchScale := m_pitchScale st;
     m_windowSize := m_windowSize st; m_increment := m_increment st;
     m_outbufSize := m_outbufSize st;
     m_maxProcessSize := m_maxProcessSize st;
     m_expectedInputDuration := m_expectedInputDuration st;
     m_threaded := m_threaded st; m_realtime := m_realtime st;
     m_options := m_options st; m_mode := m_mode st;
     m_windows := m_windows st; m_window := m_window st;
     m_studyFFT := m_studyFFT st; m_inputDuration := m_inputDuration st;
     m_phaseResetDf := v; m_stretchDf := m_stretchDf st;
     m_outputIncrements := m_outputIncrements st;
     m_phaseResetAudioCurve := m_phaseResetAudioCurve st;
     m_stretchAudioCurve := m_stretchAudioCurve st;
     m_stretchCalculator := m_stretchCalculator st; m_freq0 := m_freq0 st;
     m_freq1 := m_freq1 st; m_freq2 := m_freq2 st;
     m_baseWindowSize := m_baseWindowSize st;
     m_rateMultiple := m_rateMultiple st; m_channelData := m_channelData st
     |}.

Definition set_m_stretchDf (v : list Q) (st : Impl) : Impl :=
  {| m_sampleRate := m_sampleRate st; m_channels := m_channels st;
     m_timeRatio := m_timeRatio st; m_pitchScale := m_pitchScale st;
     m_windowSize := m_windowSize st; m_increment := m_increment st;
     m_outbufSize := m_outbufSize st;
     m_maxProcessSize := m_maxProcessSize st;
     m_expectedInputDuration := m_expectedInputDuration st;
     m_threaded := m_threaded st; m_realtime := m_realtime st;
     m_options := m_options st; m_mode := m_mode st;
     m_windows := m_windows st; m_window := m_window st;
     m_studyFFT := m_studyFFT st; m_inputDuration := m_inputDuration st;
     m_phaseResetDf := m_phaseResetDf st; m_stretchDf := v;
     m_outputIncrements := m_outputIncrements st;
     m_phaseResetAudioCurve := m_phaseResetAudioCurve st;
     m_stretchAudioCurve := m_stretchAudioCurve st;
     m_stretchCalculator := m_stretchCalculator st; m_freq0 := m_freq0 st;
     m_freq1 := m_freq1 st; m_freq2 := m_freq2 st;
     m_baseWindowSize := m_baseWindowSize st;
     m_rateMultiple := m_rateMultiple st; m_channelData := m_channelData st
     |}.

Definition set_m_outputIncrements (v : list Z) (st : Impl) : Impl :=
  {| m_sampleRate := m_sampleRate st; m_channels := m_channels st;
     m_timeRatio := m_timeRatio st; m_pitchScale := m_pitchScale st;
     m_windowSize := m_windowSize st; m_increment := m_increment st;
     m_outbufSize := m_outbufSize st;
     m_maxProcessSize := m_maxProcessSize st;
     m_expectedInputDuration := m_expectedInputDuration st;
     m_threaded := m_threaded st; m_realtime := m_realtime st;
     m_options := m_options st; m_mode := m_mode st;
     m_windows := m_windows st; m_window := m_window st;
     m_studyFFT := m_studyFFT st; m_inputDuration := m_inputDuration st;
     m_phaseResetDf := m_phaseResetDf st; m_stretchDf := m_stretchDf st;
     m_outputIncrements := v;
     m_phaseResetAudioCurve := m_phaseResetAudioCurve st;
     m_stretchAudioCurve := m_stretchAudioCurve st;
     m_stretchCalculator := m_stretchCalculator st; m_freq0 := m_freq0 st;
     m_freq1 := m_freq1 st; m_freq2 := m_freq2 st;
     m_baseWindowSize := m_baseWindowSize st;
     m_rateMultiple := m_rateMultiple st; m_channelData := m_channelData st
     |}.

Definition set_m_phaseResetAudioCurve (v : option AudioCurve) (st : Impl) : Impl :=
  {| m_sampleRate := m_sampleRate st; m_channels := m_channels st;
     m_timeRatio := m_timeRatio st; m_pitchScale := m_pitchScale st;
     m_windowSize := m_windowSize st; m_increment := m_increment st;
     m_outbufSize := m_outbufSize st;
     m_maxProcessSize := m_maxProcessSize st;
     m_expectedInputDuration := m_expectedInputDuration st;
     m_threaded := m_threaded st; m_realtime := m_realtime st;
     m_options := m_options st; m_mode := m_mode st;
     m_windows := m_windows st; m_window := m_window st;
     m_studyFFT := m_studyFFT st; m_inputDuration := m_inputDuration st;
     m_phaseResetDf := m_phaseResetDf st; m_stretchDf := m_stretchDf st;
     m_outputIncrements := m_outputIncrements st;
     m_phaseResetAudioCurve := v;
     m_stretchAudioCurve := m_stretchAudioCurve st;
     m_stretchCalculator := m_stretchCalculator st; m_freq0 := m_freq0 st;
     m_freq1 := m_freq1 st; m_freq2 := m_freq2 st;
     m_baseWindowSize := m_baseWindowSize st;
     m_rateMultiple := m_rateMultiple st; m_channelData := m_channelData st
     |}.

Definition set_m_stretchAudioCurve (v : option AudioCurve) (st : Impl) : Impl :=
  {| m_sampleRate := m_sampleRate st; m_channels := m_channels st;
     m_timeRatio := m_timeRatio st; m_pitchScale := m_pitchScale st;
     m_windowSize := m_windowSize st; m_increment := m_increment st;
     m_outbufSize := m_outbufSize st;
     m_maxProcessSize := m_maxProcessSize st;
     m_expectedInputDuration := m_expectedInputDuration st;
     m_threaded := m_threaded st; m_realtime := m_realtime st;
     m_options := m_options st; m_mode := m_mode st;
     m_windows := m_windows st; m_window := m_window st;
     m_studyFFT := m_studyFFT st; m_inputDuration := m_inputDuration st;
     m_phaseResetDf := m_phaseResetDf st; m_stretchDf := m_stretchDf st;
     m_outputIncrements := m_outputIncrements st;
     m_phaseResetAudioCurve := m_phaseResetAudioCurve st;
     m_stretchAudioCurve := v;
     m_stretchCalculator := m_stretchCalculator st; m_freq0 := m_freq0 st;
     m_freq1 := m_freq1 st; m_freq2 := m_freq2 st;
     m_baseWindowSize := m_baseWindowSize st;
     m_rateMultiple := m_rateMultiple st; m_channelData := m_channelData st
     |}.

Definition set_m_stretchCalculator (v : option StretchCalculator) (st : Impl) : Impl :=
  {| m_sampleRate := m_sampleRate st; m_channels := m_channels st;
     m_timeRatio := m_timeRatio st; m_pitchScale := m_pitchScale st;
     m_windowSize := m_windowSize st; m_increment := m_increment st;
     m_outbufSize := m_outbufSize st;
     m_maxProcessSize := m_maxProcessSize st;
     m_expectedInputDuration := m_expectedInputDuration st;
     m_threaded := m_threaded st; m_realtime := m_realtime st;
     m_options := m_options st; m_mode := m_mode st;
     m_windows := m_windows st; m_window := m_window st;
     m_studyFFT := m_studyFFT st; m_inputDuration := m_inputDuration st;
     m_phaseResetDf := m_phaseResetDf st; m_stretchDf := m_stretchDf st;
     m_outputIncrements := m_outputIncrements st;
     m_phaseResetAudioCurve := m_phaseResetAudioCurve st;
     m_stretchAudioCurve := m_stretchAudioCurve st;
     m_stretchCalculator := v; m_freq0 := m_freq0 st; m_freq1 := m_freq1 st;
     m_freq2 := m_freq2 st; m_baseWindowSize := m_baseWindowSize st;
     m_rateMultiple := m_rateMultiple st; m_channelData := m_channelData st
     |}.

Definition set_m_channelData (v : list ChannelData) (st : Impl) : Impl :=
  {| m_sampleRate := m_sampleRate st; m_channels := m_channels st;
     m_timeRatio := m_timeRatio st; m_pitchScale := m_pitchScale st;
     m_windowSize := m_windowSize st; m_increment := m_increment st;
     m_outbufSize := m_outbufSize st;
     m_maxProcessSize := m_maxProcessSize st;
     m_expectedInputDuration := m_expectedInputDuration st;
     m_threaded := m_threaded st; m_realtime := m_realtime st;
     m_options := m_options st; m_mode := m_mode st;
     m_windows := m_windows st; m_window := m_window st;
     m_studyFFT := m_studyFFT st; m_inputDuration := m_inputDuration st;
     m_phaseResetDf := m_phaseResetDf st; m_stretchDf := m_stretchDf st;
     m_outputIncrements := m_outputIncrements st;
     m_phaseResetAudioCurve := m_phaseResetAudioCurve st;
     m_stretchAudioCurve := m_stretchAudioCurve st;
     m_stretchCalculator := m_stretchCalculator st; m_freq0 := m_freq0 st;
     m_freq1 := m_freq1 st; m_freq2 := m_freq2 st;
     m_baseWindowSize := m_baseWindowSize st;
     m_rateMultiple := m_rateMultiple st; m_channelData := v |}.

(** ** Accessors (lines 219-229, 270-285) *)

Definition getTimeRatio (st : Impl) : Q := m_timeRatio st.

Definition getPitchScale (st : Impl) : Q := m_pitchScale st.

Definition getEffectiveRatio (st : Impl) : Q :=
  (m_timeRatio st * m_pitchScale st)%Q.

(** ** calculateSizes (lines 297-414) *)

Definition m_defaultIncrement : Z := 256.
Definition m_defaultWindowSize : Z := 2048.

(** Fuel of the loops of [calculateSizes]: a 64-bit value is halved to 1,
    or doubled from 1 past any bound, in fewer steps. *)
Definition sizes_fuel : nat := 65.

(** The three locals of [calculateSizes]. *)
Record Sizes : Type := {
  inputIncrement : Z;
  windowSize : Z;
  outputIncrement : Z
}.

(** Lines 314-318 and 337-341: an output increment of zero is clamped to
    one and the input increment and window size follow from it. *)
Definition clamp_outputIncrement (r : Q) (s : Sizes) : Sizes :=
  if outputIncrement s <? 1 then
    let outputIncrement := 1 in
    let inputIncrement :=
      roundUp (wrap_size_t
                 (lrint (ceil (double_of_size_t outputIncrement / r)))) in
    {| inputIncrement := inputIncrement;
       windowSize := size_mul inputIncrement 4;
       outputIncrement := outputIncrement |}
  else s.

(** Lines 325-326 and 349-350. *)
Definition stretch_windowSize (r : Q) (s : Sizes) : option Sizes :=
  let windowSize := Z.max (windowSize s)
                          (roundUp (size_mul (outputIncrement s) 6)) in
  windowSize' ←
    (if Qltb 5 r
     then while_loop sizes_fuel (fun w => w <? 8192)
                     (fun w => size_mul w 2) windowSize
     else Some windowSize);
  Some {| inputIncrement := inputIncrement s;
          windowSize := windowSize';
          outputIncrement := outputIncrement s |}.

(** Lines 312-318: realtime, r < 1. *)
Definition realtime_squash (r : Q) (s : Sizes) : Sizes :=
  clamp_outputIncrement r
    {| inputIncrement := inputIncrement s;
       windowSize := windowSize s;
       outputIncrement :=
         wrap_size_t
           (int_of_double
              (floor (double_of_size_t (inputIncrement s) * r))) |}.

(** Lines 321-324: the halving loop of the realtime case. *)
Definition realtime_halving (r : Q) (s : Sizes) : option Sizes :=
  while_loop sizes_fuel
    (fun s => (1024 <? outputIncrement s) && (1 <? inputIncrement s))
    (fun s =>
       let inputIncrement := inputIncrement s / 2 in
       {| inputIncrement := inputIncrement;
          windowSize := windowSize s;
          outputIncrement :=
            wrap_size_t
              (lrint (ceil (double_of_size_t inputIncrement * r))) |})
    s.

(** Lines 320-326: realtime, r >= 1. *)
Definition realtime_stretch (r : Q) (s : Sizes) : option Sizes :=
  s' ← realtime_halving r
          {| inputIncrement := inputIncrement s;
             windowSize := windowSize s;
             outputIncrement :=
               wrap_size_t
                 (int_of_double
                    (ceil (double_of_size_t (inputIncrement s) * r))) |};
  stretch_windowSize r s'.

(** Lines 334-341: offline, r < 1. *)
Definition offline_squash (r : Q) (s : Sizes) : option Sizes :=
  inputIncrement ←
    while_loop sizes_fuel (fun i => 512 <=? i) (fun i => i / 2)
               (windowSize s / 4);
  Some (clamp_outputIncrement r
          {| inputIncrement := inputIncrement;
             windowSize := windowSize s;
             outputIncrement :=
               wrap_size_t
                 (int_of_double
                    (floor (double_of_size_t inputIncrement * r))) |}).

(** Lines 345-348: the halving loop of the offline case. *)
Definition offline_halving (r : Q) (s : Sizes) : option Sizes :=
  while_loop sizes_fuel
    (fun s => (1024 <? outputIncrement s) && (1 <? inputIncrement s))
    (fun s =>
       let outputIncrement := outputIncrement s / 2 in
       {| inputIncrement :=
            wrap_size_t
              (int_of_double (double_of_size_t outputIncrement / r));
          windowSize := windowSize s;
          outputIncrement := outputIncrement |})
    s.

(** Lines 343-350: offline, r >= 1. *)
Definition offline_stretch (r : Q) (s : Sizes) : option Sizes :=
  let outputIncrement := windowSize s / 6 in
  s' ← offline_halving r
          {| inputIncrement :=
               wrap_size_t
                 (int_of_double (double_of_size_t outputIncrement / r));
             windowSize := windowSize s;
             outputIncrement := outputIncrement |};
  stretch_windowSize r s'.

(** C3 as the claim words it: the offline start values followed by the
    halving loop of the realtime case, which halves the input increment
    and recomputes the output increment.  For comparison with
    [offline_stretch]; the code does not run this. *)
Definition offline_stretch_as_claimed (r : Q) (s : Sizes) : option Sizes :=
  let outputIncrement := windowSize s / 6 in
  s' ← realtime_halving r
          {| inputIncrement :=
               wrap_size_t
                 (int_of_double (double_of_size_t outputIncrement / r));
             windowSize := windowSize s;
             outputIncrement := outputIncrement |};
  stretch_windowSize r s'.

(** Lines 300-352: the choice of the increments and of the window size.
    [outputIncrement] is not initialised before the branches. *)
Definition choose_sizes (st : Impl) : option Sizes :=
  let r := getEffectiveRatio st in
  if m_realtime st then
    let s := {| inputIncrement :=
                  roundUp
                    (wrap_size_t
                       (int_of_double
                          (double_of_size_t m_defaultIncrement
                           * m_rateMultiple st)));
                windowSize := m_baseWindowSize st;
                outputIncrement := 0 |} in
    if Qltb r 1 then Some (realtime_squash r s) else realtime_stretch r s
  else
    let s := {| inputIncrement := m_defaultIncrement;
                windowSize := m_baseWindowSize st;
                outputIncrement := 0 |} in
    if Qltb r 1 then offline_squash r s else offline_stretch r s.

(** Lines 354-359. *)
Definition fit_expectedInputDuration (st : Impl) (inputIncrement : Z)
    : option Z :=
  if 0 <? m_expectedInputDuration st then
    while_loop sizes_fuel
      (fun i => (m_expectedInputDuration st <? size_mul i 4) && (1 <? i))
      (fun i => i / 2) inputIncrement
  else Some inputIncrement.

(** Lines 383-401. *)
Definition choose_outbufSize (st : Impl) : Z :=
  let a := (double_of_size_t (m_maxProcessSize st) / m_pitchScale st)%Q in
  let b := (double_of_size_t (size_mul (m_windowSize st) 2)
            * (if Qltb 1 (m_timeRatio st) then m_timeRatio st else 1))%Q in
  let outbufSize := size_t_of_double (ceil (if Qltb a b then b else a)) in
  if m_realtime st then size_mul outbufSize 16
  else if m_threaded st then size_mul outbufSize 16
  else outbufSize.

Definition calculateSizes (st : Impl) : option Impl :=
  s ← choose_sizes st;
  inputIncrement ← fit_expectedInputDuration st (inputIncrement s);
  let st := set_m_windowSize (windowSize s) st in
  let st := set_m_increment inputIncrement st in
  let st := if m_maxProcessSize st <? m_windowSize st
            then set_m_maxProcessSize (m_windowSize st) st else st in
  Some (set_m_outbufSize (choose_outbufSize st) st).

(** ** Loops over the channels

    [for (c = 0; c < m_channels; ++c)] over [m_channelData[c]]: no result
    when the vector has no entry [c]. *)
Fixpoint for_each_channel (body : ChannelData -> Run ChannelData)
    (c count : nat) (channelData : list ChannelData)
    : Run (list ChannelData) :=
  match count with
  | O => ret channelData
  | Datatypes.S count' =>
      (cd <- lift (channelData !! c) ;;
       cd' <- body cd ;;
       for_each_channel body (Datatypes.S c) count'
                        (<[c := cd']> channelData))%run
  end.

Definition on_channels (body : ChannelData -> Run ChannelData) (st : Impl)
    : Run Impl :=
  (channelData <- for_each_channel body 0%nat (Z.to_nat (m_channels st))
                    (m_channelData st) ;;
   ret (set_m_channelData channelData st))%run.

Definition has_option (options option : Z) : bool :=
  negb (Z.land options option =? 0).

(** ** calculateStretch (lines 810-827)

    The calculator is reached through a pointer: no result while it is
    null. *)
Definition calculateStretch (st : Impl) : Run Impl :=
  (calculator <- lift (m_stretchCalculator st) ;;
   let increments :=
     calculate calculator (getEffectiveRatio st) (m_inputDuration st)
               (m_phaseResetDf st) (m_stretchDf st) in
   match m_outputIncrements st with
   | [] => ret (set_m_outputIncrements increments st)
   | _ => ret (set_m_outputIncrements
                 (m_outputIncrements st ++ increments) st)
   end)%run.

(** ** configure (lines 416-546) *)

(** Lines 439-445. *)
Definition configure_windowSizes (st : Impl) : gset Z :=
  (if m_realtime st
   then {[ m_baseWindowSize st ]} ∪ {[ size_mul (m_baseWindowSize st) 2 ]}
        ∪ {[ size_mul (m_baseWindowSize st) 4 ]}
   else ∅) ∪ {[ m_windowSize st ]}.

(** Lines 447-460: the windows that are not cached yet are created. *)
Definition configure_windows (windowSizeChanged : bool) (st : Impl) : Impl :=
  if windowSizeChanged
  then set_m_window (Some (m_windowSize st))
         (set_m_windows (m_windows st ∪ configure_windowSizes st) st)
  else st.

(** Lines 462-473. *)
Definition configure_channelData (changed : bool) (st : Impl) : Impl :=
  if changed
  then set_m_channelData
         (replicate (Z.to_nat (m_channels st))
            (ChannelData_new_sizes (configure_windowSizes st)
                                   (m_windowSize st) (m_outbufSize st))) st
  else st.

(** Lines 475-479. *)
Definition configure_studyFFT (windowSizeChanged : bool) (st : Impl) : Impl :=
  if negb (m_realtime st) && windowSizeChanged
  then set_m_studyFFT (Some (m_windowSize st)) st else st.

(** Lines 493-495.  [lrintf] rounds its float argument as [lrint]
    does. *)
Definition resamplebuf_size (st : Impl) : Z :=
  let rbs :=
    wrap_size_t
      (lrint (ceil (double_of_size_t (m_increment st) * m_timeRatio st * 2
                    / m_pitchScale st))) in
  if rbs <? size_mul (m_increment st) 16
  then size_mul (m_increment st) 16 else rbs.

(** Lines 481-499. *)
Definition configure_resamplers (st : Impl) : Run Impl :=
  if negb (Qeq_bool (m_pitchScale st) 1) || m_realtime st
  then on_channels
         (fun cd => ret (if resampler cd then cd
                         else set_resampler (resamplebuf_size st) cd))
         st
  else ret st.

(** Lines 501-527: the curves and the calculator are created anew. *)
Definition configure_curves (st : Impl) : Impl :=
  let st :=
    set_m_phaseResetAudioCurve
      (Some (PercussiveAudioCurve (m_sampleRate st) (m_windowSize st))) st in
  let st :=
    if negb (m_realtime st)
    then set_m_stretchAudioCurve
           (Some (if negb (has_option (m_options st) OptionStretchPrecise)
                  then HighFrequencyAudioCurve (m_sampleRate st)
                                               (m_windowSize st)
                  else ConstantAudioCurve (m_sampleRate st)
                                          (m_windowSize st))) st
    else st in
  let st :=
    set_m_stretchCalculator
      (Some {| sc_sampleRate := m_sampleRate st;
               sc_increment := m_increment st;
               sc_useHardPeaks :=
                 negb (has_option (m_options st) OptionTransientsSmooth) |})
      st in
  set_m_inputDuration 0 st.

(** Lines 540-545: half a window of silence in every input ring. *)
Definition prefill_channels (st : Impl) : Run Impl :=
  on_channels
    (fun cd =>
       let cd := ChannelData_reset cd in
       ret (set_inbuf (RingBuffer.zero (inbuf cd) (m_windowSize st / 2)) cd))
    st.

Definition configure (st : Impl) : Run Impl :=
  (let empty := bool_decide (m_windows st = ∅) in
   let prevWindowSize := if empty then 0 else m_windowSize st in
   let prevOutbufSize := if empty then 0 else m_outbufSize st in
   st <- lift (calculateSizes st) ;;
   let windowSizeChanged := negb (prevWindowSize =? m_windowSize st) in
   let outbufSizeChanged := negb (prevOutbufSize =? m_outbufSize st) in
   st <- configure_resamplers
           (configure_studyFFT windowSizeChanged
              (configure_channelData (windowSizeChanged || outbufSizeChanged)
                 (configure_windows windowSizeChanged st))) ;;
   if negb (m_realtime st) then prefill_channels (configure_curves st)
   else ret (configure_curves st))%run.

(** ** reconfigure (lines 551-617) *)

(** Lines 554-564: offline, a study under way is closed and the object
    configured anew. *)
Definition reconfigure_offline (st : Impl) : Run Impl :=
  (if negb (m_realtime st)
   then st <- (if ProcessMode_eqb (m_mode st) Studying
               then st <- calculateStretch st ;;
                    ret (set_m_inputDuration 0
                           (set_m_stretchDf [] (set_m_phaseResetDf [] st)))
               else ret st) ;;
        configure st
   else ret st)%run.

(** Lines 578-589. *)
Definition reconfigure_window (st : Impl) : Run Impl :=
  (st <- (if bool_decide (m_windowSize st ∈ m_windows st) then ret st
          else cerr (WindowAllocationRequiredInRT (m_windowSize st)) ;;;
               ret (set_m_windows (m_windows st ∪ {[ m_windowSize st ]}) st)) ;;
   on_channels
     (fun cd => ret (ChannelData_setWindowSize cd (m_windowSize st)))
     (set_m_window (Some (m_windowSize st)) st))%run.

(** Lines 591-595. *)
Definition reconfigure_outbuf (st : Impl) : Run Impl :=
  on_channels
    (fun cd => ret (ChannelData_setOutbufSize cd (m_outbufSize st))) st.

(** Lines 597-612. *)
Definition reconfigure_resamplers (st : Impl) : Run Impl :=
  on_channels
    (fun cd =>
       if resampler cd then ret cd
       else (cerr ResamplerConstructionRequiredInRT ;;;
             ret (set_resampler
                    (wrap_size_t
                       (lrint (ceil (double_of_size_t (m_increment st)
                                     * m_timeRatio st * 2
                                     / m_pitchScale st)))) cd))%run)
    st.

(** Lines 614-616. *)
Definition reconfigure_curve (st : Impl) : Run Impl :=
  (curve <- lift (m_phaseResetAudioCurve st) ;;
   ret (set_m_phaseResetAudioCurve
          (Some (curve_setWindowSize curve (m_windowSize st))) st))%run.

Definition reconfigure (st : Impl) : Run Impl :=
  (st <- reconfigure_offline st ;;
   let prevWindowSize := m_windowSize st in
   let prevOutbufSize := m_outbufSize st in
   st <- lift (calculateSizes st) ;;
   let windowSizeChanged := negb (m_windowSize st =? prevWindowSize) in
   st <- (if windowSizeChanged then reconfigure_window st else ret st) ;;
   st <- (if negb (m_outbufSize st =? prevOutbufSize)
          then reconfigure_outbuf st else ret st) ;;
   st <- (if negb (Qeq_bool (m_pitchScale st) 1)
          then reconfigure_resamplers st else ret st) ;;
   if windowSizeChanged then reconfigure_curve st else ret st)%run.

(** ** The constructor (lines 48-136)

    [m_rateMultiple] is the float quotient of the sample rate by 48000. *)

(** The data members before the constructor calls [configure]. *)
Definition Impl_members (sampleRate channels options : Z)
    (initialTimeRatio initialPitchScale : Q) : Impl :=
  let rateMultiple := (inject_Z sampleRate / 48000)%Q in
  let rateMultiple := if Qltb rateMultiple 1 then 1%Q else rateMultiple in
  let baseWindowSize :=
    roundUp (wrap_size_t
               (int_of_double
                  (double_of_size_t m_defaultWindowSize * rateMultiple))) in
  let short := has_option options OptionWindowShort in
  let long := has_option options OptionWindowLong in
  let baseWindowSize :=
    if short && long then baseWindowSize
    else if short then baseWindowSize / 2
    else if long then size_mul baseWindowSize 2
    else baseWindowSize in
  let sized := short || long in
  let realtime := has_option options OptionProcessRealTime in
  let options :=
    if realtime && negb (has_option options OptionStretchPrecise)
    then Z.lor options OptionStretchPrecise else options in
  let threaded :=
    (1 <? channels) && negb realtime
    && negb (has_option options OptionThreadingNone) && threadingPossible in
  {| m_sampleRate := sampleRate;
     m_channels := channels;
     m_timeRatio := initialTimeRatio;
     m_pitchScale := initialPitchScale;
     m_windowSize := if sized then baseWindowSize else m_defaultWindowSize;
     m_increment := m_defaultIncrement;
     m_outbufSize := if sized then size_mul baseWindowSize 2
                     else size_mul m_defaultWindowSize 2;
     m_maxProcessSize := if sized then baseWindowSize
                         else m_defaultWindowSize;
     m_expectedInputDuration := 0;
     m_threaded := threaded;
     m_realtime := realtime;
     m_options := options;
     m_mode := JustCreated;
     m_windows := ∅;
     m_window := None;
     m_studyFFT := None;
     m_inputDuration := 0;
     m_phaseResetDf := [];
     m_stretchDf := [];
     m_outputIncrements := [];
     m_phaseResetAudioCurve := None;
     m_stretchAudioCurve := None;
     m_stretchCalculator := None;
     m_freq0 := 600;
     m_freq1 := 1200;
     m_freq2 := 12000;
     m_baseWindowSize := baseWindowSize;
     m_rateMultiple := rateMultiple;
     m_channelData := [] |}.

Definition Impl_new (sampleRate channels options : Z)
    (initialTimeRatio initialPitchScale : Q) : Run Impl :=
  ((if has_option options OptionWindowShort
       && has_option options OptionWindowLong
    then cerr WindowShortAndLongTogether else ret tt) ;;;
   (if has_option options OptionProcessRealTime
       && negb (has_option options OptionStretchPrecise)
    then cerr RealTimeEnablesStretchPrecise else ret tt) ;;;
   configure (Impl_members sampleRate channels options
                           initialTimeRatio initialPitchScale))%run.

(** The object a constructor call leaves, when it returns. *)
Definition constructed (sampleRate channels options : Z)
    (initialTimeRatio initialPitchScale : Q) : Impl :=
  default (Impl_members sampleRate channels options
                        initialTimeRatio initialPitchScale)
          (final_state (Impl_new sampleRate channels options
                                 initialTimeRatio initialPitchScale)).

(** ** reset (lines 167-185)

    The mutex taken in threaded mode guards the thread set, which is not
    part of the state here. *)
Definition reset (st : Impl) : Run Impl :=
  (st <- on_channels
           (fun _ => ret (ChannelData_new (m_windowSize st) (m_outbufSize st)))
           st ;;
   let st := set_m_mode JustCreated st in
   let st := set_m_phaseResetAudioCurve
               (curve_reset <$> m_phaseResetAudioCurve st) st in
   let st := set_m_stretchAudioCurve
               (curve_reset <$> m_stretchAudioCurve st) st in
   ret (set_m_inputDuration 0 st))%run.

(** ** setTimeRatio, setPitchScale (lines 187-217) *)

Definition studying_or_processing (st : Impl) : bool :=
  ProcessMode_eqb (m_mode st) Studying
  || ProcessMode_eqb (m_mode st) Processing.

Definition setTimeRatio (ratio : Q) (st : Impl) : Run Impl :=
  (if negb (m_realtime st) && studying_or_processing st
   then cerr CannotSetRatioWhileStudyingOrProcessing ;;; ret st
   else if Qeq_bool ratio (m_timeRatio st) then ret st
   else reconfigure (set_m_timeRatio ratio st))%run.

Definition setPitchScale (fs : Q) (st : Impl) : Run Impl :=
  (if negb (m_realtime st) && studying_or_processing st
   then cerr CannotSetPitchScaleWhileStudyingOrProcessing ;;; ret st
   else if Qeq_bool fs (m_pitchScale st) then ret st
   else reconfigure (set_m_pitchScale fs st))%run.

(** ** setExpectedInputDuration, setMaxProcessSize (lines 231-247) *)

Definition setExpectedInputDuration (samples : Z) (st : Impl) : Run Impl :=
  if samples =? m_expectedInputDuration st then ret st
  else reconfigure (set_m_expectedInputDuration samples st).

Definition setMaxProcessSize (samples : Z) (st : Impl) : Run Impl :=
  if samples <=? m_maxProcessSize st then ret st
  else reconfigure (set_m_maxProcessSize samples st).

(** ** getLatency (lines 619-624)

    The value is computed in double, converted to [int] and returned as
    [size_t]. *)
Definition getLatency (st : Impl) : Z :=
  if negb (m_realtime st) then 0
  else wrap_size_t
         (int_of_double
            (double_of_size_t (m_windowSize st / 2) / m_pitchScale st + 1)).

(** ** study (lines 651-766) *)

(** Lines 675-696: the average of the channels, or channel 0 itself. *)
Definition channel_sample (input : list (list sample)) (c i : nat) : sample :=
  nth i (nth c input []) 0%Q.

Definition mixdown (input : list (list sample)) (samples channels : Z)
    : list sample :=
  map (fun i =>
         (fold_left (fun sum c => sum + channel_sample input c i)
                    (seq 1 (Z.to_nat channels - 1))
                    (channel_sample input 0 i)
          / inject_Z channels)%Q)
      (seq 0 (Z.to_nat samples)).

Definition set_channel (c : nat) (cd : ChannelData) (st : Impl) : Impl :=
  set_m_channelData (<[c := cd]> (m_channelData st)) st.

(** Lines 722-751: one analysis chunk.  The window, the FFT and the two
    curves are reached through pointers.  The assertion of line 723
    ([got == m_windowSize] unless final) follows from the loop test and
    is not part of the model. *)
Definition study_chunk (st : Impl) : Run Impl :=
  (cd <- lift (m_channelData st !! 0%nat) ;;
   window <- lift (m_window st) ;;
   fft <- lift (m_studyFFT st) ;;
   phaseReset <- lift (m_phaseResetAudioCurve st) ;;
   stretch <- lift (m_stretchAudioCurve st) ;;
   let accumulator :=
     window_cut window (RingBuffer.peek (inbuf cd) (m_windowSize st)) in
   let fltbuf := forwardMagnitude fft accumulator in
   let '(df, phaseReset) := curve_process phaseReset fltbuf (m_increment st) in
   let st := set_m_phaseResetAudioCurve (Some phaseReset) st in
   let st := set_m_phaseResetDf (m_phaseResetDf st ++ [df]) st in
   let '(df, stretch) := curve_process stretch fltbuf (m_increment st) in
   let st := set_m_stretchAudioCurve (Some stretch) st in
   let st := set_m_stretchDf (m_stretchDf st ++ [df]) st in
   let st := set_m_inputDuration
               (size_add (m_inputDuration st) (m_increment st)) st in
   let cd := set_scratch accumulator fltbuf cd in
   let cd := set_inbuf (RingBuffer.skip (inbuf cd) (m_increment st)) cd in
   ret (set_channel 0 cd st))%run.

(** Lines 711-752: the chunk loop. *)
Fixpoint study_chunks (fuel : nat) (final : bool) (st : Impl) : Run Impl :=
  match fuel with
  | O => stuck
  | Datatypes.S fuel' =>
      (cd <- lift (m_channelData st !! 0%nat) ;;
       let rs := RingBuffer.getReadSpace (inbuf cd) in
       if (m_windowSize st <=? rs) || (final && (m_windowSize st / 2 <=? rs))
       then st <- study_chunk st ;; study_chunks fuel' final st
       else ret st)%run
  end.

(** Lines 700-709: as much of the rest of the input as the ring has
    space for is written; the result is the new value of [consumed] and
    the new state. *)
Definition study_write (mixdown : list sample) (samples consumed : Z)
    (st : Impl) : Run (Z * Impl) :=
  (cd <- lift (m_channelData st !! 0%nat) ;;
   let writable := RingBuffer.getWriteSpace (inbuf cd) in
   let writable := Z.min writable (size_sub samples consumed) in
   if writable =? 0
   then cerr (WritableIsZero consumed samples) ;;; ret (consumed, st)
   else
     let inbuf := RingBuffer.write (inbuf cd)
                    (skipn (Z.to_nat consumed) mixdown) writable in
     ret (size_add consumed writable,
          set_channel 0 (set_inbuf inbuf cd) st))%run.

(** Lines 698-753: the write loop. *)
Fixpoint study_loop (fuel : nat) (mixdown : list sample) (samples : Z)
    (final : bool) (consumed : Z) (st : Impl) : Run Impl :=
  match fuel with
  | O => stuck
  | Datatypes.S fuel' =>
      if consumed <? samples then
        (written <- study_write mixdown samples consumed st ;;
         st <- study_chunks fuel' final (snd written) ;;
         study_loop fuel' mixdown samples final (fst written) st)%run
      else ret st
  end.

(** Lines 755-763: the end of the study phase.  [rs] is an [int]. *)
Definition study_final (st : Impl) : Run Impl :=
  (cd <- lift (m_channelData st !! 0%nat) ;;
   let rs := wrap_int (RingBuffer.getReadSpace (inbuf cd)) in
   let st := set_m_inputDuration
               (size_add (m_inputDuration st) (wrap_size_t rs)) st in
   if m_windowSize st / 2 <? m_inputDuration st
   then ret (set_m_inputDuration
               (size_sub (m_inputDuration st) (m_windowSize st / 2)) st)
   else ret st)%run.

Definition study (fuel : nat) (input : list (list sample)) (samples : Z)
    (final : bool) (st : Impl) : Run Impl :=
  (if m_realtime st then ret st
   else if ProcessMode_eqb (m_mode st) Processing
           || ProcessMode_eqb (m_mode st) Finished
   then cerr CannotStudyAfterProcessing ;;; ret st
   else
     let st := set_m_mode Studying st in
     _ <- lift (m_channelData st !! 0%nat) ;;
     let mixdown :=
       if (1 <? m_channels st) || final
       then mixdown input samples (m_channels st)
       else nth 0 input [] in
     st <- study_loop fuel mixdown samples final 0 st ;;
     if final then study_final st else ret st)%run.

(** C2 as the claim words it: half a window is subtracted whenever the
    result stays non-negative, the equality case included.  For
    comparison with the test of line 760. *)
Definition deducted_as_claimed (inputDuration windowSize : Z) : Z :=
  if windowSize / 2 <=? inputDuration
  then inputDuration - windowSize / 2 else inputDuration.

(** What line 760 does: half a window is subtracted only from a longer
    duration. *)
Definition deducted (inputDuration windowSize : Z) : Z :=
  if windowSize / 2 <? inputDuration
  then inputDuration - windowSize / 2 else inputDuration.

(** ** getSamplesRequired (lines 836-869) *)

Fixpoint samples_required (windowSize : Z) (channelData : list ChannelData)
    (c count : nat) (reqd : Z) : option Z :=
  match count with
  | O => Some reqd
  | Datatypes.S count' =>
      cd ← channelData !! c;
      let rs := RingBuffer.getReadSpace (inbuf cd) in
      let next := samples_required windowSize channelData
                                   (Datatypes.S c) count' in
      if (rs <? windowSize) && negb (draining cd) then
        if inputSize cd =? -1 then
          let reqdHere := size_sub windowSize rs in
          next (if reqd <? reqdHere then reqdHere else reqd)
        else if rs =? 0 then
          let reqdHere := windowSize in
          next (if reqd <? reqdHere then reqdHere else reqd)
        else next reqd
      else next reqd
  end.

Definition getSamplesRequired (st : Impl) : option Z :=
  samples_required (m_windowSize st) (m_channelData st) 0%nat
                   (Z.to_nat (m_channels st)) 0.

(** C6 as the claim words it: what one channel requires. *)
Definition channel_requirement (windowSize : Z) (cd : ChannelData) : Z :=
  let rs := RingBuffer.getReadSpace (inbuf cd) in
  if (rs <? windowSize) && negb (draining cd) then
    if inputSize cd =? -1 then windowSize - rs
    else if rs =? 0 then windowSize
    else 0
  else 0.

(** The channels that the loops visit. *)
Definition channels (st : Impl) : list ChannelData :=
  take (Z.to_nat (m_channels st)) (m_channelData st).

(** ** process (lines 871-982)

    The entry of [process], lines 874-908: the first call computes the
    schedule when a study went before, resets the channels, pre-fills
    their input rings and enters Processing.  [None] in the result tells
    that [process] returns at once.  Creating the threads of threaded
    mode, and the consume loop that follows, use the processing code of
    another file. *)
Definition process_enter (st : Impl) : Run (option Impl) :=
  (if ProcessMode_eqb (m_mode st) Finished
   then cerr CannotProcessAfterFinalChunk ;;; ret None
   else if ProcessMode_eqb (m_mode st) JustCreated
           || ProcessMode_eqb (m_mode st) Studying
   then
     st <- (if ProcessMode_eqb (m_mode st) Studying
            then calculateStretch st else ret st) ;;
     st <- prefill_channels st ;;
     ret (Some (set_m_mode Processing st))
   else ret (Some st))%run.

(** ** consumeChannel (lines 984-1012) *)

Fixpoint consume_loop (fuel : nat) (c : nat) (input : list sample)
    (samples consumed : Z) (st : Impl) : Run (Z * Impl) :=
  match fuel with
  | O => stuck
  | Datatypes.S fuel' =>
      if consumed <? samples then
        (cd <- lift (m_channelData st !! c) ;;
         let writable := RingBuffer.getWriteSpace (inbuf cd) in
         let writable := Z.min writable (size_sub samples consumed) in
         if writable =? 0 then ret (consumed, st)
         else
           let inbuf := RingBuffer.write (inbuf cd)
                          (skipn (Z.to_nat consumed) input) writable in
           let cd := set_inbuf inbuf cd in
           let cd := set_inCount (size_add (inCount cd) writable) cd in
           consume_loop fuel' c input samples (size_add consumed writable)
                        (set_channel c cd st))%run
      else ret (samples, st)
  end.

(** Every pass of the loop that does not return consumes at least one
    sample, so [samples] passes and the last test are enough. *)
Definition consumeChannel (c : nat) (input : list sample) (samples : Z)
    (st : Impl) : Run (Z * Impl) :=
  (_ <- lift (m_channelData st !! c) ;;
   consume_loop (Datatypes.S (Z.to_nat samples)) c input samples 0 st)%run.

(** The channel after a call of consumeChannel that wrote [n] samples. *)
Definition consumed_channel (cd : ChannelData) (input : list sample) (n : Z)
    : ChannelData :=
  set_inCount (size_add (inCount cd) n)
    (set_inbuf
       {| RingBuffer.size := RingBuffer.size (inbuf cd);
          RingBuffer.data :=
            RingBuffer.data (inbuf cd) ++ firstn (Z.to_nat n) input |}
       cd).

(** The ratios, the mode and the realtime flag: no sizing or
    configuration code assigns them. *)
Definition same_ratios_and_mode (st st' : Impl) : Prop :=
  m_timeRatio st' = m_timeRatio st
  /\ m_pitchScale st' = m_pitchScale st
  /\ m_mode st' = m_mode st
  /\ m_realtime st' = m_realtime st.

(** The schedule, the calculator, the mode, the realtime flag and the
    sizes: the loops of study assign none of them. *)
Definition same_schedule (st st' : Impl) : Prop :=
  m_outputIncrements st' = m_outputIncrements st
  /\ m_stretchCalculator st' = m_stretchCalculator st
  /\ m_mode st' = m_mode st
  /\ m_realtime st' = m_realtime st
  /\ m_windowSize st' = m_windowSize st
  /\ m_increment st' = m_increment st
  /\ m_channels st' = m_channels st.

(** The samples in the input ring of channel 0. *)
Definition study_readSpace (st : Impl) : Z :=
  match m_channelData st !! 0%nat with
  | Some cd => RingBuffer.getReadSpace (inbuf cd)
  | None => 0
  end.

(** The capacity of the input ring of channel 0. *)
Definition study_ringSize (st : Impl) : Z :=
  match m_channelData st !! 0%nat with
  | Some cd => RingBuffer.size (inbuf cd)
  | None => 0
  end.

(** The window, the study FFT and the two curves exist. *)
Definition study_ready (st : Impl) : Prop :=
  is_Some (m_window st) /\ is_Some (m_studyFFT st)
  /\ is_Some (m_phaseResetAudioCurve st)
  /\ is_Some (m_stretchAudioCurve st).

(** The bookkeeping of study: the duration counted so far and the
    samples still in the input ring of channel 0 add up to the half
    window of the pre-fill and the [total] samples written. *)
Definition studied (st : Impl) (total : Z) : Prop :=
  exists cd,
    m_channelData st !! 0%nat = Some cd
    /\ RingBuffer.wf (inbuf cd)
    /\ RingBuffer.size (inbuf cd) < 2 ^ 31
    /\ 0 <= m_inputDuration st
    /\ m_inputDuration st + RingBuffer.getReadSpace (inbuf cd)
       = m_windowSize st / 2 + total.

(** [studied] and [study_ready], decided. *)
Definition studiedb (st : Impl) (total : Z) : bool :=
  match m_channelData st !! 0%nat with
  | Some cd =>
      let rs := RingBuffer.getReadSpace (inbuf cd) in
      (0 <=? rs) && (rs <=? RingBuffer.size (inbuf cd))
      && (RingBuffer.size (inbuf cd) <? 2 ^ 31)
      && (0 <=? m_inputDuration st)
      && (m_inputDuration st + rs =? m_windowSize st / 2 + total)
  | None => false
  end.

Definition study_readyb (st : Impl) : bool :=
  match m_window st, m_studyFFT st,
        m_phaseResetAudioCurve st, m_stretchAudioCurve st with
  | Some _, Some _, Some _, Some _ => true
  | _, _, _, _ => false
  end.

End Stretcher.

Arguments Impl : clear implicits.
Arguments Impl {_}.

(** ** A concrete set of collaborators

    Used to run the model on concrete inputs: detection curves without
    state that return 0, a calculator that gives every chunk the rounded
    product of the increment and the ratio, a window and an FFT that
    leave the samples as they are, channel data whose input ring holds
    the larger of the largest window and the output buffer size, and the
    option bits of the library's public header. *)
Module Reference.

Definition new_channel (windowSizes : gset Z) (windowSize outbufSize : Z)
    : ChannelData :=
  let maxSize := fold_right Z.max windowSize (elements windowSizes) in
  {| inbuf := RingBuffer.create (Z.max maxSize outbufSize);
     outbuf := RingBuffer.create outbufSize;
     accumulator := [];
     fltbuf := [];
     resampler := false;
     resamplebufSize := 0;
     inCount := 0;
     outCount := 0;
     inputSize := -1;
     draining := false |}.

Definition reset_channel (cd : ChannelData) : ChannelData :=
  {| inbuf := RingBuffer.reset (inbuf cd);
     outbuf := RingBuffer.reset (outbuf cd);
     accumulator := [];
     fltbuf := [];
     resampler := resampler cd;
     resamplebufSize := resamplebufSize cd;
     inCount := 0;
     outCount := 0;
     inputSize := -1;
     draining := false |}.

Definition collaborators : Collaborators :=
  {| AudioCurve := unit;
     PercussiveAudioCurve := fun _ _ => tt;
     HighFrequencyAudioCurve := fun _ _ => tt;
     ConstantAudioCurve := fun _ _ => tt;
     curve_process := fun curve _ _ => (0%Q, curve);
     curve_reset := fun curve => curve;
     curve_setWindowSize := fun curve _ => curve;
     calculate := fun calculator ratio _ phaseResetDf _ =>
       map (fun _ => lrint (inject_Z (sc_increment calculator) * ratio))
           phaseResetDf;
     window_cut := fun _ samples => samples;
     forwardMagnitude := fun _ samples => samples;
     ChannelData_new := new_channel ∅;
     ChannelData_new_sizes := new_channel;
     ChannelData_reset := reset_channel;
     ChannelData_setWindowSize := fun cd _ => cd;
     ChannelData_setOutbufSize := fun cd outbufSize =>
       {| inbuf := inbuf cd;
          outbuf := {| RingBuffer.size := outbufSize;
                       RingBuffer.data := RingBuffer.data (outbuf cd) |};
          accumulator := accumulator cd;
          fltbuf := fltbuf cd;
          resampler := resampler cd;
          resamplebufSize := resamplebufSize cd;
          inCount := inCount cd;
          outCount := outCount cd;
          inputSize := inputSize cd;
          draining := draining cd |};
     threadingPossible := true;
     OptionProcessRealTime := 1;
     OptionStretchPrecise := 16;
     OptionTransientsSmooth := 512;
     OptionThreadingNone := 65536;
     OptionWindowShort := 1048576;
     OptionWindowLong := 2097152 |}.

(** Offline objects for one channel at 48000 Hz and at 192000 Hz. *)
Definition offline_48k (timeRatio pitchScale : Q) : Impl :=
  @constructed collaborators 48000 1 0 timeRatio pitchScale.

Definition offline_192k (timeRatio pitchScale : Q) : Impl :=
  @constructed collaborators 192000 1 0 timeRatio pitchScale.

(** A realtime object for one channel at 48000 Hz. *)
Definition realtime_48k (timeRatio pitchScale : Q) : Impl :=
  @constructed collaborators 48000 1 1 timeRatio pitchScale.

(** An offline object for two channels at 48000 Hz. *)
Definition offline_stereo_48k (timeRatio pitchScale : Q) : Impl :=
  @constructed collaborators 48000 2 0 timeRatio pitchScale.

(** A short offline session: three samples studied in one final call,
    the first call of process entered, the object reset. *)
Definition three_samples : list (list sample) := [[1%Q; 1%Q; 1%Q]].

Definition studied (st : Impl) : Impl :=
  default st (final_state (@study collaborators 4 three_samples 3 true st)).

Definition entered (st : Impl) : Impl :=
  match @process_enter collaborators st with
  | Some (Some st', _) => st'
  | _ => st
  end.

Definition after_reset (st : Impl) : Impl :=
  default st (final_state (@reset collaborators st)).

Definition first_run : Impl := entered (studied (offline_48k 1 1)).

End Reference.

(** ** Further member functions

    The accessors of the frequency cutoffs and the two option setters.
    The option groups are those of the library's public header, which
    the file includes but does not define. *)
Class OptionGroups : Type := {
  OptionTransientsCrisp : Z;
  OptionTransientsMixed : Z;
  OptionPhaseAdaptive : Z;
  OptionPhasePeakLocked : Z;
  OptionPhaseIndependent : Z
}.

(** What [setTransientsOption] writes to [cerr]. *)
Inductive OptionDiagnostic : Type :=
  | TransientsOptionNotPermissibleInNonRealtime.

Section MoreOperations.

Context `{Collaborators} `{OptionGroups}.

Definition set_m_options (v : Z) (st : Impl) : Impl :=
  {| m_sampleRate := m_sampleRate st; m_channels := m_channels st;
     m_timeRatio := m_timeRatio st; m_pitchScale := m_pitchScale st;
     m_windowSize := m_windowSize st; m_increment := m_increment st;
     m_outbufSize := m_outbufSize st;
     m_maxProcessSize := m_maxProcessSize st;
     m_expectedInputDuration := m_expectedInputDuration st;
     m_threaded := m_threaded st; m_realtime := m_realtime st;
     m_options := v; m_mode := m_mode st;
     m_windows := m_windows st; m_window := m_window st;
     m_studyFFT := m_studyFFT st; m_inputDuration := m_inputDuration st;
     m_phaseResetDf := m_phaseResetDf st; m_stretchDf := m_stretchDf st;
     m_outputIncrements := m_outputIncrements st;
     m_phaseResetAudioCurve := m_phaseResetAudioCurve st;
     m_stretchAudioCurve := m_stretchAudioCurve st;
     m_stretchCalculator := m_stretchCalculator st; m_freq0 := m_freq0 st;
     m_freq1 := m_freq1 st; m_freq2 := m_freq2 st;
     m_baseWindowSize := m_baseWindowSize st;
     m_rateMultiple := m_rateMultiple st; m_channelData := m_channelData st |}.

Definition set_m_freq0 (v : Q) (st : Impl) : Impl :=
  {| m_sampleRate := m_sampleRate st; m_channels := m_channels st;
     m_timeRatio := m_timeRatio st; m_pitchScale := m_pitchScale st;
     m_windowSize := m_windowSize st; m_increment := m_increment st;
     m_outbufSize := m_outbufSize st;
     m_maxProcessSize := m_maxProcessSize st;
     m_expectedInputDuration := m_expectedInputDuration st;
     m_threaded := m_threaded st; m_realtime := m_realtime st;
     m_options := m_options st; m_mode := m_mode st;
     m_windows := m_windows st; m_window := m_window st;
     m_studyFFT := m_studyFFT st; m_inputDuration := m_inputDuration st;
     m_phaseResetDf := m_phaseResetDf st; m_stretchDf := m_stretchDf st;
     m_outputIncrements := m_outputIncrements st;
     m_phaseResetAudioCurve := m_phaseResetAudioCurve st;
     m_stretchAudioCurve := m_stretchAudioCurve st;
     m_stretchCalculator := m_stretchCalculator st; m_freq0 := v;
     m_freq1 := m_freq1 st; m_freq2 := m_freq2 st;
     m_baseWindowSize := m_baseWindowSize st;
     m_rateMultiple := m_rateMultiple st; m_channelData := m_channelData st |}.

Definition set_m_freq1 (v : Q) (st : Impl) : Impl :=
  {| m_sampleRate := m_sampleRate st; m_channels := m_channels st;
     m_timeRatio := m_timeRatio st; m_pitchScale := m_pitchScale st;
     m_windowSize := m_windowSize st; m_increment := m_increment st;
     m_outbufSize := m_outbufSize st;
     m_maxProcessSize := m_maxProcessSize st;
     m_expectedInputDuration := m_expectedInputDuration st;
     m_threaded := m_threaded st; m_realtime := m_realtime st;
     m_options := m_options st; m_mode := m_mode st;
     m_windows := m_windows st; m_window := m_window st;
     m_studyFFT := m_studyFFT st; m_inputDuration := m_inputDuration st;
     m_phaseResetDf := m_phaseResetDf st; m_stretchDf := m_stretchDf st;
     m_outputIncrements := m_outputIncrements st;
     m_phaseResetAudioCurve := m_phaseResetAudioCurve st;
     m_stretchAudioCurve := m_stretchAudioCurve st;
     m_stretchCalculator := m_stretchCalculator st; m_freq0 := m_freq0 st;
     m_freq1 := v; m_freq2 := m_freq2 st;
     m_baseWindowSize := m_baseWindowSize st;
     m_rateMultiple := m_rateMultiple st; m_channelData := m_channelData st |}.

Definition set_m_freq2 (v : Q) (st : Impl) : Impl :=
  {| m_sampleRate := m_sampleRate st; m_channels := m_channels st;
     m_timeRatio := m_timeRatio st; m_pitchScale := m_pitchScale st;
     m_windowSize := m_windowSize st; m_increment := m_increment st;
     m_outbufSize := m_outbufSize st;
     m_maxProcessSize := m_maxProcessSize st;
     m_expectedInputDuration := m_expectedInputDuration st;
     m_threaded := m_threaded st; m_realtime := m_realtime st;
     m_options := m_options st; m_mode := m_mode st;
     m_windows := m_windows st; m_window := m_window st;
     m_studyFFT := m_studyFFT st; m_inputDuration := m_inputDuration st;
     m_phaseResetDf := m_phaseResetDf st; m_stretchDf := m_stretchDf st;
     m_outputIncrements := m_outputIncrements st;
     m_phaseResetAudioCurve := m_phaseResetAudioCurve st;
     m_stretchAudioCurve := m_stretchAudioCurve st;
     m_stretchCalculator := m_stretchCalculator st; m_freq0 := m_freq0 st;
     m_freq1 := m_freq1 st; m_freq2 := v;
     m_baseWindowSize := m_baseWindowSize st;
     m_rateMultiple := m_rateMultiple st; m_channelData := m_channelData st |}.

(** ** getFrequencyCutoff, setFrequencyCutoff (lines 249-268)

    [n] is an [int]; a value outside 0..2 falls through the switch. *)
Definition getFrequencyCutoff (n : Z) (st : Impl) : Q :=
  if n =? 0 then m_freq0 st
  else if n =? 1 then m_freq1 st
  else if n =? 2 then m_freq2 st
  else 0%Q.

Definition setFrequencyCutoff (n : Z) (f : Q) (st : Impl) : Impl :=
  if n =? 0 then set_m_freq0 f st
  else if n =? 1 then set_m_freq1 f st
  else if n =? 2 then set_m_freq2 f st
  else st.

(** ** setTransientsOption, setPhaseOption (lines 626-649)

    [Options] is an [int]; the bit operations on two's complement
    integers are those of [Z]. *)
Definition transients_mask : Z :=
  Z.lor (Z.lor OptionTransientsMixed OptionTransientsSmooth)
        OptionTransientsCrisp.

Definition phase_mask : Z :=
  Z.lor (Z.lor OptionPhaseAdaptive OptionPhasePeakLocked)
        OptionPhaseIndependent.

(** StretchCalculator::setUseHardPeaks *)
Definition setUseHardPeaks (v : bool) (calculator : StretchCalculator)
    : StretchCalculator :=
  {| sc_sampleRate := sc_sampleRate calculator;
     sc_increment := sc_increment calculator;
     sc_useHardPeaks := v |}.

(** The options are assigned before the calculator is reached through
    its pointer: no result while that is null. *)
Definition setTransientsOption (options : Z) (st : Impl)
    : option (Impl * list OptionDiagnostic) :=
  if negb (m_realtime st)
  then Some (st, [TransientsOptionNotPermissibleInNonRealtime])
  else
    let st := set_m_options
                (Z.land (m_options st) (Z.lnot transients_mask)) st in
    let st := set_m_options (Z.lor (m_options st) options) st in
    calculator ← m_stretchCalculator st;
    Some (set_m_stretchCalculator
            (Some (setUseHardPeaks
                     (negb (has_option (m_options st) OptionTransientsSmooth))
                     calculator)) st, []).

Definition setPhaseOption (options : Z) (st : Impl) : Impl :=
  let st := set_m_options (Z.land (m_options st) (Z.lnot phase_mask)) st in
  set_m_options (Z.lor (m_options st) options) st.

(** An option value that lies within a group of bits. *)
Definition within (options mask : Z) : Prop :=
  Z.land options (Z.lnot mask) = 0.

(** ** Invariants of a configured object *)

(** What construction leaves and reconfiguration keeps: the channel
    vector has its [m_channels] entries, the current window is the cached
    window of [m_windowSize], the detection curve and the calculator
    exist, offline the study FFT has the window size and the stretch
    curve exists, and the base window size is a [size_t] that is not
    zero. *)
Definition configured (st : Impl) : Prop :=
  length (m_channelData st) = Z.to_nat (m_channels st)
  /\ m_window st = Some (m_windowSize st)
  /\ m_windowSize st ∈ m_windows st
  /\ is_Some (m_phaseResetAudioCurve st)
  /\ is_Some (m_stretchCalculator st)
  /\ (m_realtime st = false ->
      m_studyFFT st = Some (m_windowSize st)
      /\ is_Some (m_stretchAudioCurve st))
  /\ 1 <= m_baseWindowSize st < 2 ^ 64.

(** The members that the sizing computation reads or assigns, and the
    number of channels. *)
Definition same_sizes (st st' : Impl) : Prop :=
  m_windowSize st' = m_windowSize st
  /\ m_increment st' = m_increment st
  /\ m_outbufSize st' = m_outbufSize st
  /\ m_maxProcessSize st' = m_maxProcessSize st
  /\ m_expectedInputDuration st' = m_expectedInputDuration st
  /\ m_baseWindowSize st' = m_baseWindowSize st
  /\ m_rateMultiple st' = m_rateMultiple st
  /\ m_threaded st' = m_threaded st
  /\ m_channels st' = m_channels st
  /\ m_timeRatio st' = m_timeRatio st
  /\ m_pitchScale st' = m_pitchScale st
  /\ m_realtime st' = m_realtime st.

(** The detection curves collected by study and the schedule. *)
Definition same_curves (st st' : Impl) : Prop :=
  m_phaseResetDf st' = m_phaseResetDf st
  /\ m_stretchDf st' = m_stretchDf st
  /\ m_outputIncrements st' = m_outputIncrements st.

(** What the schedule and the curves are after a reconfiguration of
    [st] that led to [st']: offline with a study under way the schedule
    of the curves collected so far is appended and the curves are
    cleared; otherwise all three are as before. *)
Definition study_closed (st st' : Impl) : Prop :=
  if negb (m_realtime st) && ProcessMode_eqb (m_mode st) Studying
  then exists calculator,
         m_stretchCalculator st = Some calculator
         /\ m_phaseResetDf st' = []
         /\ m_stretchDf st' = []
         /\ m_outputIncrements st'
            = m_outputIncrements st
              ++ calculate calculator (getEffectiveRatio st)
                   (m_inputDuration st) (m_phaseResetDf st) (m_stretchDf st)
  else same_curves st st'.

(** What study, reset and the entry of process leave of a configured
    object: the number of channels and of channel entries, the window
    and its size, the cached windows, the study FFT, the base window
    size and the realtime flag; a curve or a calculator that exists
    still exists. *)
Definition same_setup (st st' : Impl) : Prop :=
  length (m_channelData st') = length (m_channelData st)
  /\ m_channels st' = m_channels st
  /\ m_windowSize st' = m_windowSize st
  /\ m_window st' = m_window st
  /\ m_windows st' = m_windows st
  /\ m_studyFFT st' = m_studyFFT st
  /\ m_baseWindowSize st' = m_baseWindowSize st
  /\ m_realtime st' = m_realtime st
  /\ (is_Some (m_phaseResetAudioCurve st) ->
      is_Some (m_phaseResetAudioCurve st'))
  /\ (is_Some (m_stretchAudioCurve st) -> is_Some (m_stretchAudioCurve st'))
  /\ (is_Some (m_stretchCalculator st) -> is_Some (m_stretchCalculator st')).

(** A state whose sizing stays within the range where [roundUp] and the
    casts are exact: the base window size is a power of two between 4
    and 2^30, the rate multiple lies between 1 and 2^19, and the
    effective ratio between 2^-28 and 2^27. *)
Definition sizing_in_range (st : Impl) : Prop :=
  is_power_of_two (m_baseWindowSize st)
  /\ 4 <= m_baseWindowSize st <= 2 ^ 30
  /\ (1 <= m_rateMultiple st)%Q
  /\ (m_rateMultiple st <= inject_Z (2 ^ 19))%Q
  /\ (1 <= inject_Z (2 ^ 28) * getEffectiveRatio st)%Q
  /\ (getEffectiveRatio st <= inject_Z (2 ^ 27))%Q.

(** What feeding channel [c] does to a state: the window size, the
    number of channels and the other channels are as before, and
    channel [c] holds at least the samples it held, with the same
    draining flag and input size. *)
Definition fed (c : nat) (st st' : Impl) : Prop :=
  m_windowSize st' = m_windowSize st
  /\ m_channels st' = m_channels st
  /\ length (m_channelData st') = length (m_channelData st)
  /\ (forall j, j <> c -> m_channelData st' !! j = m_channelData st !! j)
  /\ (forall cd, m_channelData st !! c = Some cd ->
      exists cd', m_channelData st' !! c = Some cd'
                  /\ draining cd' = draining cd
                  /\ inputSize cd' = inputSize cd
                  /\ RingBuffer.getReadSpace (inbuf cd)
                     <= RingBuffer.getReadSpace (inbuf cd')).

(** [k] chunks were analysed between [st] and [st']: each of the two
    detection curves has [k] more values, and the duration has grown by
    [k] increments. *)
Definition analysed (k : nat) (st st' : Impl) : Prop :=
  exists l1 l2,
    length l1 = k /\ length l2 = k
    /\ m_phaseResetDf st' = m_phaseResetDf st ++ l1
    /\ m_stretchDf st' = m_stretchDf st ++ l2
    /\ m_inputDuration st'
       = m_inputDuration st + Z.of_nat k * m_increment st.

(** A ratio for which the clamped input increment of the squashing
    cases fits: at least 2^-28. *)
Definition ratio_in_range (r : Q) : Prop :=
  (1 <= inject_Z (2 ^ 28) * r)%Q.

End MoreOperations.

(** The option groups of the library's public header. *)
Definition reference_option_groups : OptionGroups :=
  {| OptionTransientsCrisp := 0;
     OptionTransientsMixed := 256;
     OptionPhaseAdaptive := 0;
     OptionPhasePeakLocked := 4096;
     OptionPhaseIndependent := 8192 |}.

(** An offline object in mode Studying: three samples studied in a call
    that is not final. *)
Definition studying_48k : Impl :=
  let st := Reference.offline_48k 1 1 in
  default st
    (final_state
       (@study Reference.collaborators 4 Reference.three_samples 3 false st)).

(** * Properties *)

(** ** Machine integers *)

Section MachFacts.

Lemma wrap_size_t_id z : in_size_t z -> wrap_size_t z = z.
Proof. unfold in_size_t, wrap_size_t. intros Hz. now apply Z.mod_small. Qed.

Lemma wrap_size_t_range z : in_size_t (wrap_size_t z).
Proof.
  unfold in_size_t, wrap_size_t, size_t_modulus.
  apply Z.mod_pos_bound. lia.
Qed.

Lemma wrap_int_id z : in_int z -> wrap_int z = z.
Proof.
  unfold in_int, wrap_int, int_half, int_modulus. intros Hz.
  rewrite Z.mod_small; lia.
Qed.

Lemma wrap_int_range z : in_int (wrap_int z).
Proof.
  unfold in_int, wrap_int, int_half, int_modulus.
  pose proof (Z.mod_pos_bound (z + 2 ^ 31) (2 ^ 32)). lia.
Qed.

Lemma wrap_long_id z : in_long z -> wrap_long z = z.
Proof.
  unfold in_long, wrap_long, long_half, size_t_modulus. intros Hz.
  rewrite Z.mod_small; lia.
Qed.

Lemma size_add_id a b : in_size_t (a + b) -> size_add a b = a + b.
Proof. apply wrap_size_t_id. Qed.

Lemma size_sub_id a b : in_size_t (a - b) -> size_sub a b = a - b.
Proof. apply wrap_size_t_id. Qed.

Lemma size_mul_id a b : in_size_t (a * b) -> size_mul a b = a * b.
Proof. apply wrap_size_t_id. Qed.

Lemma Qltb_lt x y : Qltb x y = true <-> (x < y)%Q.
Proof.
  unfold Qltb. rewrite negb_true_iff. split.
  - intros Hle. apply Qnot_le_lt. intros Hyx.
    apply Qle_bool_iff in Hyx. congruence.
  - intros Hlt. destruct (Qle_bool y x) eqn:E; [| reflexivity].
    apply Qle_bool_iff in E. exfalso. exact (Qlt_not_le _ _ Hlt E).
Qed.

Lemma Qltb_ge x y : Qltb x y = false <-> (y <= x)%Q.
Proof.
  unfold Qltb. rewrite negb_false_iff. apply Qle_bool_iff.
Qed.

(** Dropping the fraction of a non-negative rational is taking its
    floor. *)
Lemma Qtrunc_floor x : (0 <= x)%Q -> Qtrunc x = Qfloor x.
Proof.
  destruct x as [n d]. unfold Qle, Qtrunc, Qfloor. simpl. intros Hn.
  apply Z.quot_div_nonneg; lia.
Qed.

Lemma Qtrunc_inject_Z z : Qtrunc (inject_Z z) = z.
Proof. unfold Qtrunc. simpl. apply Z.quot_1_r. Qed.

End MachFacts.

(** ** Loops *)

Section LoopFacts.

Context {S : Type} (cond : S -> bool) (body : S -> S).

Lemma iterate_succ k s : iterate (Datatypes.S k) body s = body (iterate k body s).
Proof.
  revert s. induction k as [| k IH]; intros s; [reflexivity |].
  change (iterate (Datatypes.S (Datatypes.S k)) body s)
    with (iterate (Datatypes.S k) body (body s)).
  rewrite IH. reflexivity.
Qed.

(** A loop that returns has run its body some [k] times: the test held
    before each of them and fails after the last. *)
Lemma while_loop_iterate fuel s s' :
  while_loop fuel cond body s = Some s' ->
  exists k, (k < fuel)%nat /\ s' = iterate k body s
            /\ cond s' = false
            /\ forall j, (j < k)%nat -> cond (iterate j body s) = true.
Proof.
  revert s. induction fuel as [| fuel IH]; intros s; simpl; [discriminate |].
  destruct (cond s) eqn:Hc.
  - intros Hw. destruct (IH _ Hw) as (k & Hk & -> & Hf & Hj).
    exists (Datatypes.S k). repeat split; [lia | exact Hf |].
    intros [| j] Hlt; [exact Hc | apply Hj; lia].
  - intros [= <-]. exists 0%nat. repeat split; [lia | exact Hc |].
    intros j Hj. lia.
Qed.

(** A loop whose test fails after [k] passes returns within [k + 1]
    units of fuel. *)
Lemma while_loop_terminates fuel k s :
  (k < fuel)%nat ->
  cond (iterate k body s) = false ->
  exists s', while_loop fuel cond body s = Some s'.
Proof.
  revert k s. induction fuel as [| fuel IH]; intros k s Hk Hc; [lia |].
  simpl. destruct (cond s) eqn:Hs; [| eauto].
  destruct k as [| k]; [simpl in Hc; congruence |].
  apply (IH k); [lia | exact Hc].
Qed.

End LoopFacts.

(** ** roundUp *)

Section RoundUpFacts.

Lemma land_even_odd a b : Z.land (2 * a) (2 * b + 1) = 2 * Z.land a b.
Proof.
  apply Z.bits_inj'. intros n Hn.
  rewrite Z.land_spec.
  destruct (Z.eq_dec n 0) as [-> | Hne].
  - rewrite Z.testbit_even_0, Z.testbit_even_0. reflexivity.
  - replace n with (Z.succ (n - 1)) by lia.
    rewrite Z.testbit_even_succ, Z.testbit_odd_succ, Z.testbit_even_succ by lia.
    now rewrite Z.land_spec.
Qed.

Lemma land_odd_even a : Z.land (2 * a + 1) (2 * a) = 2 * a.
Proof.
  apply Z.bits_inj'. intros n Hn.
  rewrite Z.land_spec.
  destruct (Z.eq_dec n 0) as [-> | Hne].
  - rewrite Z.testbit_odd_0, Z.testbit_even_0. reflexivity.
  - replace n with (Z.succ (n - 1)) by lia.
    rewrite Z.testbit_odd_succ, Z.testbit_even_succ by lia.
    apply andb_diag.
Qed.

Lemma land_pred_pos p :
  (Z.land (Zpos p) (Zpos p - 1) =? 0) = pow2_pos p.
Proof.
  induction p as [q IH | q IH |]; simpl pow2_pos.
  - replace (Zpos q~1 - 1) with (2 * Zpos q) by lia.
    replace (Zpos q~1) with (2 * Zpos q + 1) by lia.
    rewrite land_odd_even. apply Z.eqb_neq. lia.
  - replace (Zpos q~0 - 1) with (2 * (Zpos q - 1) + 1) by lia.
    replace (Zpos q~0) with (2 * Zpos q) by lia.
    rewrite land_even_odd, <- IH.
    destruct (Z.eqb_spec (Z.land (Zpos q) (Zpos q - 1)) 0) as [E | E].
    + rewrite E. reflexivity.
    + apply Z.eqb_neq. lia.
  - reflexivity.
Qed.

Lemma pow2_pos_spec p : pow2_pos p = true <-> is_power_of_two (Zpos p).
Proof.
  induction p as [q IH | q IH |]; simpl.
  - split; [discriminate |]. intros (k & Hk & E).
    destruct (Z.eq_dec k 0) as [-> | Hne]; [simpl in E; lia |].
    replace k with (Z.succ (k - 1)) in E by lia.
    rewrite Z.pow_succ_r in E by lia. lia.
  - rewrite IH. split.
    + intros (k & Hk & E). exists (Z.succ k). split; [lia |].
      rewrite Z.pow_succ_r by lia. lia.
    + intros (k & Hk & E).
      destruct (Z.eq_dec k 0) as [-> | Hne]; [simpl in E; lia |].
      exists (k - 1). split; [lia |].
      replace k with (Z.succ (k - 1)) in E by lia.
      rewrite Z.pow_succ_r in E by lia. lia.
  - split; [| reflexivity]. intros _. exists 0. split; [lia | reflexivity].
Qed.

(** The loop counts the binary digits: one more than the base-2
    logarithm. *)
Lemma count_bits_log2 p bits :
  0 <= bits -> bits + Z.log2 (Zpos p) + 1 < int_half ->
  count_bits p bits = bits + Z.log2 (Zpos p) + 1.
Proof.
  revert bits. unfold int_half.
  induction p as [q IH | q IH |]; intros bits Hb Hlt; simpl count_bits;
    try pose proof (Z.log2_nonneg (Zpos q)) as Hq.
  - replace (Zpos q~1) with (2 * Zpos q + 1) in * by lia.
    rewrite Z.log2_succ_double in * by lia.
    rewrite wrap_int_id by (unfold in_int, int_half; lia).
    rewrite IH; lia.
  - replace (Zpos q~0) with (2 * Zpos q) in * by lia.
    rewrite Z.log2_double in * by lia.
    rewrite wrap_int_id by (unfold in_int, int_half; lia).
    rewrite IH; lia.
  - change (Z.log2 1) with 0 in *. rewrite Z.add_0_r in *.
    apply wrap_int_id. unfold in_int, int_half. lia.
Qed.

Lemma roundUp_power_of_two v :
  0 < v < size_t_modulus -> is_power_of_two v -> roundUp v = v.
Proof.
  intros Hv Hp. unfold roundUp.
  rewrite size_sub_id by (unfold in_size_t; lia).
  destruct v as [| p |]; try lia.
  rewrite land_pred_pos. apply pow2_pos_spec in Hp. now rewrite Hp.
Qed.

Lemma roundUp_not_power_of_two v :
  0 < v <= 2 ^ 30 -> ~ is_power_of_two v ->
  roundUp v = 2 ^ (Z.log2 v + 1).
Proof.
  intros Hv Hp. unfold roundUp.
  rewrite size_sub_id by (unfold in_size_t, size_t_modulus; lia).
  destruct v as [| p |]; try lia.
  rewrite land_pred_pos.
  destruct (pow2_pos p) eqn:E; [apply pow2_pos_spec in E; contradiction |].
  assert (Hlog : Z.log2 (Zpos p) < 30).
  { apply Z.log2_lt_pow2; [lia |].
    destruct (Z.eq_dec (Zpos p) (2 ^ 30)) as [E30 | ?]; [| lia].
    exfalso. apply Hp. exists 30. split; [lia | exact E30]. }
  pose proof (Z.log2_nonneg (Zpos p)) as Hnn.
  rewrite count_bits_log2 by (unfold int_half; lia).
  unfold int_shl. rewrite Z.shiftl_1_l, Z.add_0_l.
  assert (Hr : 0 < 2 ^ (Z.log2 (Zpos p) + 1) <= 2 ^ 30).
  { split; [apply Z.pow_pos_nonneg; lia | apply Z.pow_le_mono_r; lia]. }
  rewrite wrap_int_id by (unfold in_int, int_half; lia).
  apply wrap_size_t_id. unfold in_size_t, size_t_modulus. lia.
Qed.

Lemma power_of_two_dec v : 0 < v -> {is_power_of_two v} + {~ is_power_of_two v}.
Proof.
  intros Hv. destruct v as [| p |]; try lia.
  destruct (pow2_pos p) eqn:E.
  - left. now apply pow2_pos_spec.
  - right. intros Hp. apply pow2_pos_spec in Hp. congruence.
Qed.

Lemma power_of_two_pos v : is_power_of_two v -> 0 < v.
Proof. intros (k & Hk & ->). apply Z.pow_pos_nonneg; lia. Qed.

(** Below 2^30, a value that is not a power of two is rounded up to the
    least power of two above it, whose half is below the value. *)
Lemma roundUp_least v :
  0 < v <= 2 ^ 30 -> ~ is_power_of_two v ->
  least_power_of_two_above v (roundUp v) /\ roundUp v / 2 < v.
Proof.
  intros Hv Hp. rewrite (roundUp_not_power_of_two v Hv Hp).
  pose proof (Z.log2_nonneg v) as Hnn.
  destruct (Z.log2_spec v) as [Hlo Hhi]; [lia |].
  replace (Z.succ (Z.log2 v)) with (Z.log2 v + 1) in Hhi by lia.
  assert (Hne : 2 ^ Z.log2 v <> v).
  { intros E. apply Hp. exists (Z.log2 v). split; [lia | now symmetry]. }
  assert (Hhalf : 2 ^ (Z.log2 v + 1) / 2 = 2 ^ Z.log2 v).
  { rewrite Z.pow_add_r by lia. change (2 ^ 1) with 2.
    apply Z.div_mul. lia. }
  repeat split.
  - exists (Z.log2 v + 1). split; [lia | reflexivity].
  - lia.
  - intros r' (k & Hk & ->) Hle.
    apply Z.pow_le_mono_r; [lia |].
    destruct (Z_lt_le_dec (Z.log2 v) k) as [Hlt | Hge]; [lia |].
    exfalso. assert (2 ^ k <= 2 ^ Z.log2 v) by (apply Z.pow_le_mono_r; lia).
    lia.
  - rewrite Hhalf. lia.
Qed.

End RoundUpFacts.

(** C9, as stated, fails: just above 2^30 the shift [1 << bits] leaves
    the 32-bit [int] it is computed in.  For 2^30 + 1 the function
    returns 2^64 - 2^31, which is neither the next power of two, 2^31,
    nor a power of two at all, and whose half is not below the
    argument. *)
Lemma roundUp_above_int_counterexample :
  roundUp (2 ^ 30 + 1) = 2 ^ 64 - 2 ^ 31
  /\ ~ least_power_of_two_above (2 ^ 30 + 1) (roundUp (2 ^ 30 + 1))
  /\ ~ roundUp (2 ^ 30 + 1) / 2 < 2 ^ 30 + 1.
Proof.
  assert (E : roundUp (2 ^ 30 + 1) = 2 ^ 64 - 2 ^ 31) by (vm_compute; reflexivity).
  split; [exact E |]. rewrite E. split.
  - intros [Hp _]. apply (proj2 (pow2_pos_spec _)) in Hp.
    vm_compute in Hp. discriminate.
  - vm_compute. discriminate.
Qed.

(** C9 (amended): roundUp returns a power of two unchanged; a positive
    value up to 2^30 that is not a power of two is rounded up to the
    next higher power of two; so for positive values up to 2^30 the
    result is at least the value and, for values above 1, half the
    result is below the value. *)
Theorem roundUp_spec v :
  0 < v < 2 ^ 64 ->
  (is_power_of_two v -> roundUp v = v)
  /\ (v <= 2 ^ 30 ->
      (~ is_power_of_two v ->
       least_power_of_two_above v (roundUp v) /\ v < roundUp v)
      /\ v <= roundUp v
      /\ (1 < v -> roundUp v / 2 < v)).
Proof.
  intros Hv. split; [apply roundUp_power_of_two; exact Hv |].
  intros Hle.
  assert (Hnp : ~ is_power_of_two v ->
                least_power_of_two_above v (roundUp v) /\ v < roundUp v
                /\ roundUp v / 2 < v).
  { intros Hp. destruct (roundUp_least v) as [Hl Hh]; [lia | exact Hp |].
    repeat split; try apply Hl; [| exact Hh].
    destruct Hl as (Hr & Hvr & _).
    destruct (Z.eq_dec v (roundUp v)) as [E | ?]; [| lia].
    rewrite <- E in Hr. contradiction. }
  repeat split.
  - apply Hnp; assumption.
  - apply Hnp; assumption.
  - apply Hnp; assumption.
  - apply Hnp; assumption.
  - destruct (power_of_two_dec v) as [Hp | Hp]; [lia | |].
    + rewrite roundUp_power_of_two by assumption. lia.
    + destruct (Hnp Hp) as (_ & Hlt & _). lia.
  - intros H1. destruct (power_of_two_dec v) as [Hp | Hp]; [lia | |].
    + rewrite roundUp_power_of_two by assumption.
      apply Z.div_lt_upper_bound; lia.
    + apply Hnp; assumption.
Qed.

Lemma roundUp_spec_witness :
  least_power_of_two_above 2046 (roundUp 2046) /\ roundUp 2046 / 2 < 2046.
Proof.
  assert (Hv : 0 < 2046 < 2 ^ 64) by lia.
  assert (Hle : 2046 <= 2 ^ 30) by lia.
  assert (Hnp : ~ is_power_of_two 2046).
  { intros Hp. apply (proj2 (pow2_pos_spec _)) in Hp. discriminate. }
  destruct (roundUp_spec 2046 Hv) as [_ Hs].
  destruct (Hs Hle) as (Ha & _ & Hb).
  split; [apply (Ha Hnp) | apply Hb; lia].
Defined.

(** ** calculateSizes *)

Section SizesFacts.

Context `{Collaborators}.

Lemma iterate_halve k i :
  0 <= i -> iterate k (fun i => i / 2) i = i / 2 ^ Z.of_nat k.
Proof.
  revert i. induction k as [| k IH]; intros i Hi.
  - simpl. now rewrite Z.div_1_r.
  - change (iterate (Datatypes.S k) (fun i => i / 2) i)
      with (iterate k (fun i => i / 2) (i / 2)).
    rewrite IH by (apply Z.div_pos; lia).
    rewrite Nat2Z.inj_succ, Z.pow_succ_r by lia.
    rewrite Z.div_div by (try apply Z.pow_pos_nonneg; lia). reflexivity.
Qed.

Lemma div_pow2_small i k : 0 <= i < 2 ^ k -> 0 <= k -> i / 2 ^ k = 0.
Proof. intros Hi Hk. apply Z.div_small. exact Hi. Qed.

Lemma inject_Z_nonneg x : 0 <= x -> (0 <= inject_Z x)%Q.
Proof. intros Hx. unfold Qle. simpl. lia. Qed.

(** The cast [int(x / r)] of the offline case, for an output increment
    that fits an [int] and a ratio of at least one, is the floor of the
    quotient and is at most the output increment. *)
Lemma offline_increment_floor (r : Q) x :
  (1 <= r)%Q -> 0 <= x < 2 ^ 31 ->
  wrap_size_t (int_of_double (double_of_size_t x / r))
  = Qfloor (inject_Z x / r)
  /\ 0 <= Qfloor (inject_Z x / r) <= x.
Proof.
  intros Hr Hx. unfold int_of_double, double_of_size_t.
  assert (Hr0 : (0 < r)%Q) by (eapply Qlt_le_trans; [| exact Hr]; reflexivity).
  assert (Hq0 : (0 <= inject_Z x / r)%Q).
  { apply Qle_shift_div_l; [exact Hr0 |]. rewrite Qmult_0_l.
    apply inject_Z_nonneg. lia. }
  assert (Hqx : (inject_Z x / r <= inject_Z x)%Q).
  { apply Qle_shift_div_r; [exact Hr0 |].
    rewrite <- (Qmult_1_r (inject_Z x)) at 1.
    apply Qmult_le_compat_nonneg.
    - split; [apply inject_Z_nonneg; lia | apply Qle_refl].
    - split; [discriminate | exact Hr]. }
  assert (Hf : 0 <= Qfloor (inject_Z x / r) <= x).
  { split.
    - rewrite <- (Qfloor_Z 0). now apply Qfloor_resp_le.
    - rewrite <- (Qfloor_Z x) at 2. now apply Qfloor_resp_le. }
  split; [| exact Hf].
  rewrite Qtrunc_floor by exact Hq0.
  rewrite wrap_int_id by (unfold in_int, int_half; lia).
  apply wrap_size_t_id. unfold in_size_t, size_t_modulus. lia.
Qed.

End SizesFacts.

Section OfflineStretch.

Context `{Collaborators}.

(** The body of the offline halving loop, [k] times: the output
    increment is halved [k] times and the input increment computed from
    it. *)
Lemma offline_halving_iterate (r : Q) k s :
  inputIncrement s
  = wrap_size_t (int_of_double (double_of_size_t (outputIncrement s) / r)) ->
  0 <= outputIncrement s ->
  iterate k
    (fun s =>
       let outputIncrement := outputIncrement s / 2 in
       {| inputIncrement :=
            wrap_size_t (int_of_double (double_of_size_t outputIncrement / r));
          windowSize := windowSize s;
          outputIncrement := outputIncrement |}) s
  = {| inputIncrement :=
         wrap_size_t
           (int_of_double
              (double_of_size_t (outputIncrement s / 2 ^ Z.of_nat k) / r));
       windowSize := windowSize s;
       outputIncrement := outputIncrement s / 2 ^ Z.of_nat k |}.
Proof.
  revert s. induction k as [| k IH]; intros s Hi Ho.
  - simpl. rewrite Z.div_1_r, <- Hi. now destruct s.
  - cbn [iterate]. rewrite IH; cbn [inputIncrement outputIncrement windowSize].
    + rewrite Nat2Z.inj_succ, Z.pow_succ_r by lia.
      rewrite Z.div_div by (try apply Z.pow_pos_nonneg; lia). reflexivity.
    + reflexivity.
    + apply Z.div_pos; lia.
Qed.

(** The doubling loop of lines 326 and 350 ends for every window size
    that is not zero. *)
Lemma doubling_terminates fuel w :
  1 <= w -> 8192 <= w * 2 ^ Z.of_nat fuel ->
  exists w', while_loop (Datatypes.S fuel) (fun w => w <? 8192)
                        (fun w => size_mul w 2) w = Some w'.
Proof.
  revert w. induction fuel as [| fuel IH]; intros w Hw Hb.
  - simpl in *. destruct (Z.ltb_spec w 8192); [lia | eauto].
  - cbn [while_loop]. destruct (Z.ltb_spec w 8192) as [Hlt | Hge]; [| eauto].
    apply IH.
    + rewrite size_mul_id by (unfold in_size_t, size_t_modulus; lia). lia.
    + rewrite size_mul_id by (unfold in_size_t, size_t_modulus; lia).
      rewrite Nat2Z.inj_succ, Z.pow_succ_r in Hb by lia. lia.
Qed.

Lemma stretch_windowSize_returns (r : Q) s :
  1 <= windowSize s ->
  exists w, stretch_windowSize r s
            = Some {| inputIncrement := inputIncrement s;
                      windowSize := w;
                      outputIncrement := outputIncrement s |}.
Proof.
  intros Hw. unfold stretch_windowSize.
  destruct (Qltb 5 r); [| eauto].
  destruct (doubling_terminates 64
              (Z.max (windowSize s) (roundUp (size_mul (outputIncrement s) 6))))
    as [w' Hw']; [lia | lia |].
  unfold sizes_fuel. rewrite Hw'. simpl. eauto.
Qed.

(** The halving loops on the input increment end: after 64 halvings a
    [size_t] is zero. *)
Lemma fit_expectedInputDuration_returns st i :
  0 <= i < 2 ^ 64 ->
  exists i', fit_expectedInputDuration st i = Some i'
             /\ (m_expectedInputDuration st = 0 -> i' = i).
Proof.
  intros Hi. unfold fit_expectedInputDuration.
  destruct (Z.ltb_spec 0 (m_expectedInputDuration st)) as [Hpos | Hz].
  - destruct (while_loop_terminates
                (fun i => (m_expectedInputDuration st <? size_mul i 4) && (1 <? i))
                (fun i => i / 2) sizes_fuel 64 i) as [i' Hi'].
    + unfold sizes_fuel. lia.
    + rewrite iterate_halve by lia. change (Z.of_nat 64) with 64.
      rewrite Z.div_small by lia. apply andb_false_r.
    + exists i'. split; [exact Hi' | lia].
  - exists i. split; [reflexivity | reflexivity].
Qed.

End OfflineStretch.

Section OfflineStretchClaim.

Context `{Collaborators}.

(** The offline case for a ratio of at least one: the locals that
    [choose_sizes] leaves are those after some number [k] of halvings of
    baseWindowSize/6; the loop test held before each halving and fails
    after the last; without an expected input duration the increment is
    stored as it is. *)
Lemma offline_stretch_sizes st :
  m_realtime st = false ->
  (1 <= getEffectiveRatio st)%Q ->
  0 < m_baseWindowSize st <= 2 ^ 30 ->
  let r := getEffectiveRatio st in
  let halved (j : nat) := m_baseWindowSize st / 6 / 2 ^ Z.of_nat j in
  exists (k : nat) (s : Sizes),
    choose_sizes st = Some s
    /\ outputIncrement s = halved k
    /\ inputIncrement s = Qfloor (inject_Z (halved k) / r)
    /\ (outputIncrement s <= 1024 \/ inputIncrement s <= 1)
    /\ (forall j, (j < k)%nat ->
          1024 < halved j /\ 1 < Qfloor (inject_Z (halved j) / r))
    /\ exists st', calculateSizes st = Some st'
                   /\ (m_expectedInputDuration st = 0 ->
                       m_increment st' = inputIncrement s).
Proof.
  intros Hrt Hr Hb r halved.
  set (out0 := m_baseWindowSize st / 6).
  assert (Hout0 : 0 <= out0 < 2 ^ 31).
  { unfold out0. split; [apply Z.div_pos; lia |].
    apply Z.div_lt_upper_bound; lia. }
  assert (Hhalved : forall j, 0 <= halved j < 2 ^ 31).
  { intros j. unfold halved. fold out0.
    assert (0 < 2 ^ Z.of_nat j) by (apply Z.pow_pos_nonneg; lia).
    split; [apply Z.div_pos; lia |].
    apply Z.div_lt_upper_bound; [lia |]. nia. }
  set (body := fun s : Sizes =>
       let outputIncrement := outputIncrement s / 2 in
       {| inputIncrement :=
            wrap_size_t (int_of_double (double_of_size_t outputIncrement / r));
          windowSize := windowSize s;
          outputIncrement := outputIncrement |}).
  set (cond := fun s : Sizes =>
       (1024 <? outputIncrement s) && (1 <? inputIncrement s)).
  set (s0 := {| inputIncrement :=
                  wrap_size_t (int_of_double (double_of_size_t out0 / r));
                windowSize := m_baseWindowSize st;
                outputIncrement := out0 |}).
  assert (Hiter : forall j, iterate j body s0
            = {| inputIncrement := Qfloor (inject_Z (halved j) / r);
                 windowSize := m_baseWindowSize st;
                 outputIncrement := halved j |}).
  { intros j. unfold body.
    etransitivity;
      [apply (offline_halving_iterate r j s0); [reflexivity | apply Hout0] |].
    cbn [outputIncrement windowSize s0].
    change (out0 / 2 ^ Z.of_nat j) with (halved j).
    now rewrite (proj1 (offline_increment_floor r (halved j) Hr (Hhalved j))). }
  destruct (while_loop_terminates cond body sizes_fuel 64 s0) as [s1 Hs1].
  { unfold sizes_fuel. lia. }
  { rewrite Hiter. unfold cond. cbn [outputIncrement inputIncrement].
    unfold halved. fold out0. change (Z.of_nat 64) with 64.
    rewrite Z.div_small by lia. reflexivity. }
  destruct (while_loop_iterate cond body _ _ _ Hs1) as (k & _ & Ek & Hstop & Hrun).
  rewrite Hiter in Ek.
  destruct (stretch_windowSize_returns r s1) as [w Hw].
  { rewrite Ek. cbn [windowSize]. lia. }
  exists k.
  exists {| inputIncrement := inputIncrement s1; windowSize := w;
            outputIncrement := outputIncrement s1 |}.
  assert (Hchoose : choose_sizes st
            = Some {| inputIncrement := inputIncrement s1; windowSize := w;
                      outputIncrement := outputIncrement s1 |}).
  { unfold choose_sizes. rewrite Hrt. fold r.
    rewrite (proj2 (Qltb_ge r 1) Hr).
    unfold offline_stretch, offline_halving. cbn [windowSize].
    fold out0. fold s0. fold body. fold cond. rewrite Hs1. simpl.
    exact Hw. }
  cbn [outputIncrement inputIncrement].
  repeat split.
  - exact Hchoose.
  - rewrite Ek. reflexivity.
  - rewrite Ek. reflexivity.
  - unfold cond in Hstop. rewrite Ek in *.
    cbn [outputIncrement inputIncrement] in *.
    apply andb_false_iff in Hstop.
    destruct Hstop as [Hs | Hs]; apply Z.ltb_ge in Hs; [left | right]; exact Hs.
  - specialize (Hrun j H0). rewrite Hiter in Hrun. unfold cond in Hrun.
    cbn [outputIncrement] in Hrun. apply andb_true_iff in Hrun.
    now apply Z.ltb_lt, Hrun.
  - specialize (Hrun j H0). rewrite Hiter in Hrun. unfold cond in Hrun.
    cbn [inputIncrement] in Hrun. apply andb_true_iff in Hrun.
    now apply Z.ltb_lt, Hrun.
  - destruct (fit_expectedInputDuration_returns st (inputIncrement s1))
      as (i' & Hi' & Hzero).
    { rewrite Ek. cbn [inputIncrement].
      pose proof (proj2 (offline_increment_floor r (halved k) Hr (Hhalved k))).
      pose proof (Hhalved k). lia. }
    unfold calculateSizes. rewrite Hchoose. simpl.
    rewrite Hi'. simpl. eexists. split; [reflexivity |].
    intros Hz. rewrite (Hzero Hz).
    destruct (_ <? _); reflexivity.
Qed.


(** Offline, every effective ratio above baseWindowSize/6 leaves an
    increment of zero: the quotient of the output increment by the ratio
    is below one from the start, and no halving brings it back. *)
Lemma offline_increment_zero st :
  m_realtime st = false ->
  (1 <= getEffectiveRatio st)%Q ->
  0 < m_baseWindowSize st <= 2 ^ 30 ->
  (inject_Z (m_baseWindowSize st / 6) < getEffectiveRatio st)%Q ->
  m_expectedInputDuration st = 0 ->
  exists st', calculateSizes st = Some st' /\ m_increment st' = 0.
Proof.
  intros Hrt Hr Hb Hsixth Hexp.
  destruct (offline_stretch_sizes st Hrt Hr Hb)
    as (k & s & _ & _ & Hinc & _ & _ & st' & Hcalc & Hstored).
  exists st'. split; [exact Hcalc |].
  rewrite (Hstored Hexp), Hinc.
  set (out := m_baseWindowSize st / 6 / 2 ^ Z.of_nat k).
  assert (Hout : 0 <= out <= m_baseWindowSize st / 6).
  { unfold out.
    assert (0 < 2 ^ Z.of_nat k) by (apply Z.pow_pos_nonneg; lia).
    assert (0 <= m_baseWindowSize st / 6) by (apply Z.div_pos; lia).
    split; [apply Z.div_pos; lia |].
    apply Z.div_le_upper_bound; [lia | nia]. }
  assert (Hr0 : (0 < getEffectiveRatio st)%Q)
    by (eapply Qlt_le_trans; [| exact Hr]; reflexivity).
  assert (Hlt : (inject_Z out / getEffectiveRatio st < 1)%Q).
  { apply Qlt_shift_div_r; [exact Hr0 |]. rewrite Qmult_1_l.
    eapply Qle_lt_trans; [| exact Hsixth].
    rewrite <- Zle_Qle. lia. }
  assert (Hge : (0 <= inject_Z out / getEffectiveRatio st)%Q).
  { apply Qle_shift_div_l; [exact Hr0 |]. rewrite Qmult_0_l.
    apply inject_Z_nonneg. lia. }
  pose proof (Qfloor_le (inject_Z out / getEffectiveRatio st)) as Hfl.
  assert (Hnn : 0 <= Qfloor (inject_Z out / getEffectiveRatio st)).
  { rewrite <- (Qfloor_Z 0). now apply Qfloor_resp_le. }
  assert (Hone : (inject_Z (Qfloor (inject_Z out / getEffectiveRatio st)) < 1)%Q)
    by (eapply Qle_lt_trans; [exact Hfl | exact Hlt]).
  change 1%Q with (inject_Z 1) in Hone. rewrite <- Zlt_Qlt in Hone. lia.
Qed.

End OfflineStretchClaim.

Section SizesExamples.

#[local] Existing Instance Reference.collaborators.



(** C1 at the failing input: constructed offline at 48000 Hz with time
    ratio 400 and pitch scale 1, the sizing computation divides the
    output increment 341 by 400 and leaves an increment of zero. *)
Lemma calculateSizes_increment_zero :
  (m_increment <$> final_state (Impl_new 48000 1 0 400 1)) = Some 0
  /\ (m_increment <$> calculateSizes (Reference.offline_48k 400 1)) = Some 0.
Proof. split; vm_compute; reflexivity. Qed.

End SizesExamples.

(** ** getLatency *)

Section Latency.

Context `{Collaborators}.


End Latency.

Section LatencyExamples.

#[local] Existing Instance Reference.collaborators.



End LatencyExamples.

(** ** Runs *)

Section RunFacts.

Lemma bind_Some {A B : Type} (m : Run A) (k : A -> Run B) b out :
  bind m k = Some (b, out) ->
  exists a out1 out2,
    m = Some (a, out1) /\ k a = Some (b, out2) /\ out = out1 ++ out2.
Proof.
  unfold bind. destruct m as [[a out1] |]; [| discriminate].
  destruct (k a) as [[b' out2] |] eqn:Ek; [| discriminate].
  intros [= <- <-]. eauto 6.
Qed.

Lemma ret_Some {A : Type} (a a' : A) out :
  ret a = Some (a', out) -> a' = a /\ out = [].
Proof. unfold ret. now intros [= <- <-]. Qed.

Lemma lift_Some {A : Type} (o : option A) a out :
  lift o = Some (a, out) -> o = Some a /\ out = [].
Proof. destruct o; simpl; [| discriminate]. now intros [= <- <-]. Qed.

Lemma bind_ret_l {A B : Type} (a : A) (k : A -> Run B) : bind (ret a) k = k a.
Proof. unfold bind, ret. destruct (k a) as [[b out] |]; reflexivity. Qed.

Lemma returns_true {A : Type} (m : Run A) :
  returns m = true -> exists a out, m = Some (a, out).
Proof. destruct m as [[a out] |]; [eauto | discriminate]. Qed.

Lemma goes_on_true {A : Type} (m : Run (option A)) :
  goes_on m = true -> exists a out, m = Some (Some a, out).
Proof. destruct m as [[[a |] out] |]; [eauto | discriminate | discriminate]. Qed.

End RunFacts.

(** ** What reconfiguration leaves alone *)

Section Frame.

Context `{Collaborators}.

Lemma same_ratios_and_mode_refl st : same_ratios_and_mode st st.
Proof. repeat split. Qed.

Lemma same_ratios_and_mode_trans st1 st2 st3 :
  same_ratios_and_mode st1 st2 -> same_ratios_and_mode st2 st3 ->
  same_ratios_and_mode st1 st3.
Proof.
  unfold same_ratios_and_mode. intros (? & ? & ? & ?) (? & ? & ? & ?).
  repeat split; congruence.
Qed.

Lemma on_channels_frame body st st' out :
  on_channels body st = Some (st', out) -> same_ratios_and_mode st st'.
Proof.
  unfold on_channels. intros Hrun.
  apply bind_Some in Hrun as (channelData & ? & ? & _ & Hrun & _).
  apply ret_Some in Hrun as [-> _]. repeat split.
Qed.

Lemma calculateSizes_frame st st' :
  calculateSizes st = Some st' -> same_ratios_and_mode st st'.
Proof.
  unfold calculateSizes. intros Hc.
  destruct (choose_sizes st) as [s |]; [| discriminate]. simpl in Hc.
  destruct (fit_expectedInputDuration st (inputIncrement s)) as [i |];
    [| discriminate].
  simpl in Hc. injection Hc as <-.
  destruct (_ <? _); repeat split.
Qed.

Lemma calculateStretch_frame st st' out :
  calculateStretch st = Some (st', out) -> same_ratios_and_mode st st'.
Proof.
  unfold calculateStretch. intros Hrun.
  apply bind_Some in Hrun as (calculator & ? & ? & _ & Hrun & _).
  destruct (m_outputIncrements st);
    apply ret_Some in Hrun as [-> _]; repeat split.
Qed.

Lemma configure_steps_frame b1 b2 b3 st :
  same_ratios_and_mode st
    (configure_studyFFT b1 (configure_channelData b2 (configure_windows b3 st))).
Proof.
  unfold configure_studyFFT, configure_channelData, configure_windows.
  destruct b1, b2, b3; simpl; destruct (m_realtime st); repeat split.
Qed.

Lemma configure_curves_frame st : same_ratios_and_mode st (configure_curves st).
Proof.
  unfold configure_curves. simpl. destruct (m_realtime st); repeat split.
Qed.

Lemma configure_frame st st' out :
  configure st = Some (st', out) -> same_ratios_and_mode st st'.
Proof.
  unfold configure. intros Hrun. cbv zeta in Hrun.
  apply bind_Some in Hrun as (st1 & ? & ? & Hs & Hrun & _).
  apply lift_Some in Hs as [Hs _]. apply calculateSizes_frame in Hs.
  apply bind_Some in Hrun as (st2 & ? & ? & Hr & Hrun & _).
  eapply same_ratios_and_mode_trans; [exact Hs |].
  eapply same_ratios_and_mode_trans; [apply configure_steps_frame |].
  eapply same_ratios_and_mode_trans.
  { unfold configure_resamplers in Hr.
    destruct (_ || _) in Hr.
    - apply on_channels_frame in Hr. exact Hr.
    - apply ret_Some in Hr as [-> _]. apply same_ratios_and_mode_refl. }
  eapply same_ratios_and_mode_trans; [apply configure_curves_frame |].
  destruct (negb (m_realtime st2)).
  - apply on_channels_frame in Hrun. exact Hrun.
  - apply ret_Some in Hrun as [-> _]. apply same_ratios_and_mode_refl.
Qed.

Lemma reconfigure_offline_frame st st' out :
  reconfigure_offline st = Some (st', out) -> same_ratios_and_mode st st'.
Proof.
  unfold reconfigure_offline. intros Hrun.
  destruct (negb (m_realtime st)).
  - apply bind_Some in Hrun as (st1 & ? & ? & Hs & Hrun & _).
    apply configure_frame in Hrun.
    eapply same_ratios_and_mode_trans; [| exact Hrun].
    destruct (ProcessMode_eqb (m_mode st) Studying).
    + apply bind_Some in Hs as (st0 & ? & ? & Hc & Hs & _).
      apply calculateStretch_frame in Hc. apply ret_Some in Hs as [-> _].
      eapply same_ratios_and_mode_trans; [exact Hc |]. repeat split.
    + apply ret_Some in Hs as [-> _]. apply same_ratios_and_mode_refl.
  - apply ret_Some in Hrun as [-> _]. apply same_ratios_and_mode_refl.
Qed.

Lemma reconfigure_window_frame st st' out :
  reconfigure_window st = Some (st', out) -> same_ratios_and_mode st st'.
Proof.
  unfold reconfigure_window. intros Hrun.
  apply bind_Some in Hrun as (st1 & ? & ? & Hs & Hrun & _).
  apply on_channels_frame in Hrun.
  eapply same_ratios_and_mode_trans; [| exact Hrun].
  destruct (bool_decide _) in Hs.
  - apply ret_Some in Hs as [-> _]. repeat split.
  - apply bind_Some in Hs as (? & ? & ? & _ & Hs & _).
    apply ret_Some in Hs as [-> _]. repeat split.
Qed.

Lemma reconfigure_frame st st' out :
  reconfigure st = Some (st', out) -> same_ratios_and_mode st st'.
Proof.
  unfold reconfigure. intros Hrun. cbv zeta in Hrun.
  apply bind_Some in Hrun as (st1 & ? & ? & H1 & Hrun & _).
  apply reconfigure_offline_frame in H1.
  apply bind_Some in Hrun as (st2 & ? & ? & H2 & Hrun & _).
  apply lift_Some in H2 as [H2 _]. apply calculateSizes_frame in H2.
  apply bind_Some in Hrun as (st3 & ? & ? & H3 & Hrun & _).
  apply bind_Some in Hrun as (st4 & ? & ? & H4 & Hrun & _).
  apply bind_Some in Hrun as (st5 & ? & ? & H5 & Hrun & _).
  eapply same_ratios_and_mode_trans; [exact H1 |].
  eapply same_ratios_and_mode_trans; [exact H2 |].
  eapply same_ratios_and_mode_trans.
  { destruct (negb _) in H3.
    - apply reconfigure_window_frame in H3. exact H3.
    - apply ret_Some in H3 as [-> _]. apply same_ratios_and_mode_refl. }
  eapply same_ratios_and_mode_trans.
  { destruct (negb (m_outbufSize st3 =? _)) in H4.
    - apply on_channels_frame in H4. exact H4.
    - apply ret_Some in H4 as [-> _]. apply same_ratios_and_mode_refl. }
  eapply same_ratios_and_mode_trans.
  { destruct (negb (Qeq_bool _ _)) in H5.
    - apply on_channels_frame in H5. exact H5.
    - apply ret_Some in H5 as [-> _]. apply same_ratios_and_mode_refl. }
  destruct (negb _) in Hrun.
  - unfold reconfigure_curve in Hrun.
    apply bind_Some in Hrun as (? & ? & ? & _ & Hrun & _).
    apply ret_Some in Hrun as [-> _]. repeat split.
  - apply ret_Some in Hrun as [-> _]. apply same_ratios_and_mode_refl.
Qed.

End Frame.

(** ** setTimeRatio and setPitchScale *)

Section Ratios.

Context `{Collaborators}.

Lemma studying_or_processing_true st :
  m_mode st = Studying \/ m_mode st = Processing ->
  studying_or_processing st = true.
Proof. unfold studying_or_processing. intros [-> | ->]; reflexivity. Qed.

Lemma ratio_change_allowed st :
  m_realtime st = true \/ m_mode st = JustCreated \/ m_mode st = Finished ->
  negb (m_realtime st) && studying_or_processing st = false.
Proof.
  unfold studying_or_processing.
  intros [-> | [-> | ->]]; [reflexivity | |]; apply andb_false_r.
Qed.

Lemma Qeq_bool_false x y : ~ (x == y)%Q -> Qeq_bool x y = false.
Proof.
  intros Hne. destruct (Qeq_bool x y) eqn:E; [| reflexivity].
  apply Qeq_bool_iff in E. contradiction.
Qed.

(** C5: offline, while Studying or Processing, setTimeRatio and
    setPitchScale print a diagnostic and return the state as it was: the
    stored ratios and the mode keep their values and nothing is
    reconfigured.  In every other case (realtime, or mode JustCreated or
    Finished) a value that differs from the stored one is stored and
    reconfigure runs on the result; the state it returns holds the new
    value, the other ratio and the mode unchanged. *)
Theorem set_ratio_guard st (ratio : Q) :
  (m_realtime st = false ->
   m_mode st = Studying \/ m_mode st = Processing ->
   setTimeRatio ratio st
   = Some (st, [CannotSetRatioWhileStudyingOrProcessing])
   /\ setPitchScale ratio st
      = Some (st, [CannotSetPitchScaleWhileStudyingOrProcessing]))
  /\ (m_realtime st = true \/ m_mode st = JustCreated \/ m_mode st = Finished ->
      (~ (ratio == m_timeRatio st)%Q ->
       setTimeRatio ratio st = reconfigure (set_m_timeRatio ratio st)
       /\ forall st' out,
            setTimeRatio ratio st = Some (st', out) ->
            m_timeRatio st' = ratio
            /\ m_pitchScale st' = m_pitchScale st
            /\ m_mode st' = m_mode st)
      /\ (~ (ratio == m_pitchScale st)%Q ->
          setPitchScale ratio st = reconfigure (set_m_pitchScale ratio st)
          /\ forall st' out,
               setPitchScale ratio st = Some (st', out) ->
               m_pitchScale st' = ratio
               /\ m_timeRatio st' = m_timeRatio st
               /\ m_mode st' = m_mode st)).
Proof.
  split.
  - intros Hrt Hmode. unfold setTimeRatio, setPitchScale.
    rewrite Hrt, (studying_or_processing_true st Hmode). split; reflexivity.
  - intros Hfree. pose proof (ratio_change_allowed st Hfree) as Hguard.
    split; intros Hnew.
    + assert (E : setTimeRatio ratio st = reconfigure (set_m_timeRatio ratio st)).
      { unfold setTimeRatio. rewrite Hguard, (Qeq_bool_false _ _ Hnew).
        reflexivity. }
      split; [exact E |]. intros st' out Hrun. rewrite E in Hrun.
      apply reconfigure_frame in Hrun. destruct Hrun as (Ht & Hp & Hm & _).
      repeat split; assumption.
    + assert (E : setPitchScale ratio st = reconfigure (set_m_pitchScale ratio st)).
      { unfold setPitchScale. rewrite Hguard, (Qeq_bool_false _ _ Hnew).
        reflexivity. }
      split; [exact E |]. intros st' out Hrun. rewrite E in Hrun.
      apply reconfigure_frame in Hrun. destruct Hrun as (Ht & Hp & Hm & _).
      repeat split; assumption.
Qed.

(** C10: setTimeRatio with the value that getTimeRatio returns leaves the
    state as it is in every mode and reconfigures nothing; offline while
    Studying or Processing it prints the diagnostic of the rejected call,
    otherwise it prints nothing.  Likewise setPitchScale with the value
    that getPitchScale returns. *)
Theorem set_current_ratio_noop st :
  setTimeRatio (getTimeRatio st) st
  = Some (st, if negb (m_realtime st) && studying_or_processing st
              then [CannotSetRatioWhileStudyingOrProcessing] else [])
  /\ setPitchScale (getPitchScale st) st
     = Some (st, if negb (m_realtime st) && studying_or_processing st
                 then [CannotSetPitchScaleWhileStudyingOrProcessing] else []).
Proof.
  unfold setTimeRatio, setPitchScale, getTimeRatio, getPitchScale.
  destruct (negb (m_realtime st) && studying_or_processing st);
    [split; reflexivity |].
  rewrite (proj2 (Qeq_bool_iff (m_timeRatio st) (m_timeRatio st)))
    by apply Qeq_refl.
  rewrite (proj2 (Qeq_bool_iff (m_pitchScale st) (m_pitchScale st)))
    by apply Qeq_refl.
  split; reflexivity.
Qed.

End Ratios.

Section RatiosExamples.

#[local] Existing Instance Reference.collaborators.

Lemma set_ratio_guard_witness :
  exists st' out,
    setTimeRatio 2 (Reference.offline_48k 1 1) = Some (st', out)
    /\ m_timeRatio st' = 2%Q
    /\ m_mode st' = JustCreated.
Proof.
  set (st := Reference.offline_48k 1 1).
  assert (Hmode : m_mode st = JustCreated) by (vm_compute; reflexivity).
  assert (Et : m_timeRatio st = 1%Q) by (vm_compute; reflexivity).
  assert (Hnew : ~ (2 == m_timeRatio st)%Q) by (rewrite Et; discriminate).
  assert (Hrun : exists st' out, setTimeRatio 2 st = Some (st', out)).
  { apply returns_true. vm_compute. reflexivity. }
  destruct Hrun as (st' & out & Hrun).
  destruct (set_ratio_guard st 2) as [_ Hfree].
  destruct (Hfree (or_intror (or_introl Hmode))) as [Htime _].
  destruct (Htime Hnew) as [_ Hstored].
  destruct (Hstored st' out Hrun) as (Ht & _ & Hm).
  exists st', out. rewrite Hm, Hmode. repeat split; assumption.
Defined.

End RatiosExamples.

(** ** getSamplesRequired *)

Section SamplesRequired.

Context `{Collaborators}.

Lemma fold_left_max_seed l a :
  0 <= a -> fold_left Z.max l a = Z.max a (fold_right Z.max 0 l).
Proof.
  revert a. induction l as [| x l IH]; intros a Ha; simpl; [lia |].
  rewrite IH by lia. lia.
Qed.

Lemma channel_requirement_nonneg w cd : 0 <= w -> 0 <= channel_requirement w cd.
Proof.
  intros Hw. unfold channel_requirement.
  destruct (Z.ltb_spec (RingBuffer.getReadSpace (inbuf cd)) w); simpl; [| lia].
  destruct (draining cd); simpl; [lia |].
  destruct (inputSize cd =? -1); [lia |].
  destruct (_ =? 0); lia.
Qed.

Lemma channel_requirement_full w l :
  (forall cd, In cd l -> w <= RingBuffer.getReadSpace (inbuf cd)) ->
  fold_right Z.max 0 (map (channel_requirement w) l) = 0.
Proof.
  induction l as [| cd l IH]; intros Hfull; [reflexivity |].
  simpl. rewrite IH by (intros cd' Hin; apply Hfull; now right).
  unfold channel_requirement.
  destruct (Z.ltb_spec (RingBuffer.getReadSpace (inbuf cd)) w)
    as [Hlt | Hge]; [| reflexivity].
  specialize (Hfull cd (or_introl eq_refl)). lia.
Qed.

(** One pass of the loop replaces [reqd] by its maximum with the
    requirement of the channel. *)
Lemma samples_required_fold w cds count c reqd :
  0 <= w < 2 ^ 64 -> 0 <= reqd ->
  (c + count <= length cds)%nat ->
  samples_required w cds c count reqd
  = Some (fold_left Z.max
            (map (channel_requirement w) (take count (drop c cds))) reqd).
Proof.
  intros Hw. revert c reqd.
  induction count as [| count IH]; intros c reqd Hr Hlen; [reflexivity |].
  destruct (cds !! c) as [cd |] eqn:Ecd;
    [| apply lookup_ge_None in Ecd; lia].
  cbn [samples_required]. rewrite Ecd. cbn [mbind option_bind].
  rewrite (drop_S _ _ _ Ecd). cbn [take map fold_left].
  pose proof (Zle_0_nat (length (RingBuffer.data (inbuf cd)))) as Hrs.
  fold (RingBuffer.getReadSpace (inbuf cd)) in Hrs.
  assert (Hstep : forall reqd', 0 <= reqd' ->
            samples_required w cds (Datatypes.S c) count reqd'
            = Some (fold_left Z.max
                      (map (channel_requirement w)
                           (take count (drop (Datatypes.S c) cds))) reqd')).
  { intros reqd' Hr'. apply IH; [exact Hr' | lia]. }
  unfold channel_requirement.
  destruct (Z.ltb_spec (RingBuffer.getReadSpace (inbuf cd)) w) as [Hlt | Hge];
    cbn [andb].
  - destruct (draining cd); cbn [negb].
    + rewrite Hstep by lia. now rewrite Z.max_l by lia.
    + destruct (inputSize cd =? -1).
      * rewrite size_sub_id by (unfold in_size_t, size_t_modulus; lia).
        destruct (Z.ltb_spec reqd (w - RingBuffer.getReadSpace (inbuf cd)));
          rewrite Hstep by lia; f_equal; f_equal; lia.
      * destruct (RingBuffer.getReadSpace (inbuf cd) =? 0).
        -- destruct (Z.ltb_spec reqd w);
             rewrite Hstep by lia; f_equal; f_equal; lia.
        -- rewrite Hstep by lia. now rewrite Z.max_l by lia.
  - rewrite Hstep by lia. now rewrite Z.max_l by lia.
Qed.

(** C6: for every state whose channel vector holds its [m_channels]
    channels, getSamplesRequired returns the maximum over the channels of
    the requirement of each: windowSize - read_space for a channel short
    of a window, not draining, whose input size is unknown; windowSize
    for one whose ring is empty and whose input size is known; zero
    otherwise.  It returns zero once every ring holds a window. *)
Theorem getSamplesRequired_spec st :
  0 <= m_windowSize st < 2 ^ 64 ->
  (Z.to_nat (m_channels st) <= length (m_channelData st))%nat ->
  getSamplesRequired st
  = Some (fold_right Z.max 0
            (map (channel_requirement (m_windowSize st)) (channels st)))
  /\ ((forall cd, In cd (channels st) ->
         m_windowSize st <= RingBuffer.getReadSpace (inbuf cd)) ->
      getSamplesRequired st = Some 0).
Proof.
  intros Hw Hlen.
  assert (E : getSamplesRequired st
              = Some (fold_right Z.max 0
                        (map (channel_requirement (m_windowSize st))
                             (channels st)))).
  { unfold getSamplesRequired, channels.
    rewrite samples_required_fold by (try lia; exact Hw).
    rewrite fold_left_max_seed by lia. rewrite drop_0. f_equal.
    apply Z.max_r.
    induction (take _ _) as [| cd l IH]; simpl; [lia |].
    pose proof (channel_requirement_nonneg (m_windowSize st) cd). lia. }
  split; [exact E |].
  intros Hfull. rewrite E. f_equal.
  now apply channel_requirement_full.
Qed.

End SamplesRequired.

Section SamplesRequiredExamples.

#[local] Existing Instance Reference.collaborators.

(** After construction offline every input ring holds half a window of
    silence, so half a window is required. *)
Lemma getSamplesRequired_spec_witness :
  getSamplesRequired (Reference.offline_stereo_48k 1 1) = Some 1024.
Proof.
  set (st := Reference.offline_stereo_48k 1 1).
  assert (Ew : m_windowSize st = 2048) by (vm_compute; reflexivity).
  assert (Ec : Z.to_nat (m_channels st) = 2%nat) by (vm_compute; reflexivity).
  assert (El : length (m_channelData st) = 2%nat) by (vm_compute; reflexivity).
  assert (Hw : 0 <= m_windowSize st < 2 ^ 64) by (rewrite Ew; lia).
  assert (Hlen : (Z.to_nat (m_channels st) <= length (m_channelData st))%nat)
    by (rewrite Ec, El; lia).
  rewrite (proj1 (getSamplesRequired_spec st Hw Hlen)).
  vm_compute. reflexivity.
Defined.

End SamplesRequiredExamples.

(** ** consumeChannel *)

Section Consume.

Context `{Collaborators}.

Lemma getWriteSpace_wf rb :
  RingBuffer.wf rb ->
  RingBuffer.getWriteSpace rb = RingBuffer.size rb - RingBuffer.getReadSpace rb
  /\ 0 <= RingBuffer.getWriteSpace rb.
Proof. unfold RingBuffer.wf, RingBuffer.getWriteSpace. lia. Qed.

(** Writing [n] samples that fit: the ring holds them after the ones it
    held. *)
Lemma write_fits rb source n :
  0 <= n <= RingBuffer.getWriteSpace rb ->
  n <= Z.of_nat (length source) ->
  RingBuffer.write rb source n
  = {| RingBuffer.size := RingBuffer.size rb;
       RingBuffer.data := RingBuffer.data rb ++ firstn (Z.to_nat n) source |}
  /\ RingBuffer.getReadSpace (RingBuffer.write rb source n)
     = RingBuffer.getReadSpace rb + n.
Proof.
  intros Hn Hs. unfold RingBuffer.write.
  rewrite Z.min_l by lia. split; [reflexivity |].
  unfold RingBuffer.getReadSpace. cbn [RingBuffer.data].
  rewrite length_app, firstn_length_le by lia. lia.
Qed.

(** C8: consumeChannel writes into the input ring of the channel as many
    of the [samples] samples as the ring has write space for, in order
    and after the samples it holds; it adds that count to the inCount of
    the channel and returns it; when the ring is full it returns the
    partial count, zero included, and the state is otherwise
    unchanged. *)
Theorem consumeChannel_spec st c cd (input : list sample) samples :
  m_channelData st !! c = Some cd ->
  RingBuffer.wf (inbuf cd) ->
  0 <= samples < 2 ^ 64 ->
  samples <= Z.of_nat (length input) ->
  let n := Z.min samples (RingBuffer.getWriteSpace (inbuf cd)) in
  (n = 0 -> consumeChannel c input samples st = Some ((0, st), []))
  /\ (0 < n ->
      consumeChannel c input samples st
      = Some ((n, set_channel c (consumed_channel cd input n) st), [])).
Proof.
  intros Hcd Hwf Hs Hin n.
  destruct (getWriteSpace_wf _ Hwf) as [Ews Hws].
  unfold consumeChannel. rewrite Hcd. cbn [lift]. rewrite bind_ret_l.
  cbn [consume_loop].
  destruct (Z.ltb_spec 0 samples) as [Hpos | Hzero].
  2:{ assert (samples = 0) by lia. subst samples.
      split; [intros _; reflexivity | intros Hn; unfold n in Hn; lia]. }
  rewrite Hcd. cbn [lift]. rewrite bind_ret_l.
  rewrite size_sub_id by (unfold in_size_t, size_t_modulus; lia).
  rewrite Z.sub_0_r, Z.min_comm. fold n.
  destruct (Z.eqb_spec n 0) as [Hn0 | Hn0].
  { split; [intros _; reflexivity | lia]. }
  split; [lia | intros Hn].
  assert (Hnle : n <= samples) by (unfold n; lia).
  assert (Hnws : n <= RingBuffer.getWriteSpace (inbuf cd)) by (unfold n; lia).
  destruct (write_fits (inbuf cd) input n) as [Ewrite Ers]; [lia | lia |].
  change (skipn (Z.to_nat 0) input) with input. rewrite Ewrite.
  rewrite size_add_id by (unfold in_size_t, size_t_modulus; lia).
  rewrite Z.add_0_l.
  cbn [inbuf set_inbuf inCount].
  fold (consumed_channel cd input n).
  destruct (Z.to_nat samples) as [| fuel] eqn:Efuel; [lia |].
  cbn [consume_loop].
  destruct (Z.ltb_spec n samples) as [Hpart | Hall].
  - unfold set_channel at 1. cbn [m_channelData set_m_channelData].
    rewrite list_lookup_insert_eq by (eapply lookup_lt_Some; exact Hcd).
    cbn [lift]. rewrite bind_ret_l.
    assert (Efull : RingBuffer.getWriteSpace (inbuf (consumed_channel cd input n)) = 0).
    { unfold consumed_channel. cbn [inbuf set_inCount set_inbuf].
      rewrite <- Ewrite. unfold RingBuffer.getWriteSpace at 1.
      rewrite Ers. unfold RingBuffer.write. cbn [RingBuffer.size].
      unfold n in *. lia. }
    rewrite Efull, Z.min_l; [reflexivity |].
    pose proof (wrap_size_t_range (samples - n)) as Hr.
    unfold size_sub, in_size_t in *. lia.
  - unfold ret. repeat f_equal. lia.
Qed.

End Consume.

Section ConsumeExamples.

#[local] Existing Instance Reference.collaborators.

(** The ring of a fresh offline object has 4096 places and holds 1024
    zeros: of 4000 samples 3072 are taken. *)
Lemma consumeChannel_spec_witness :
  fst <$> final_state
            (consumeChannel 0 (repeat 1%Q 4000) 4000
                            (Reference.offline_48k 1 1))
  = Some 3072.
Proof.
  set (st := Reference.offline_48k 1 1).
  assert (Hcd : exists cd, m_channelData st !! 0%nat = Some cd
                           /\ RingBuffer.size (inbuf cd) = 4096
                           /\ RingBuffer.getReadSpace (inbuf cd) = 1024).
  { destruct (m_channelData st !! 0%nat) as [cd |] eqn:E;
      [| vm_compute in E; discriminate].
    exists cd. split; [reflexivity |].
    assert (E' : (m_channelData st !! 0%nat) = Some cd) by exact E.
    vm_compute in E'. injection E' as <-. split; vm_compute; reflexivity. }
  destruct Hcd as (cd & Hcd & Esize & Ers).
  assert (Hwf : RingBuffer.wf (inbuf cd)).
  { unfold RingBuffer.wf. rewrite Ers, Esize. lia. }
  assert (Hs : 0 <= 4000 < 2 ^ 64) by lia.
  assert (Hin : 4000 <= Z.of_nat (length (repeat 1%Q 4000))).
  { rewrite repeat_length. lia. }
  destruct (consumeChannel_spec st 0 cd (repeat 1%Q 4000) 4000 Hcd Hwf Hs Hin)
    as [_ Hsome].
  assert (En : Z.min 4000 (RingBuffer.getWriteSpace (inbuf cd)) = 3072).
  { unfold RingBuffer.getWriteSpace. rewrite Ers, Esize. reflexivity. }
  rewrite En in Hsome. rewrite (Hsome eq_refl). reflexivity.
Defined.

End ConsumeExamples.

(** ** What study leaves alone *)

Section StudyFrame.

Context `{Collaborators}.

Lemma same_schedule_refl st : same_schedule st st.
Proof. repeat split. Qed.

Lemma same_schedule_trans st1 st2 st3 :
  same_schedule st1 st2 -> same_schedule st2 st3 -> same_schedule st1 st3.
Proof.
  unfold same_schedule.
  intros (? & ? & ? & ? & ? & ? & ?) (? & ? & ? & ? & ? & ? & ?).
  repeat split; congruence.
Qed.

Lemma study_chunk_keeps st st' out :
  study_chunk st = Some (st', out) -> same_schedule st st'.
Proof.
  unfold study_chunk. intros Hrun.
  apply bind_Some in Hrun as (cd & ? & ? & _ & Hrun & _).
  apply bind_Some in Hrun as (window & ? & ? & _ & Hrun & _).
  apply bind_Some in Hrun as (fft & ? & ? & _ & Hrun & _).
  apply bind_Some in Hrun as (phaseReset & ? & ? & _ & Hrun & _).
  apply bind_Some in Hrun as (stretch & ? & ? & _ & Hrun & _).
  destruct (curve_process phaseReset _ _) as [df1 curve1].
  cbn [m_increment set_m_phaseResetDf set_m_phaseResetAudioCurve] in Hrun.
  destruct (curve_process stretch _ _) as [df2 curve2].
  apply ret_Some in Hrun as [-> _]. repeat split.
Qed.

Lemma study_chunks_keeps fuel final st st' out :
  study_chunks fuel final st = Some (st', out) -> same_schedule st st'.
Proof.
  revert st out. induction fuel as [| fuel IH]; intros st out Hrun;
    [discriminate |].
  cbn [study_chunks] in Hrun.
  apply bind_Some in Hrun as (cd & ? & ? & _ & Hrun & _).
  destruct (_ || _) in Hrun.
  - apply bind_Some in Hrun as (st1 & ? & ? & Hchunk & Hrun & _).
    eapply same_schedule_trans;
      [apply (study_chunk_keeps _ _ _ Hchunk) | apply (IH _ _ Hrun)].
  - apply ret_Some in Hrun as [-> _]. apply same_schedule_refl.
Qed.

Lemma study_write_keeps mix samples consumed st consumed' st' out :
  study_write mix samples consumed st = Some ((consumed', st'), out) ->
  same_schedule st st'.
Proof.
  unfold study_write. intros Hrun.
  apply bind_Some in Hrun as (cd & ? & ? & _ & Hrun & _).
  destruct (_ =? 0) in Hrun.
  - apply bind_Some in Hrun as (? & ? & ? & _ & Hrun & _).
    apply ret_Some in Hrun as [[= -> ->] _]. apply same_schedule_refl.
  - apply ret_Some in Hrun as [[= -> ->] _]. repeat split.
Qed.

Lemma study_loop_keeps fuel mix samples final consumed st st' out :
  study_loop fuel mix samples final consumed st = Some (st', out) ->
  same_schedule st st'.
Proof.
  revert consumed st out.
  induction fuel as [| fuel IH]; intros consumed st out Hrun; [discriminate |].
  cbn [study_loop] in Hrun.
  destruct (consumed <? samples).
  - apply bind_Some in Hrun as ([consumed' st1] & ? & ? & Hwrite & Hrun & _).
    apply bind_Some in Hrun as (st2 & ? & ? & Hchunks & Hrun & _).
    cbn [fst snd] in *.
    apply study_write_keeps in Hwrite.
    apply study_chunks_keeps in Hchunks. apply IH in Hrun.
    eapply same_schedule_trans; [| exact Hrun].
    eapply same_schedule_trans; [exact Hwrite | exact Hchunks].
  - apply ret_Some in Hrun as [-> _]. apply same_schedule_refl.
Qed.

Lemma study_final_keeps st st' out :
  study_final st = Some (st', out) -> same_schedule st st'.
Proof.
  unfold study_final. intros Hrun.
  apply bind_Some in Hrun as (cd & ? & ? & _ & Hrun & _).
  destruct (_ <? _) in Hrun; apply ret_Some in Hrun as [-> _]; repeat split.
Qed.

(** An accepted call of study leaves the schedule and the calculator as
    they are and the mode at Studying. *)
Lemma study_keeps fuel input samples final st st' out :
  m_realtime st = false ->
  m_mode st = JustCreated \/ m_mode st = Studying ->
  study fuel input samples final st = Some (st', out) ->
  m_outputIncrements st' = m_outputIncrements st
  /\ m_stretchCalculator st' = m_stretchCalculator st
  /\ m_mode st' = Studying.
Proof.
  intros Hrt Hmode. unfold study. rewrite Hrt.
  assert (Emode : ProcessMode_eqb (m_mode st) Processing
                  || ProcessMode_eqb (m_mode st) Finished = false)
    by (destruct Hmode as [-> | ->]; reflexivity).
  rewrite Emode. intros Hrun.
  apply bind_Some in Hrun as (cd & ? & ? & _ & Hrun & _).
  apply bind_Some in Hrun as (st1 & ? & ? & Hloop & Hrun & _).
  apply study_loop_keeps in Hloop.
  assert (Hend : same_schedule st1 st').
  { destruct final.
    - apply (study_final_keeps _ _ _ Hrun).
    - apply ret_Some in Hrun as [-> _]. apply same_schedule_refl. }
  destruct Hloop as (Ho1 & Hc1 & Hm1 & _), Hend as (Ho2 & Hc2 & Hm2 & _).
  cbn [m_outputIncrements m_stretchCalculator m_mode set_m_mode] in *.
  repeat split; congruence.
Qed.

End StudyFrame.

(** ** study *)

Section Study.

Context `{Collaborators}.

(** Lines 755-763 in exact arithmetic: the read space is added, and half
    a window subtracted only from a duration that is longer. *)
Lemma study_final_deducts st cd :
  m_channelData st !! 0%nat = Some cd ->
  RingBuffer.getReadSpace (inbuf cd) < 2 ^ 31 ->
  0 <= m_windowSize st ->
  0 <= m_inputDuration st ->
  m_inputDuration st + RingBuffer.getReadSpace (inbuf cd) < 2 ^ 64 ->
  study_final st
  = Some (set_m_inputDuration
            (deducted (m_inputDuration st + RingBuffer.getReadSpace (inbuf cd))
                      (m_windowSize st)) st, []).
Proof.
  intros Hcd Hrs Hw Hd Hsum. unfold study_final. rewrite Hcd.
  cbn [lift]. rewrite bind_ret_l.
  pose proof (Zle_0_nat (length (RingBuffer.data (inbuf cd)))) as Hrs0.
  fold (RingBuffer.getReadSpace (inbuf cd)) in Hrs0.
  rewrite wrap_int_id by (unfold in_int, int_half; lia).
  rewrite (wrap_size_t_id (RingBuffer.getReadSpace (inbuf cd)))
    by (unfold in_size_t, size_t_modulus; lia).
  rewrite size_add_id by (unfold in_size_t, size_t_modulus; lia).
  cbn [m_windowSize m_inputDuration set_m_inputDuration]. unfold deducted.
  assert (0 <= m_windowSize st / 2) by (apply Z.div_pos; lia).
  destruct (Z.ltb_spec (m_windowSize st / 2)
              (m_inputDuration st + RingBuffer.getReadSpace (inbuf cd)));
    [| reflexivity].
  rewrite size_sub_id by (unfold in_size_t, size_t_modulus; lia).
  reflexivity.
Qed.

(** *** The bookkeeping of the loops *)

Lemma skip_readSpace rb n :
  0 <= n <= RingBuffer.getReadSpace rb ->
  RingBuffer.getReadSpace (RingBuffer.skip rb n)
  = RingBuffer.getReadSpace rb - n.
Proof.
  unfold RingBuffer.getReadSpace, RingBuffer.skip. cbn [RingBuffer.data].
  intros Hn. rewrite length_drop. lia.
Qed.

Lemma studied_readSpace st total :
  studied st total ->
  0 <= study_readSpace st < 2 ^ 31
  /\ m_inputDuration st + study_readSpace st = m_windowSize st / 2 + total.
Proof.
  intros (cd & Hcd & Hwf & Hsize & Hd & Hsum).
  unfold study_readSpace. rewrite Hcd. unfold RingBuffer.wf in Hwf. lia.
Qed.

(** One chunk moves [m_increment] samples from the ring to the duration. *)
Lemma study_chunk_studied st st' out total :
  studied st total ->
  0 <= m_increment st <= study_readSpace st ->
  m_windowSize st / 2 + total < 2 ^ 64 ->
  study_chunk st = Some (st', out) ->
  studied st' total
  /\ study_readSpace st' = study_readSpace st - m_increment st.
Proof.
  intros (cd & Hcd & Hwf & Hsize & Hd & Hsum) Hinc Hbound.
  unfold study_readSpace in *. rewrite Hcd in Hinc.
  unfold study_chunk. rewrite Hcd. cbn [lift]. rewrite bind_ret_l.
  intros Hrun.
  apply bind_Some in Hrun as (window & ? & ? & _ & Hrun & _).
  apply bind_Some in Hrun as (fft & ? & ? & _ & Hrun & _).
  apply bind_Some in Hrun as (phaseReset & ? & ? & _ & Hrun & _).
  apply bind_Some in Hrun as (stretch & ? & ? & _ & Hrun & _).
  destruct (curve_process phaseReset _ _) as [df1 curve1].
  cbn [m_increment set_m_phaseResetDf set_m_phaseResetAudioCurve] in Hrun.
  destruct (curve_process stretch _ _) as [df2 curve2].
  apply ret_Some in Hrun as [-> _].
  pose proof (lookup_lt_Some _ _ _ Hcd) as Hlen.
  unfold studied, set_channel, RingBuffer.wf in *.
  cbn [m_channelData m_inputDuration m_windowSize m_increment
       set_m_channelData set_m_inputDuration set_m_stretchDf
       set_m_stretchAudioCurve set_m_phaseResetDf set_m_phaseResetAudioCurve].
  rewrite size_add_id by (unfold in_size_t, size_t_modulus; lia).
  split.
  - eexists. split; [apply list_lookup_insert_eq; exact Hlen |].
    cbn [inbuf set_inbuf set_scratch].
    rewrite skip_readSpace by lia. cbn [RingBuffer.size RingBuffer.skip].
    repeat split; lia.
  - rewrite list_lookup_insert_eq by exact Hlen.
    cbn [inbuf set_inbuf set_scratch]. apply skip_readSpace. lia.
Qed.

(** The chunk loop keeps the bookkeeping, for an increment that is at
    most half a window. *)
Lemma study_chunks_studied fuel final st st' out total :
  studied st total ->
  0 <= m_increment st <= m_windowSize st / 2 ->
  0 <= m_windowSize st ->
  m_windowSize st / 2 + total < 2 ^ 64 ->
  study_chunks fuel final st = Some (st', out) ->
  studied st' total.
Proof.
  revert st out. induction fuel as [| fuel IH];
    intros st out Hst Hinc Hw Hbound Hrun; [discriminate |].
  cbn [study_chunks] in Hrun.
  apply bind_Some in Hrun as (cd & ? & ? & Hcd & Hrun & _).
  apply lift_Some in Hcd as [Hcd _].
  destruct (_ || _) eqn:Hcond in Hrun.
  - apply bind_Some in Hrun as (st1 & x1 & x2 & Hchunk & Hrun & _).
    assert (Hrs : m_windowSize st / 2 <= study_readSpace st).
    { unfold study_readSpace. rewrite Hcd.
      assert (m_windowSize st / 2 <= m_windowSize st)
        by (apply Z.div_le_upper_bound; lia).
      apply orb_true_iff in Hcond as [Hc | Hc].
      - apply Z.leb_le in Hc. lia.
      - apply andb_true_iff in Hc as [_ Hc]. now apply Z.leb_le in Hc. }
    destruct (study_chunk_studied st st1 x1 total Hst) as [Hst1 _];
      [lia | exact Hbound | exact Hchunk |].
    destruct (study_chunk_keeps _ _ _ Hchunk) as (_ & _ & _ & _ & Ew & Ei & _).
    apply (IH st1 x2 Hst1); [rewrite Ew, Ei; exact Hinc | rewrite Ew; exact Hw
                             | rewrite Ew; exact Hbound | exact Hrun].
  - apply ret_Some in Hrun as [-> _]. exact Hst.
Qed.

(** A write keeps the bookkeeping and counts what it writes. *)
Lemma study_write_studied mix samples consumed st consumed' st' out total :
  studied st (total + consumed) ->
  0 <= consumed < samples ->
  samples <= Z.of_nat (length mix) ->
  m_windowSize st / 2 + total + samples < 2 ^ 64 ->
  0 <= total -> 0 <= m_windowSize st ->
  study_write mix samples consumed st = Some ((consumed', st'), out) ->
  studied st' (total + consumed')
  /\ consumed <= consumed' <= samples
  /\ study_ringSize st' = study_ringSize st
  /\ (study_readSpace st < study_ringSize st -> consumed < consumed')
  /\ (study_readSpace st = study_ringSize st -> st' = st).
Proof.
  intros Hst Hc Hmix Hbound Ht Hw. unfold study_write. intros Hrun.
  assert (Hhalf : 0 <= m_windowSize st / 2) by (apply Z.div_pos; lia).
  apply bind_Some in Hrun as (cd & ? & ? & Hcd & Hrun & _).
  apply lift_Some in Hcd as [Hcd _].
  rewrite size_sub_id in Hrun by (unfold in_size_t, size_t_modulus; lia).
  set (writable := Z.min (RingBuffer.getWriteSpace (inbuf cd))
                         (samples - consumed)) in *.
  pose proof Hst as Hst0.
  destruct Hst as (cd' & Hcd' & Hwf & Hsize & Hd & Hsum).
  assert (cd' = cd) by congruence. subst cd'.
  destruct (getWriteSpace_wf _ Hwf) as [Ews Hws].
  unfold study_readSpace, study_ringSize. rewrite Hcd.
  destruct (Z.eqb_spec writable 0) as [Hz | Hnz].
  - apply bind_Some in Hrun as (? & ? & ? & _ & Hrun & _).
    apply ret_Some in Hrun as [[= -> ->] _]. rewrite Hcd.
    split; [exact Hst0 |]. split; [lia |]. split; [reflexivity |].
    split; [unfold writable in Hz; lia | reflexivity].
  - apply ret_Some in Hrun as [[= -> ->] _].
    assert (Hwr : 0 < writable <= samples - consumed) by (unfold writable; lia).
    assert (Hfit : writable <= RingBuffer.getWriteSpace (inbuf cd))
      by (unfold writable; lia).
    destruct (write_fits (inbuf cd) (skipn (Z.to_nat consumed) mix) writable)
      as [Ewrite Ers]; [lia | rewrite length_skipn; lia |].
    rewrite size_add_id by (unfold in_size_t, size_t_modulus; lia).
    pose proof (lookup_lt_Some _ _ _ Hcd) as Hlen.
    unfold set_channel.
    cbn [m_channelData set_m_channelData m_inputDuration m_windowSize].
    rewrite list_lookup_insert_eq by exact Hlen.
    cbn [inbuf set_inbuf].
    split; [| split; [lia | split; [rewrite Ewrite; reflexivity |
                                    split; [lia |]]]].
    + eexists. unfold studied.
      cbn [m_channelData set_m_channelData m_inputDuration m_windowSize].
      split; [apply list_lookup_insert_eq; exact Hlen |].
      cbn [inbuf set_inbuf].
      unfold RingBuffer.wf in *. rewrite Ers, Ewrite.
      cbn [RingBuffer.size]. repeat split; lia.
    + unfold RingBuffer.wf in Hwf. lia.
Qed.

(** The write loop keeps the bookkeeping: when it returns, all [samples]
    samples are counted. *)
Lemma study_loop_studied fuel mix samples final consumed st st' out total :
  studied st (total + consumed) ->
  0 <= consumed <= samples ->
  0 <= total ->
  samples <= Z.of_nat (length mix) ->
  0 <= m_increment st <= m_windowSize st / 2 ->
  0 <= m_windowSize st ->
  m_windowSize st / 2 + total + samples < 2 ^ 64 ->
  study_loop fuel mix samples final consumed st = Some (st', out) ->
  studied st' (total + samples).
Proof.
  revert consumed st out. induction fuel as [| fuel IH];
    intros consumed st out Hst Hc Ht Hmix Hinc Hw Hbound Hrun; [discriminate |].
  cbn [study_loop] in Hrun.
  destruct (Z.ltb_spec consumed samples) as [Hlt | Hge].
  2:{ apply ret_Some in Hrun as [-> _].
      now replace samples with consumed by lia. }
  apply bind_Some in Hrun as ([consumed' st1] & out1 & ? & Hwrite & Hrun & _).
  apply bind_Some in Hrun as (st2 & out2 & out3 & Hchunks & Hrun & _).
  cbn [fst snd] in *.
  destruct (study_write_studied mix samples consumed st consumed' st1 out1
              total Hst) as (Hst1 & Hc1 & _); [lia | exact Hmix | exact Hbound
                                               | exact Ht | exact Hw
                                               | exact Hwrite |].
  destruct (study_write_keeps _ _ _ _ _ _ _ Hwrite)
    as (_ & _ & _ & _ & Ew & Ei & _).
  assert (Hst2 : studied st2 (total + consumed')).
  { apply (study_chunks_studied fuel final st1 st2 out2 _ Hst1);
      [rewrite Ew, Ei; exact Hinc | rewrite Ew; exact Hw
       | rewrite Ew; lia | exact Hchunks]. }
  destruct (study_chunks_keeps _ _ _ _ _ Hchunks)
    as (_ & _ & _ & _ & Ew2 & Ei2 & _).
  apply (IH consumed' st2 out3 Hst2); try assumption; try lia;
    rewrite ?Ew2, ?Ei2, ?Ew, ?Ei; assumption.
Qed.

Lemma mixdown_length (input : list (list sample)) samples channels :
  0 <= samples -> Z.of_nat (length (mixdown input samples channels)) = samples.
Proof.
  intros Hs. unfold mixdown. rewrite length_map, length_seq. lia.
Qed.

(** The bookkeeping of study, from call to call: a call that is not the
    final one counts its samples; the final one leaves the number of
    samples studied as the duration, unless no sample was studied at
    all, when it leaves the half window of the pre-fill. *)
Lemma study_counts_samples fuel (input : list (list sample)) samples final
    st st' out total :
  m_realtime st = false ->
  m_mode st = JustCreated \/ m_mode st = Studying ->
  studied st total ->
  0 <= total -> 0 <= samples ->
  (final = false -> m_channels st <= 1 ->
   samples <= Z.of_nat (length (nth 0 input []))) ->
  0 <= m_increment st <= m_windowSize st / 2 ->
  0 <= m_windowSize st ->
  m_windowSize st / 2 + total + samples < 2 ^ 64 ->
  study fuel input samples final st = Some (st', out) ->
  if final
  then m_inputDuration st'
       = (if 0 <? total + samples then total + samples
          else m_windowSize st / 2)
  else studied st' (total + samples).
Proof.
  intros Hrt Hmode Hst Ht Hs Hin Hinc Hw Hbound. unfold study. rewrite Hrt.
  assert (Emode : ProcessMode_eqb (m_mode st) Processing
                  || ProcessMode_eqb (m_mode st) Finished = false)
    by (destruct Hmode as [-> | ->]; reflexivity).
  rewrite Emode. intros Hrun.
  apply bind_Some in Hrun as (cd0 & ? & ? & _ & Hrun & _).
  apply bind_Some in Hrun as (st1 & out1 & out2 & Hloop & Hrun & _).
  assert (Hst1 : studied st1 (total + samples)).
  { eapply (study_loop_studied fuel _ samples final 0
              (set_m_mode Studying st) st1 out1 total);
      [rewrite Z.add_0_r; exact Hst | lia | exact Ht | | exact Hinc
       | exact Hw | exact Hbound | exact Hloop].
    cbn [m_channels set_m_mode].
    destruct ((1 <? m_channels st) || final) eqn:E;
      [rewrite mixdown_length; lia |].
    apply orb_false_iff in E as [E1 ->]. apply Z.ltb_ge in E1.
    apply Hin; [reflexivity | exact E1]. }
  destruct (study_loop_keeps _ _ _ _ _ _ _ _ Hloop)
    as (_ & _ & _ & _ & Ew & _ & _).
  cbn [m_windowSize set_m_mode] in Ew.
  destruct final; [| apply ret_Some in Hrun as [-> _]; exact Hst1].
  destruct Hst1 as (cd & Hcd & Hwf & Hsize & Hd & Hsum).
  unfold RingBuffer.wf in Hwf.
  rewrite Ew in Hsum.
  assert (0 <= m_windowSize st / 2) by (apply Z.div_pos; lia).
  rewrite (study_final_deducts st1 cd Hcd) in Hrun by (rewrite ?Ew; lia).
  injection Hrun as <- _. cbn [m_inputDuration set_m_inputDuration].
  rewrite Hsum, Ew. unfold deducted.
  destruct (Z.ltb_spec 0 (total + samples));
    destruct (Z.ltb_spec (m_windowSize st / 2)
                         (m_windowSize st / 2 + (total + samples))); lia.
Qed.


End Study.

Section StudyExamples.

#[local] Existing Instance Reference.collaborators.



End StudyExamples.

(** ** reset and the schedule *)

Section Reset.

Context `{Collaborators}.

(** A loop that gives every channel the same new value. *)
Lemma for_each_channel_const (x : ChannelData) count c cds :
  (c + count <= length cds)%nat ->
  for_each_channel (fun _ => ret x) c count cds
  = ret (take c cds ++ replicate count x ++ drop (c + count) cds).
Proof.
  revert c cds. induction count as [| count IH]; intros c cds Hlen.
  - cbn [for_each_channel replicate]. rewrite Nat.add_0_r.
    cbn [app]. now rewrite take_drop.
  - destruct (cds !! c) as [cd |] eqn:Ecd;
      [| apply lookup_ge_None in Ecd; lia].
    pose proof (lookup_lt_Some _ _ _ Ecd) as Hc.
    cbn [for_each_channel]. rewrite Ecd. cbn [lift].
    rewrite !bind_ret_l. rewrite IH by (rewrite length_insert; lia).
    f_equal.
    rewrite (take_S_r (<[c:=x]> cds) c x)
      by (apply list_lookup_insert_eq; exact Hc).
    rewrite take_insert_ge by lia.
    rewrite drop_insert_lt by lia.
    cbn [replicate]. rewrite <- app_assoc. cbn [app].
    now replace (Datatypes.S c + count)%nat with (c + Datatypes.S count)%nat
      by lia.
Qed.

(** Entering process after a study appends the new increments to a
    schedule that is not empty. *)
Lemma process_enter_appends st st' out calculator :
  m_mode st = Studying ->
  m_stretchCalculator st = Some calculator ->
  m_outputIncrements st <> [] ->
  process_enter st = Some (Some st', out) ->
  m_outputIncrements st'
  = m_outputIncrements st
    ++ calculate calculator (getEffectiveRatio st) (m_inputDuration st)
                 (m_phaseResetDf st) (m_stretchDf st).
Proof.
  intros Hmode Hcalc Hne. unfold process_enter. rewrite Hmode.
  cbn [ProcessMode_eqb orb]. intros Hrun.
  apply bind_Some in Hrun as (st1 & ? & ? & Hstretch & Hrun & _).
  apply bind_Some in Hrun as (st2 & ? & ? & Hfill & Hrun & _).
  apply ret_Some in Hrun as [[= ->] _].
  unfold prefill_channels, on_channels in Hfill.
  apply bind_Some in Hfill as (cds & ? & ? & _ & Hfill & _).
  apply ret_Some in Hfill as [-> _].
  cbn [m_outputIncrements set_m_mode set_m_channelData].
  unfold calculateStretch in Hstretch. rewrite Hcalc in Hstretch.
  cbn [lift] in Hstretch. rewrite bind_ret_l in Hstretch.
  destruct (m_outputIncrements st) as [| i l] eqn:E; [contradiction |].
  apply ret_Some in Hstretch as [-> _]. reflexivity.
Qed.

(** C4: reset sets the mode back to JustCreated, gives every channel
    new channel data, resets the two detection curves and zeroes
    inputDuration; it leaves phaseResetDf, stretchDf and outputIncrements
    as they are.  So when a schedule is left from an earlier run, a
    study after the reset followed by the first call of process ends
    with the old schedule extended by the new increments. *)
Theorem reset_keeps_schedule st :
  (Z.to_nat (m_channels st) <= length (m_channelData st))%nat ->
  exists st',
    reset st = Some (st', [])
    /\ m_mode st' = JustCreated
    /\ channels st'
       = replicate (Z.to_nat (m_channels st))
                   (ChannelData_new (m_windowSize st) (m_outbufSize st))
    /\ m_phaseResetAudioCurve st' = curve_reset <$> m_phaseResetAudioCurve st
    /\ m_stretchAudioCurve st' = curve_reset <$> m_stretchAudioCurve st
    /\ m_inputDuration st' = 0
    /\ m_phaseResetDf st' = m_phaseResetDf st
    /\ m_stretchDf st' = m_stretchDf st
    /\ m_outputIncrements st' = m_outputIncrements st
    /\ forall fuel input samples final st1 out1 st2 out2 calculator,
         m_realtime st = false ->
         m_stretchCalculator st = Some calculator ->
         m_outputIncrements st <> [] ->
         study fuel input samples final st' = Some (st1, out1) ->
         process_enter st1 = Some (Some st2, out2) ->
         m_outputIncrements st2
         = m_outputIncrements st
           ++ calculate calculator (getEffectiveRatio st1)
                        (m_inputDuration st1) (m_phaseResetDf st1)
                        (m_stretchDf st1).
Proof.
  intros Hlen.
  set (new := ChannelData_new (m_windowSize st) (m_outbufSize st)).
  set (cds := replicate (Z.to_nat (m_channels st)) new
              ++ drop (Z.to_nat (m_channels st)) (m_channelData st)).
  set (st' := set_m_inputDuration 0
                (set_m_stretchAudioCurve
                   (curve_reset <$> m_stretchAudioCurve st)
                   (set_m_phaseResetAudioCurve
                      (curve_reset <$> m_phaseResetAudioCurve st)
                      (set_m_mode JustCreated (set_m_channelData cds st))))).
  assert (Ereset : reset st = Some (st', [])).
  { unfold reset, on_channels. fold new.
    rewrite for_each_channel_const by lia.
    rewrite !bind_ret_l. reflexivity. }
  exists st'. split; [exact Ereset |].
  repeat split.
  - unfold channels. cbn [m_channels m_channelData st' set_m_inputDuration
      set_m_stretchAudioCurve set_m_phaseResetAudioCurve set_m_mode
      set_m_channelData].
    unfold cds. rewrite take_app_le by (rewrite length_replicate; lia).
    apply take_ge. rewrite length_replicate. lia.
  - intros fuel input samples final st1 out1 st2 out2 calculator
      Hrt Hcalc Hne Hstudy Henter.
    destruct (study_keeps fuel input samples final st' st1 out1)
      as (Ho & Hc & Hm); [exact Hrt | left; reflexivity | exact Hstudy |].
    cbn [m_outputIncrements m_stretchCalculator st' set_m_inputDuration
      set_m_stretchAudioCurve set_m_phaseResetAudioCurve set_m_mode
      set_m_channelData] in Ho, Hc.
    rewrite <- Ho.
    apply (process_enter_appends st1 st2 out2 calculator);
      [exact Hm | congruence | congruence | exact Henter].
Qed.

End Reset.

Section ResetExamples.

#[local] Existing Instance Reference.collaborators.

(** An offline session of three samples leaves the schedule [341]; after
    reset, the same session again leaves [341; 341]: the old schedule,
    and one increment for the detection value that the curve sequence
    still holds (the rings are not pre-filled after reset, so the three
    samples make no new chunk). *)
Lemma reset_keeps_schedule_witness :
  m_outputIncrements Reference.first_run = [341]
  /\ exists st2 out2,
       process_enter
         (Reference.studied (Reference.after_reset Reference.first_run))
       = Some (Some st2, out2)
       /\ m_outputIncrements st2 = [341; 341].
Proof.
  set (st := Reference.first_run).
  assert (Eout : m_outputIncrements st = [341]) by (vm_compute; reflexivity).
  split; [exact Eout |].
  assert (Ec : Z.to_nat (m_channels st) = 1%nat) by (vm_compute; reflexivity).
  assert (El : length (m_channelData st) = 1%nat) by (vm_compute; reflexivity).
  assert (Hlen : (Z.to_nat (m_channels st) <= length (m_channelData st))%nat)
    by (rewrite Ec, El; lia).
  assert (Hrt : m_realtime st = false) by (vm_compute; reflexivity).
  assert (Hcalc : m_stretchCalculator st
                  = Some {| sc_sampleRate := 48000; sc_increment := 341;
                            sc_useHardPeaks := true |})
    by (vm_compute; reflexivity).
  assert (Hne : m_outputIncrements st <> []) by (rewrite Eout; discriminate).
  destruct (reset_keeps_schedule st Hlen) as (st' & Ereset & _ & _ & _ & _ & _
                                              & _ & _ & _ & Hsecond).
  assert (Est' : st' = Reference.after_reset st).
  { unfold Reference.after_reset. rewrite Ereset. reflexivity. }
  subst st'.
  destruct (returns_true
              (study 4 Reference.three_samples 3 true (Reference.after_reset st)))
    as (st1 & out1 & Hstudy); [vm_compute; reflexivity |].
  assert (Est1 : st1 = Reference.studied (Reference.after_reset st)).
  { unfold Reference.studied. rewrite Hstudy. reflexivity. }
  subst st1.
  destruct (goes_on_true
              (process_enter (Reference.studied (Reference.after_reset st))))
    as (st2 & out2 & Henter); [vm_compute; reflexivity |].
  exists st2, out2. split; [exact Henter |].
  rewrite (Hsecond _ _ _ _ _ _ _ _ _ Hrt Hcalc Hne Hstudy Henter).
  rewrite Eout. vm_compute. reflexivity.
Defined.

End ResetExamples.

(** ** study with an increment of zero

    What the increment of zero that calculateSizes can leave (C1) does
    to study: a chunk that skips no sample leaves the ring as full as it
    was, so the chunk loop never ends. *)

Section ZeroIncrement.

Context `{Collaborators}.

Lemma study_chunk_zero_increment st st' out :
  m_increment st = 0 ->
  study_chunk st = Some (st', out) ->
  study_readSpace st' = study_readSpace st
  /\ m_increment st' = 0
  /\ m_windowSize st' = m_windowSize st.
Proof.
  intros Hzero Hrun.
  destruct (study_chunk_keeps _ _ _ Hrun) as (_ & _ & _ & _ & Ew & Ei & _).
  split; [| split; [congruence | exact Ew]].
  unfold study_chunk in Hrun.
  apply bind_Some in Hrun as (cd & ? & ? & Hcd & Hrun & _).
  apply lift_Some in Hcd as [Hcd _].
  apply bind_Some in Hrun as (window & ? & ? & _ & Hrun & _).
  apply bind_Some in Hrun as (fft & ? & ? & _ & Hrun & _).
  apply bind_Some in Hrun as (phaseReset & ? & ? & _ & Hrun & _).
  apply bind_Some in Hrun as (stretch & ? & ? & _ & Hrun & _).
  destruct (curve_process phaseReset _ _) as [df1 curve1].
  cbn [m_increment set_m_phaseResetDf set_m_phaseResetAudioCurve] in Hrun.
  destruct (curve_process stretch _ _) as [df2 curve2].
  apply ret_Some in Hrun as [-> _].
  unfold study_readSpace, set_channel.
  cbn [m_channelData set_m_channelData].
  rewrite list_lookup_insert_eq by (eapply lookup_lt_Some; exact Hcd).
  rewrite Hcd.
  cbn [inbuf set_inbuf set_scratch m_increment set_m_inputDuration
       set_m_stretchDf set_m_stretchAudioCurve set_m_phaseResetDf
       set_m_phaseResetAudioCurve].
  rewrite Hzero. reflexivity.
Qed.

Lemma study_chunks_never_return fuel final st :
  m_increment st = 0 ->
  (m_windowSize st <=? study_readSpace st)
  || final && (m_windowSize st / 2 <=? study_readSpace st) = true ->
  study_chunks fuel final st = None.
Proof.
  revert st. induction fuel as [| fuel IH]; intros st Hzero Hcond;
    [reflexivity |].
  cbn [study_chunks]. unfold study_readSpace in Hcond.
  destruct (m_channelData st !! 0%nat) as [cd |] eqn:Hcd; [| reflexivity].
  cbn [lift]. rewrite bind_ret_l. rewrite Hcond.
  destruct (study_chunk st) as [[st1 out1] |] eqn:Hchunk; [| reflexivity].
  destruct (study_chunk_zero_increment st st1 out1 Hzero Hchunk)
    as (Ers & Ei & Ew).
  unfold bind. rewrite (IH st1 Ei); [reflexivity |].
  rewrite Ers, Ew. unfold study_readSpace. rewrite Hcd. exact Hcond.
Qed.

(** A final call of study with samples never returns when the increment
    is zero and the ring holds the half window of the pre-fill. *)
Lemma study_never_returns fuel (input : list (list sample)) samples st :
  m_realtime st = false ->
  m_mode st = JustCreated \/ m_mode st = Studying ->
  m_increment st = 0 ->
  0 < samples ->
  m_windowSize st / 2 <= study_readSpace st ->
  study fuel input samples true st = None.
Proof.
  intros Hrt Hmode Hzero Hs Hfill. unfold study. rewrite Hrt.
  assert (Emode : ProcessMode_eqb (m_mode st) Processing
                  || ProcessMode_eqb (m_mode st) Finished = false)
    by (destruct Hmode as [-> | ->]; reflexivity).
  rewrite Emode. cbn [m_channelData set_m_mode m_channels].
  unfold study_readSpace in Hfill.
  destruct (m_channelData st !! 0%nat) as [cd |] eqn:Hcd; [| reflexivity].
  cbn [lift]. rewrite bind_ret_l.
  destruct fuel as [| fuel]; [reflexivity |].
  cbn [study_loop]. destruct (Z.ltb_spec 0 samples) as [_ | ?]; [| lia].
  destruct (study_write _ samples 0 (set_m_mode Studying st))
    as [[[consumed st1] out1] |] eqn:Hwrite; [| reflexivity].
  assert (Hfacts : m_increment st1 = 0
                   /\ m_windowSize st1 = m_windowSize st
                   /\ study_readSpace st <= study_readSpace st1).
  { destruct (study_write_keeps _ _ _ _ _ _ _ Hwrite)
      as (_ & _ & _ & _ & Ew & Ei & _).
    cbn [m_windowSize m_increment set_m_mode] in Ew, Ei.
    split; [congruence |]. split; [exact Ew |].
    unfold study_write in Hwrite. cbn [m_channelData set_m_mode] in Hwrite.
    rewrite Hcd in Hwrite. cbn [lift] in Hwrite.
    rewrite bind_ret_l in Hwrite.
    unfold study_readSpace at 1. rewrite Hcd.
    destruct (_ =? 0) in Hwrite.
    - apply bind_Some in Hwrite as (? & ? & ? & _ & Hwrite & _).
      apply ret_Some in Hwrite as [[= -> ->] _].
      unfold study_readSpace. cbn [m_channelData set_m_mode].
      rewrite Hcd. lia.
    - apply ret_Some in Hwrite as [[= -> ->] _].
      unfold study_readSpace, set_channel.
      cbn [m_channelData set_m_channelData set_m_mode].
      rewrite list_lookup_insert_eq by (eapply lookup_lt_Some; exact Hcd).
      cbn [inbuf set_inbuf].
      unfold RingBuffer.getReadSpace, RingBuffer.write.
      cbn [RingBuffer.data]. rewrite length_app. lia. }
  destruct Hfacts as (Ei & Ew & Hrs).
  unfold bind at 2. cbn [fst snd].
  rewrite (study_chunks_never_return fuel true st1 Ei); [reflexivity |].
  cbn [andb]. apply orb_true_iff. right. apply Z.leb_le.
  unfold study_readSpace in Hrs at 1. rewrite Hcd in Hrs. rewrite Ew. lia.
Qed.

End ZeroIncrement.

Section ZeroIncrementExamples.

#[local] Existing Instance Reference.collaborators.

(** The object of the failing input of C1 never finishes a study. *)
Lemma study_never_returns_at_ratio_400 fuel :
  study fuel [[1%Q]] 1 true (Reference.offline_48k 400 1) = None.
Proof.
  apply study_never_returns.
  - vm_compute. reflexivity.
  - left. vm_compute. reflexivity.
  - vm_compute. reflexivity.
  - lia.
  - vm_compute. discriminate.
Qed.

End ZeroIncrementExamples.

(** ** study returns

    With an increment of at least 1 every loop of study comes to an end:
    each chunk takes [m_increment] samples out of the ring, and each turn
    of the write loop either writes a sample or, on a full ring, makes
    room for the next turn. *)

Section StudyTotal.

Context `{Collaborators}.

Lemma bind_returns {A B : Type} (m : Run A) (k : A -> Run B) a b out1 out2 :
  m = Some (a, out1) -> k a = Some (b, out2) ->
  bind m k = Some (b, out1 ++ out2).
Proof. intros -> Hk. unfold bind. rewrite Hk. reflexivity. Qed.

Lemma studied_ringSize st total :
  studied st total -> 0 <= study_readSpace st <= study_ringSize st.
Proof.
  intros (cd & Hcd & Hwf & _).
  unfold study_readSpace, study_ringSize. rewrite Hcd. exact Hwf.
Qed.

Lemma studiedb_true st total : studiedb st total = true -> studied st total.
Proof.
  unfold studiedb, studied.
  destruct (m_channelData st !! 0%nat) as [cd |]; [| discriminate].
  intros Hb. exists cd. unfold RingBuffer.wf.
  repeat (apply andb_true_iff in Hb as [Hb ?]).
  repeat split; lia.
Qed.

Lemma study_readyb_true st : study_readyb st = true -> study_ready st.
Proof.
  unfold study_readyb, study_ready.
  destruct (m_window st), (m_studyFFT st), (m_phaseResetAudioCurve st),
    (m_stretchAudioCurve st); try discriminate.
  intros _. repeat split; eauto.
Qed.

(** A chunk returns when the objects it reaches through pointers exist. *)
Lemma study_chunk_returns st :
  is_Some (m_channelData st !! 0%nat) -> study_ready st ->
  exists st' out,
    study_chunk st = Some (st', out)
    /\ study_ready st' /\ study_ringSize st' = study_ringSize st.
Proof.
  intros [cd Hcd] ([w Hw] & [f Hf] & [p Hp] & [s Hs]).
  pose proof (lookup_lt_Some _ _ _ Hcd) as Hlen.
  unfold study_chunk, study_ringSize. rewrite Hcd, Hw, Hf, Hp, Hs.
  cbn [lift]. rewrite !bind_ret_l.
  destruct (curve_process p _ _) as [df1 p'].
  cbn [m_increment set_m_phaseResetAudioCurve set_m_phaseResetDf].
  destruct (curve_process s _ _) as [df2 s'].
  eexists _, _. split; [reflexivity |]. split.
  - unfold study_ready, set_channel.
    cbn [m_window m_studyFFT m_phaseResetAudioCurve m_stretchAudioCurve
         set_m_channelData set_m_inputDuration set_m_stretchDf
         set_m_stretchAudioCurve set_m_phaseResetDf
         set_m_phaseResetAudioCurve].
    rewrite Hw, Hf. eauto.
  - unfold set_channel.
    cbn [m_channelData set_m_channelData set_m_inputDuration set_m_stretchDf
         set_m_stretchAudioCurve set_m_phaseResetDf
         set_m_phaseResetAudioCurve].
    rewrite list_lookup_insert_eq by exact Hlen. reflexivity.
Qed.

(** The chunk loop returns within as many turns as the ring holds
    samples, and leaves less than a window in the ring. *)
Lemma study_chunks_returns fuel final st total :
  studied st total -> study_ready st ->
  1 <= m_increment st <= m_windowSize st / 2 ->
  m_windowSize st / 2 + total < 2 ^ 64 ->
  study_readSpace st < Z.of_nat fuel ->
  exists st' out,
    study_chunks fuel final st = Some (st', out)
    /\ study_ready st' /\ study_ringSize st' = study_ringSize st
    /\ study_readSpace st' < m_windowSize st.
Proof.
  revert st. induction fuel as [| fuel IH];
    intros st Hst Hready Hinc Hbound Hfuel.
  { destruct (studied_ringSize st total Hst). lia. }
  assert (Hw : 2 <= m_windowSize st).
  { destruct (Z.le_gt_cases 2 (m_windowSize st)) as [Hle | Hgt]; [exact Hle |].
    assert (m_windowSize st / 2 <= 0)
      by (destruct (Z.le_gt_cases 0 (m_windowSize st));
          [rewrite Z.div_small by lia; lia
          | apply Z.lt_le_incl, Z.div_lt_upper_bound; lia]).
    lia. }
  cbn [study_chunks].
  pose proof Hst as (cd & Hcd & _).
  rewrite Hcd. cbn [lift]. rewrite bind_ret_l.
  destruct ((m_windowSize st <=? RingBuffer.getReadSpace (inbuf cd))
            || final && (m_windowSize st / 2
                         <=? RingBuffer.getReadSpace (inbuf cd))) eqn:Hcond.
  - assert (Hrs : m_windowSize st / 2 <= study_readSpace st).
    { unfold study_readSpace. rewrite Hcd.
      assert (m_windowSize st / 2 <= m_windowSize st)
        by (apply Z.div_le_upper_bound; lia).
      apply orb_true_iff in Hcond as [Hc | Hc].
      - apply Z.leb_le in Hc. lia.
      - apply andb_true_iff in Hc as [_ Hc]. now apply Z.leb_le in Hc. }
    destruct (study_chunk_returns st) as (st1 & out1 & E1 & Hready1 & Hcap1);
      [eauto | exact Hready |].
    destruct (study_chunk_studied st st1 out1 total Hst) as [Hst1 Hrs1];
      [lia | exact Hbound | exact E1 |].
    destruct (study_chunk_keeps _ _ _ E1) as (_ & _ & _ & _ & Ew & Ei & _).
    destruct (IH st1 Hst1 Hready1) as (st' & out' & E' & Hready' & Hcap' & Hlt);
      [rewrite Ew, Ei; exact Hinc | rewrite Ew; exact Hbound | lia |].
    exists st', (out1 ++ out').
    split; [exact (bind_returns _ _ st1 st' out1 out' E1 E') |].
    split; [exact Hready' |]. split; [congruence |]. rewrite <- Ew. exact Hlt.
  - exists st, []. split; [reflexivity |]. split; [exact Hready |].
    split; [reflexivity |].
    apply orb_false_iff in Hcond as [Hc _]. apply Z.leb_gt in Hc.
    unfold study_readSpace. rewrite Hcd. exact Hc.
Qed.

(** A write returns when channel 0 exists. *)
Lemma study_write_returns mix samples consumed st :
  is_Some (m_channelData st !! 0%nat) ->
  exists consumed' st' out,
    study_write mix samples consumed st = Some ((consumed', st'), out)
    /\ (study_ready st -> study_ready st').
Proof.
  intros [cd Hcd]. unfold study_write. rewrite Hcd. cbn [lift].
  rewrite bind_ret_l.
  destruct (_ =? 0).
  - eexists _, _, _. split; [reflexivity | auto].
  - eexists _, _, _. split; [reflexivity | auto].
Qed.

(** The write loop returns: the measure is twice the number of samples
    still to be written, one more on a full ring. *)
Lemma study_loop_returns fuel mix samples final consumed st total :
  studied st (total + consumed) -> study_ready st ->
  0 <= consumed <= samples ->
  0 <= total ->
  samples <= Z.of_nat (length mix) ->
  1 <= m_increment st <= m_windowSize st / 2 ->
  m_windowSize st <= study_ringSize st ->
  m_windowSize st / 2 + total + samples < 2 ^ 64 ->
  2 * (samples - consumed)
  + (if study_readSpace st <? study_ringSize st then 0 else 1)
  + study_ringSize st + 1 <= Z.of_nat fuel ->
  exists st' out,
    study_loop fuel mix samples final consumed st = Some (st', out).
Proof.
  revert consumed st. induction fuel as [| fuel IH];
    intros consumed st Hst Hready Hc Ht Hmix Hinc Hcap Hbound Hfuel.
  { destruct (studied_ringSize st _ Hst).
    destruct (study_readSpace st <? study_ringSize st); lia. }
  cbn [study_loop].
  destruct (Z.ltb_spec consumed samples) as [Hlt | Hge];
    [| exists st, []; reflexivity].
  assert (Hw : 0 <= m_windowSize st).
  { destruct (Z.le_gt_cases 0 (m_windowSize st)) as [Hle | Hgt]; [exact Hle |].
    assert (m_windowSize st / 2 < 0)
      by (apply Z.div_lt_upper_bound; lia).
    lia. }
  pose proof Hst as (cd & Hcd & _).
  destruct (study_write_returns mix samples consumed st)
    as (consumed' & st1 & out1 & Ewrite & Hready1); [eauto |].
  destruct (study_write_studied mix samples consumed st consumed' st1 out1
              total Hst)
    as (Hst1 & Hc1 & Hcap1 & Hprogress & Hfull);
    [lia | exact Hmix | exact Hbound | exact Ht | exact Hw | exact Ewrite |].
  destruct (study_write_keeps _ _ _ _ _ _ _ Ewrite)
    as (_ & _ & _ & _ & Ew & Ei & _).
  destruct (studied_ringSize st _ Hst) as [Hrs0 Hrs].
  destruct (studied_ringSize st1 _ Hst1) as [_ Hrs1].
  destruct (study_chunks_returns fuel final st1 (total + consumed') Hst1)
    as (st2 & out2 & Echunks & Hready2 & Hcap2 & Hrs2);
    [auto | rewrite Ew, Ei; exact Hinc | rewrite Ew; lia
     | destruct (Z.ltb_spec (study_readSpace st) (study_ringSize st)); lia |].
  assert (Hst2 : studied st2 (total + consumed')).
  { apply (study_chunks_studied fuel final st1 st2 out2 _ Hst1);
      [rewrite Ew, Ei; lia | rewrite Ew; exact Hw
       | rewrite Ew; lia | exact Echunks]. }
  destruct (study_chunks_keeps _ _ _ _ _ Echunks)
    as (_ & _ & _ & _ & Ew2 & Ei2 & _).
  destruct (IH consumed' st2 Hst2 Hready2) as (st' & out' & Eloop);
    [lia | exact Ht | exact Hmix | rewrite Ew2, Ei2, Ew, Ei; exact Hinc
     | rewrite Ew2, Ew, Hcap2, Hcap1; exact Hcap
     | rewrite Ew2, Ew; exact Hbound | |].
  { rewrite Hcap2, Hcap1.
    destruct (Z.ltb_spec (study_readSpace st2) (study_ringSize st)) as [_ | ?];
      [| lia].
    destruct (Z.ltb_spec (study_readSpace st) (study_ringSize st)) as [Hroom | ?].
    - specialize (Hprogress Hroom). lia.
    - lia. }
  exists st', (out1 ++ out2 ++ out').
  apply (bind_returns _ _ (consumed', st1) st' out1 (out2 ++ out') Ewrite).
  cbn [fst snd].
  exact (bind_returns _ _ st2 st' out2 out' Echunks Eloop).
Qed.


End StudyTotal.

Section StudyTotalExamples.

#[local] Existing Instance Reference.collaborators.


End StudyTotalExamples.

(** ** Frequency cutoffs and option setters *)

Section OptionFacts.

Context `{Collaborators} `{OptionGroups}.


(** Bits of an option word after a group is cleared and a value is
    or-ed in. *)
Lemma regroup_inside m o mask :
  within o mask -> Z.land (Z.lor (Z.land m (Z.lnot mask)) o) mask = o.
Proof.
  unfold within. intros Hw. apply Z.bits_inj'. intros n Hn.
  apply (f_equal (fun z => Z.testbit z n)) in Hw.
  rewrite Z.land_spec, Z.lnot_spec, Z.bits_0 in Hw by exact Hn.
  rewrite Z.land_spec, Z.lor_spec, Z.land_spec, Z.lnot_spec by exact Hn.
  destruct (Z.testbit m n), (Z.testbit o n), (Z.testbit mask n);
    simpl in *; congruence.
Qed.

Lemma regroup_outside m o mask :
  Z.land (Z.lor (Z.land m (Z.lnot mask)) o) (Z.lnot mask)
  = Z.land (Z.lor m o) (Z.lnot mask).
Proof.
  apply Z.bits_inj'. intros n Hn.
  rewrite !Z.land_spec, !Z.lor_spec, Z.land_spec, !Z.lnot_spec by exact Hn.
  destruct (Z.testbit m n), (Z.testbit o n), (Z.testbit mask n); reflexivity.
Qed.

Lemma regroup_twice m o1 o2 mask :
  within o1 mask ->
  Z.lor (Z.land (Z.lor (Z.land m (Z.lnot mask)) o1) (Z.lnot mask)) o2
  = Z.lor (Z.land m (Z.lnot mask)) o2.
Proof.
  unfold within. intros Hw. apply Z.bits_inj'. intros n Hn.
  apply (f_equal (fun z => Z.testbit z n)) in Hw.
  rewrite Z.land_spec, Z.lnot_spec, Z.bits_0 in Hw by exact Hn.
  rewrite !Z.lor_spec, !Z.land_spec, Z.lor_spec, Z.land_spec, !Z.lnot_spec
    by exact Hn.
  destruct (Z.testbit m n), (Z.testbit o1 n), (Z.testbit o2 n),
    (Z.testbit mask n); simpl in *; congruence.
Qed.

Lemma regroup_member m o a b c :
  Z.land (Z.lor (Z.land m (Z.lnot (Z.lor (Z.lor a b) c))) o) b = Z.land o b.
Proof.
  apply Z.bits_inj'. intros n Hn.
  rewrite !Z.land_spec, !Z.lor_spec, Z.land_spec, Z.lnot_spec, !Z.lor_spec
    by exact Hn.
  destruct (Z.testbit m n), (Z.testbit o n), (Z.testbit a n),
    (Z.testbit b n), (Z.testbit c n); reflexivity.
Qed.

(** X2: setTransientsOption is refused offline, with a diagnostic and
    no change of state.  In realtime mode it replaces the transients
    group of the option word by the given value, leaves the bits outside
    the group as they were (or sets them, where the value has them), and
    tells the calculator to use hard peaks exactly when the value lacks
    OptionTransientsSmooth; nothing but the option word and the
    calculator changes. *)
Theorem setTransientsOption_spec options st :
  (m_realtime st = true -> is_Some (m_stretchCalculator st)) ->
  exists st' out,
    setTransientsOption options st = Some (st', out)
    /\ if m_realtime st
       then out = []
            /\ has_option (m_options st') OptionTransientsSmooth
               = has_option options OptionTransientsSmooth
            /\ (sc_useHardPeaks <$> m_stretchCalculator st')
               = Some (negb (has_option options OptionTransientsSmooth))
            /\ Z.land (m_options st') (Z.lnot transients_mask)
               = Z.land (Z.lor (m_options st) options)
                        (Z.lnot transients_mask)
            /\ (within options transients_mask ->
                Z.land (m_options st') transients_mask = options)
            /\ st' = set_m_stretchCalculator (m_stretchCalculator st')
                       (set_m_options (m_options st') st)
       else st' = st
            /\ out = [TransientsOptionNotPermissibleInNonRealtime].
Proof.
  intros Hcalc. unfold setTransientsOption.
  destruct (m_realtime st) eqn:Hrt; cbn [negb].
  2:{ eexists _, _. split; [reflexivity |]. split; reflexivity. }
  destruct (Hcalc eq_refl) as [calculator Ecalc].
  cbn [m_stretchCalculator m_options set_m_options].
  rewrite Ecalc. cbn [mbind option_bind].
  eexists _, _. split; [reflexivity |].
  cbn [m_options m_stretchCalculator set_m_stretchCalculator set_m_options
       fmap option_fmap option_map sc_useHardPeaks setUseHardPeaks].
  assert (Esmooth :
    has_option (Z.lor (Z.land (m_options st) (Z.lnot transients_mask)) options)
               OptionTransientsSmooth
    = has_option options OptionTransientsSmooth).
  { unfold has_option, transients_mask. now rewrite regroup_member. }
  split; [reflexivity |]. split; [exact Esmooth |].
  split; [now rewrite Esmooth |].
  split; [apply regroup_outside |].
  split; [apply regroup_inside |].
  destruct st. reflexivity.
Qed.

(** X3: setPhaseOption works in every mode.  For a value within the
    phase group it makes that value the group's content and leaves the
    other bits of the option word alone, and of two calls in a row the
    later one decides: the earlier leaves no trace. *)
Theorem setPhaseOption_overrides o1 o2 st :
  within o1 phase_mask ->
  Z.land (m_options (setPhaseOption o1 st)) phase_mask = o1
  /\ Z.land (m_options (setPhaseOption o1 st)) (Z.lnot phase_mask)
     = Z.land (m_options st) (Z.lnot phase_mask)
  /\ setPhaseOption o2 (setPhaseOption o1 st) = setPhaseOption o2 st.
Proof.
  intros Hw. unfold setPhaseOption.
  cbn [m_options set_m_options].
  split; [apply regroup_inside; exact Hw |]. split.
  - rewrite regroup_outside. apply Z.bits_inj'. intros n Hn.
    unfold within in Hw.
    apply (f_equal (fun z => Z.testbit z n)) in Hw.
    rewrite Z.land_spec, Z.lnot_spec, Z.bits_0 in Hw by exact Hn.
    rewrite !Z.land_spec, Z.lor_spec, !Z.lnot_spec by exact Hn.
    destruct (Z.testbit (m_options st) n), (Z.testbit o1 n),
      (Z.testbit phase_mask n); simpl in *; congruence.
  - rewrite (regroup_twice _ o1 o2 _ Hw). destruct st. reflexivity.
Qed.

End OptionFacts.

Section OptionExamples.

#[local] Existing Instance Reference.collaborators.
#[local] Existing Instance reference_option_groups.

(** A realtime object told to smooth transients: the calculator stops
    using hard peaks. *)
Lemma setTransientsOption_spec_witness :
  exists st',
    setTransientsOption 512 (Reference.realtime_48k 1 1) = Some (st', [])
    /\ (sc_useHardPeaks <$> m_stretchCalculator st') = Some false.
Proof.
  set (st := Reference.realtime_48k 1 1).
  assert (Hrt : m_realtime st = true) by (vm_compute; reflexivity).
  assert (Hcalc : is_Some (m_stretchCalculator st))
    by (vm_compute; eauto).
  destruct (setTransientsOption_spec 512 st (fun _ => Hcalc))
    as (st' & out & Erun & Hspec).
  rewrite Hrt in Hspec. destruct Hspec as (-> & _ & Hpeaks & _).
  exists st'. split; [exact Erun | exact Hpeaks].
Defined.

(** Peak-locked phase, then independent phase: independent. *)
Lemma setPhaseOption_overrides_witness :
  within 4096 phase_mask
  /\ setPhaseOption 8192 (setPhaseOption 4096 (Reference.offline_48k 1 1))
     = setPhaseOption 8192 (Reference.offline_48k 1 1).
Proof.
  assert (Hw : within 4096 phase_mask) by (vm_compute; reflexivity).
  split; [exact Hw |].
  exact (proj2 (proj2 (setPhaseOption_overrides 4096 8192
                         (Reference.offline_48k 1 1) Hw))).
Defined.

End OptionExamples.

(** ** The sizing computation returns *)

Section HalvingLoops.

Context {S : Type} (cond : S -> bool) (body : S -> S).

(** A loop whose body at least halves a measure that is positive
    whenever the test holds comes to an end, keeps every invariant of
    its body, and leaves the test false. *)
Lemma while_loop_halving (measure : S -> Z) (P : S -> Prop) fuel s :
  (forall s, P s -> cond s = true ->
     0 < measure s /\ measure (body s) <= measure s / 2 /\ P (body s)) ->
  P s -> measure s < 2 ^ Z.of_nat fuel ->
  exists s', while_loop (Datatypes.S fuel) cond body s = Some s'
             /\ P s' /\ cond s' = false.
Proof.
  intros Hstep. revert s. induction fuel as [| fuel IH]; intros s HP Hm.
  - cbn [while_loop]. destruct (cond s) eqn:Hc.
    + destruct (Hstep s HP Hc) as (Hpos & _). simpl in Hm. lia.
    + eauto.
  - cbn [while_loop]. destruct (cond s) eqn:Hc; [| eauto].
    destruct (Hstep s HP Hc) as (Hpos & Hhalf & HP').
    apply IH; [exact HP' |].
    rewrite Nat2Z.inj_succ, Z.pow_succ_r in Hm by lia.
    assert (measure s / 2 < 2 ^ Z.of_nat fuel)
      by (apply Z.div_lt_upper_bound; lia).
    lia.
Qed.

End HalvingLoops.

Section SizesReturn.

Context `{Collaborators}.

Lemma roundUp_range v : in_size_t v -> in_size_t (roundUp v).
Proof.
  intros Hv. unfold roundUp. destruct (_ =? 0); [exact Hv |].
  apply wrap_size_t_range.
Qed.

Lemma half_range i : in_size_t i -> in_size_t (i / 2).
Proof.
  unfold in_size_t, size_t_modulus. intros Hi.
  split; [apply Z.div_pos; lia | apply Z.div_lt_upper_bound; lia].
Qed.

Lemma clamp_outputIncrement_range (r : Q) s :
  in_size_t (inputIncrement s) ->
  in_size_t (inputIncrement (clamp_outputIncrement r s)).
Proof.
  intros Hs. unfold clamp_outputIncrement.
  destruct (_ <? 1); [| exact Hs].
  cbn [inputIncrement]. apply roundUp_range, wrap_size_t_range.
Qed.

(** The halving loop of the realtime case ends; it keeps the window
    size. *)
Lemma realtime_halving_returns (r : Q) s :
  in_size_t (inputIncrement s) ->
  exists s', realtime_halving r s = Some s'
             /\ in_size_t (inputIncrement s')
             /\ windowSize s' = windowSize s
             /\ (outputIncrement s' <= 1024 \/ inputIncrement s' <= 1).
Proof.
  intros Hs. unfold realtime_halving, sizes_fuel.
  destruct (while_loop_halving
              (fun s => (1024 <? outputIncrement s) && (1 <? inputIncrement s))
              (fun s0 =>
                 let inputIncrement := inputIncrement s0 / 2 in
                 {| inputIncrement := inputIncrement;
                    windowSize := windowSize s0;
                    outputIncrement :=
                      wrap_size_t
                        (lrint (ceil (double_of_size_t inputIncrement * r))) |})
              inputIncrement
              (fun s0 => in_size_t (inputIncrement s0)
                         /\ windowSize s0 = windowSize s)
              64 s) as (s' & Hrun & [Hr Hw] & Hc).
  - intros s0 [Hr Hw] Hc. apply andb_true_iff in Hc as [_ Hc].
    apply Z.ltb_lt in Hc. cbn [inputIncrement windowSize].
    split; [lia |]. split; [lia |]. split; [apply half_range, Hr | exact Hw].
  - split; [exact Hs | reflexivity].
  - unfold in_size_t, size_t_modulus in Hs. change (Z.of_nat 64) with 64. lia.
  - exists s'. split; [exact Hrun |]. split; [exact Hr |].
    split; [exact Hw |].
    apply andb_false_iff in Hc as [Hc | Hc]; apply Z.ltb_ge in Hc; lia.
Qed.

(** The halving loop of the offline case ends; it keeps the window
    size. *)
Lemma offline_halving_returns (r : Q) s :
  in_size_t (outputIncrement s) -> in_size_t (inputIncrement s) ->
  exists s', offline_halving r s = Some s'
             /\ in_size_t (inputIncrement s')
             /\ windowSize s' = windowSize s
             /\ 0 <= outputIncrement s' <= outputIncrement s
             /\ (outputIncrement s' <= 1024 \/ inputIncrement s' <= 1).
Proof.
  intros Ho Hs. unfold offline_halving, sizes_fuel.
  destruct (while_loop_halving
              (fun s => (1024 <? outputIncrement s) && (1 <? inputIncrement s))
              (fun s0 =>
                 let outputIncrement := outputIncrement s0 / 2 in
                 {| inputIncrement :=
                      wrap_size_t
                        (int_of_double (double_of_size_t outputIncrement / r));
                    windowSize := windowSize s0;
                    outputIncrement := outputIncrement |})
              outputIncrement
              (fun s0 => in_size_t (inputIncrement s0)
                         /\ windowSize s0 = windowSize s
                         /\ 0 <= outputIncrement s0 <= outputIncrement s)
              64 s) as (s' & Hrun & (Hr & Hw & Hle) & Hc).
  - intros s0 (Hr & Hw & Hle) Hc. apply andb_true_iff in Hc as [Hc _].
    apply Z.ltb_lt in Hc. cbn [inputIncrement windowSize outputIncrement].
    split; [lia |]. split; [lia |]. split; [apply wrap_size_t_range |].
    split; [exact Hw |].
    split; [apply Z.div_pos; lia |].
    assert (outputIncrement s0 / 2 <= outputIncrement s0)
      by (apply Z.div_le_upper_bound; lia).
    lia.
  - unfold in_size_t in Ho. split; [exact Hs |]. split; [reflexivity | lia].
  - unfold in_size_t, size_t_modulus in Ho. change (Z.of_nat 64) with 64. lia.
  - exists s'. split; [exact Hrun |]. split; [exact Hr |].
    split; [exact Hw |]. split; [lia |].
    apply andb_false_iff in Hc as [Hc | Hc]; apply Z.ltb_ge in Hc; lia.
Qed.

(** The loop of line 335 ends below 512. *)
Lemma offline_squash_loop_returns i :
  in_size_t i ->
  exists i', while_loop sizes_fuel (fun i => 512 <=? i) (fun i => i / 2) i
             = Some i'
             /\ 0 <= i' < 512 /\ i' <= i.
Proof.
  intros Hi. unfold sizes_fuel.
  destruct (while_loop_halving (fun i => 512 <=? i) (fun i => i / 2)
              (fun i => i) (fun i0 => 0 <= i0 <= i) 64 i)
    as (i' & Hrun & Hr & Hc).
  - intros i0 Hr Hc. apply Z.leb_le in Hc.
    split; [lia |]. split; [lia |].
    split; [apply Z.div_pos; lia |].
    assert (i0 / 2 <= i0) by (apply Z.div_le_upper_bound; lia). lia.
  - unfold in_size_t in Hi. lia.
  - unfold in_size_t, size_t_modulus in Hi. change (Z.of_nat 64) with 64. lia.
  - exists i'. split; [exact Hrun |]. apply Z.leb_gt in Hc. lia.
Qed.

(** The choice of the increments and of the window size returns for
    every base window size that is not zero, whatever the ratio. *)
Lemma choose_sizes_returns st :
  1 <= m_baseWindowSize st < 2 ^ 64 ->
  exists s, choose_sizes st = Some s /\ in_size_t (inputIncrement s).
Proof.
  intros Hb. unfold choose_sizes.
  set (r := getEffectiveRatio st).
  destruct (m_realtime st).
  - set (inc0 := roundUp _).
    assert (Hinc0 : in_size_t inc0)
      by (apply roundUp_range, wrap_size_t_range).
    destruct (Qltb r 1).
    + eexists. split; [reflexivity |].
      unfold realtime_squash. apply clamp_outputIncrement_range. exact Hinc0.
    + unfold realtime_stretch.
      destruct (realtime_halving_returns r
                  {| inputIncrement := inc0;
                     windowSize := m_baseWindowSize st;
                     outputIncrement :=
                       wrap_size_t
                         (int_of_double (ceil (double_of_size_t inc0 * r))) |})
        as (s' & Hrun & Hr & Hw & _); [exact Hinc0 |].
      cbn [inputIncrement windowSize outputIncrement] in *.
      rewrite Hrun. cbn [mbind option_bind].
      destruct (stretch_windowSize_returns r s') as [w Ew]; [lia |].
      rewrite Ew. eexists. split; [reflexivity | exact Hr].
  - destruct (Qltb r 1).
    + unfold offline_squash. cbn [windowSize].
      destruct (offline_squash_loop_returns (m_baseWindowSize st / 4))
        as (i' & Hrun & Hi' & _).
      { unfold in_size_t, size_t_modulus.
        split; [apply Z.div_pos; lia | apply Z.div_lt_upper_bound; lia]. }
      rewrite Hrun. cbn [mbind option_bind].
      eexists. split; [reflexivity |].
      apply clamp_outputIncrement_range. cbn [inputIncrement].
      unfold in_size_t, size_t_modulus. lia.
    + unfold offline_stretch. cbn [windowSize].
      destruct (offline_halving_returns r
                  {| inputIncrement :=
                       wrap_size_t
                         (int_of_double
                            (double_of_size_t (m_baseWindowSize st / 6) / r));
                     windowSize := m_baseWindowSize st;
                     outputIncrement := m_baseWindowSize st / 6 |})
        as (s' & Hrun & Hr & Hw & _).
      { cbn [outputIncrement]. unfold in_size_t, size_t_modulus.
        split; [apply Z.div_pos; lia | apply Z.div_lt_upper_bound; lia]. }
      { apply wrap_size_t_range. }
      cbn [inputIncrement windowSize outputIncrement] in *.
      rewrite Hrun. cbn [mbind option_bind].
      destruct (stretch_windowSize_returns r s') as [w Ew]; [lia |].
      rewrite Ew. eexists. split; [reflexivity | exact Hr].
Qed.

(** What [calculateSizes] assigns, given what the two loops left. *)
Lemma calculateSizes_assigns st s i :
  choose_sizes st = Some s ->
  fit_expectedInputDuration st (inputIncrement s) = Some i ->
  exists st',
    calculateSizes st = Some st'
    /\ m_windowSize st' = windowSize s
    /\ m_increment st' = i
    /\ m_maxProcessSize st' = Z.max (m_maxProcessSize st) (windowSize s).
Proof.
  intros Hs Hi. unfold calculateSizes. rewrite Hs. cbn [mbind option_bind].
  rewrite Hi. cbn [mbind option_bind].
  eexists. split; [reflexivity |].
  cbn [m_windowSize m_increment m_maxProcessSize set_m_windowSize
       set_m_increment].
  destruct (Z.ltb_spec (m_maxProcessSize st) (windowSize s));
    cbn [m_windowSize m_increment m_maxProcessSize set_m_windowSize
         set_m_increment set_m_maxProcessSize set_m_outbufSize];
    repeat split; lia.
Qed.

Lemma calculateSizes_total st :
  1 <= m_baseWindowSize st < 2 ^ 64 ->
  exists st',
    calculateSizes st = Some st'
    /\ m_windowSize st' <= m_maxProcessSize st'
    /\ m_maxProcessSize st <= m_maxProcessSize st'
    /\ (0 < m_expectedInputDuration st ->
        size_mul (m_increment st') 4 <= m_expectedInputDuration st
        \/ m_increment st' <= 1).
Proof.
  intros Hb.
  destruct (choose_sizes_returns st Hb) as (s & Hs & Hr).
  destruct (fit_expectedInputDuration_returns st (inputIncrement s))
    as (i & Hi & _); [exact Hr |].
  destruct (calculateSizes_assigns st s i Hs Hi) as (st' & Hrun & Ew & Ei & Em).
  exists st'. split; [exact Hrun |]. rewrite Ew, Ei, Em.
  split; [lia |]. split; [lia |].
  intros Hpos. unfold fit_expectedInputDuration in Hi.
  destruct (Z.ltb_spec 0 (m_expectedInputDuration st)); [| lia].
  apply while_loop_iterate in Hi as (_ & _ & _ & Hc & _).
  apply andb_false_iff in Hc as [Hc | Hc]; apply Z.ltb_ge in Hc; lia.
Qed.

End SizesReturn.

(** ** Sizing twice *)

Section SizesTwice.

Context `{Collaborators}.

(** The choice of sizes reads the ratios, the realtime flag, the rate
    multiple and the base window size only. *)
Lemma choose_sizes_ext st st' :
  m_timeRatio st' = m_timeRatio st ->
  m_pitchScale st' = m_pitchScale st ->
  m_realtime st' = m_realtime st ->
  m_rateMultiple st' = m_rateMultiple st ->
  m_baseWindowSize st' = m_baseWindowSize st ->
  choose_sizes st' = choose_sizes st.
Proof.
  intros Et Ep Er Em Eb. unfold choose_sizes, getEffectiveRatio.
  rewrite Et, Ep, Er, Em, Eb. reflexivity.
Qed.

Lemma fit_expectedInputDuration_ext st st' i :
  m_expectedInputDuration st' = m_expectedInputDuration st ->
  fit_expectedInputDuration st' i = fit_expectedInputDuration st i.
Proof.
  intros Ee. unfold fit_expectedInputDuration. rewrite Ee. reflexivity.
Qed.

(** Sizing a state that has just been sized changes nothing. *)
Lemma calculateSizes_twice st st' :
  calculateSizes st = Some st' -> calculateSizes st' = Some st'.
Proof.
  unfold calculateSizes at 1. intros Hrun.
  destruct (choose_sizes st) as [s |] eqn:Hs; [| discriminate].
  cbn [mbind option_bind] in Hrun.
  destruct (fit_expectedInputDuration st (inputIncrement s)) as [i |] eqn:Hi;
    [| discriminate].
  cbn [mbind option_bind] in Hrun. injection Hrun as <-.
  unfold calculateSizes.
  rewrite (choose_sizes_ext st) by (destruct (_ <? _); reflexivity).
  rewrite Hs. cbn [mbind option_bind].
  rewrite (fit_expectedInputDuration_ext st) by (destruct (_ <? _); reflexivity).
  rewrite Hi. cbn [mbind option_bind].
  f_equal. destruct st. 
  cbn [m_windowSize m_increment m_maxProcessSize set_m_windowSize
       set_m_increment set_m_maxProcessSize set_m_outbufSize].
  destruct (Z.ltb_spec m_maxProcessSize0 (windowSize s)) as [Hlt | Hge];
    cbn [m_windowSize m_increment m_maxProcessSize set_m_windowSize
         set_m_increment set_m_maxProcessSize set_m_outbufSize].
  - rewrite Z.ltb_irrefl. reflexivity.
  - rewrite (proj2 (Z.ltb_ge _ _) Hge). reflexivity.
Qed.

End SizesTwice.

(** ** Loops over the channels *)

Section LoopInvariants.

Context {S : Type} (cond : S -> bool) (body : S -> S).

Lemma while_loop_invariant (P : S -> Prop) fuel s s' :
  (forall s, P s -> cond s = true -> P (body s)) ->
  P s -> while_loop fuel cond body s = Some s' ->
  P s' /\ cond s' = false.
Proof.
  intros Hstep. revert s. induction fuel as [| fuel IH]; intros s HP;
    cbn [while_loop]; [discriminate |].
  destruct (cond s) eqn:Hc.
  - intros Hrun. exact (IH _ (Hstep s HP Hc) Hrun).
  - intros [= <-]. split; assumption.
Qed.

End LoopInvariants.

Section ChannelLoops.

Context `{Collaborators}.

Lemma bind_ret_r {A : Type} (m : Run A) : bind m ret = m.
Proof.
  unfold bind, ret. destruct m as [[a out] |]; [| reflexivity].
  now rewrite app_nil_r.
Qed.

Lemma for_each_channel_length body c count l l' out :
  for_each_channel body c count l = Some (l', out) -> length l' = length l.
Proof.
  revert c l out. induction count as [| count IH]; intros c l out Hrun.
  - apply ret_Some in Hrun as [-> _]. reflexivity.
  - cbn [for_each_channel] in Hrun.
    apply bind_Some in Hrun as (cd & ? & ? & _ & Hrun & _).
    apply bind_Some in Hrun as (cd' & ? & ? & _ & Hrun & _).
    apply IH in Hrun. now rewrite length_insert in Hrun.
Qed.

(** A loop over the channels returns when the vector has the entries it
    visits and the body returns on each. *)
Lemma for_each_channel_returns body c count l :
  (forall cd, exists cd' out, body cd = Some (cd', out)) ->
  (c + count <= length l)%nat ->
  exists l' out, for_each_channel body c count l = Some (l', out).
Proof.
  intros Hbody. revert c l. induction count as [| count IH]; intros c l Hlen.
  - eexists _, _. reflexivity.
  - cbn [for_each_channel].
    destruct (lookup_lt_is_Some_2 l c) as [cd Hcd]; [lia |].
    rewrite Hcd. cbn [lift]. rewrite bind_ret_l.
    destruct (Hbody cd) as (cd' & out1 & Ebody).
    destruct (IH (Datatypes.S c) (<[c := cd']> l)) as (l' & out2 & Erest);
      [rewrite length_insert; lia |].
    exists l', (out1 ++ out2).
    exact (bind_returns _ _ cd' l' out1 out2 Ebody Erest).
Qed.

Lemma on_channels_Some body st st' out :
  on_channels body st = Some (st', out) ->
  exists l, st' = set_m_channelData l st
            /\ length l = length (m_channelData st).
Proof.
  unfold on_channels. intros Hrun.
  apply bind_Some in Hrun as (l & ? & ? & Hloop & Hrun & _).
  apply ret_Some in Hrun as [-> _].
  exists l. split; [reflexivity |].
  exact (for_each_channel_length _ _ _ _ _ _ Hloop).
Qed.

Lemma on_channels_returns body st :
  (forall cd, exists cd' out, body cd = Some (cd', out)) ->
  (Z.to_nat (m_channels st) <= length (m_channelData st))%nat ->
  exists st' out, on_channels body st = Some (st', out).
Proof.
  intros Hbody Hlen. unfold on_channels.
  destruct (for_each_channel_returns body 0 (Z.to_nat (m_channels st))
              (m_channelData st) Hbody) as (l & out & Eloop); [lia |].
  exists (set_m_channelData l st), (out ++ []).
  exact (bind_returns _ _ l _ out [] Eloop eq_refl).
Qed.

(** A loop that visits a channel returns only when the vector has that
    channel. *)
Lemma for_each_channel_needs body c count l l' out :
  for_each_channel body c count l = Some (l', out) ->
  (c + count <= length l)%nat \/ count = 0%nat.
Proof.
  revert c l out. induction count as [| count IH]; intros c l out Hrun;
    [right; reflexivity |].
  left. cbn [for_each_channel] in Hrun.
  apply bind_Some in Hrun as (cd & ? & ? & Hcd & Hrun & _).
  apply lift_Some in Hcd as [Hcd _]. apply lookup_lt_Some in Hcd.
  apply bind_Some in Hrun as (cd' & ? & ? & _ & Hrun & _).
  apply IH in Hrun. rewrite length_insert in Hrun. lia.
Qed.

End ChannelLoops.

(** ** The window size is not zero *)

Section WindowSize.

Context `{Collaborators}.

(** Up to 2^30, [roundUp] gives a power of two that is not below its
    argument. *)
Lemma roundUp_bounds v :
  1 <= v <= 2 ^ 30 ->
  is_power_of_two (roundUp v) /\ v <= roundUp v <= 2 ^ 30.
Proof.
  intros Hv. destruct (power_of_two_dec v) as [Hp | Hp]; [lia | |].
  - rewrite roundUp_power_of_two by (unfold size_t_modulus; lia || exact Hp).
    split; [exact Hp | lia].
  - destruct (roundUp_least v) as [(Hpow & Hle & Hleast) _]; [lia | exact Hp |].
    split; [exact Hpow |]. split; [exact Hle |].
    apply Hleast; [| lia]. exists 30. split; [lia | reflexivity].
Qed.

Lemma lrint_inject_Z n : in_long n -> lrint (inject_Z n) = n.
Proof.
  intros Hn. unfold lrint, Qround_even. rewrite Qfloor_Z.
  assert (E : (inject_Z n - inject_Z n ?= 1 # 2)%Q = Lt).
  { assert (Ez : (inject_Z n - inject_Z n == 0)%Q) by ring.
    rewrite Ez. reflexivity. }
  rewrite E. apply wrap_long_id. exact Hn.
Qed.

Lemma ratio_in_range_pos (r : Q) : ratio_in_range r -> (0 < r)%Q.
Proof.
  unfold ratio_in_range. intros Hr.
  destruct (Qlt_le_dec 0 r) as [Hpos | Hneg]; [exact Hpos |].
  exfalso.
  assert (Hle : (inject_Z (2 ^ 28) * r <= 0)%Q).
  { rewrite <- (Qmult_0_r (inject_Z (2 ^ 28))).
    apply Qmult_le_l; [reflexivity | exact Hneg]. }
  pose proof (Qle_trans _ _ _ Hr Hle) as Habs.
  revert Habs. unfold Qle. simpl. lia.
Qed.

(** The input increment that the clamp of the squashing cases computes
    from an output increment of 1. *)
Lemma clamped_inputIncrement_bounds (r : Q) :
  ratio_in_range r ->
  let i := roundUp (wrap_size_t (lrint (ceil (double_of_size_t 1 / r)))) in
  is_power_of_two i /\ 1 <= i <= 2 ^ 30.
Proof.
  intros Hr i. pose proof (ratio_in_range_pos r Hr) as Hpos.
  set (n := Qceiling (double_of_size_t 1 / r)).
  assert (Hn : 1 <= n <= 2 ^ 28).
  { unfold n, double_of_size_t. split.
    - assert (Hx : (0 < inject_Z 1 / r)%Q).
      { apply Qlt_shift_div_l; [exact Hpos |]. rewrite Qmult_0_l. reflexivity. }
      pose proof (Qle_ceiling (inject_Z 1 / r)) as Hc.
      pose proof (Qlt_le_trans _ _ _ Hx Hc) as Hlt.
      revert Hlt. unfold Qlt. simpl. lia.
    - rewrite <- (Qceiling_Z (2 ^ 28)). apply Qceiling_resp_le.
      apply Qle_shift_div_r; [exact Hpos |]. exact Hr. }
  unfold i, ceil. fold n.
  rewrite lrint_inject_Z by (unfold in_long, long_half; lia).
  rewrite wrap_size_t_id by (unfold in_size_t, size_t_modulus; lia).
  destruct (roundUp_bounds n) as [Hp Hb]; [lia |].
  split; [exact Hp | lia].
Qed.

Lemma clamp_outputIncrement_windowSize (r : Q) s :
  ratio_in_range r -> 1 <= windowSize s < 2 ^ 64 ->
  1 <= windowSize (clamp_outputIncrement r s) < 2 ^ 64
  /\ (outputIncrement s < 1 ->
      windowSize (clamp_outputIncrement r s)
      = 4 * inputIncrement (clamp_outputIncrement r s)
      /\ is_power_of_two (inputIncrement (clamp_outputIncrement r s))
      /\ inputIncrement (clamp_outputIncrement r s) <= 2 ^ 30)
  /\ (1 <= outputIncrement s -> clamp_outputIncrement r s = s).
Proof.
  intros Hr Hw. unfold clamp_outputIncrement.
  destruct (Z.ltb_spec (outputIncrement s) 1) as [Hlt | Hge].
  - cbn [windowSize inputIncrement].
    destruct (clamped_inputIncrement_bounds r Hr) as [Hp Hb].
    rewrite size_mul_id by (unfold in_size_t, size_t_modulus; lia).
    split; [lia |]. split; [| lia].
    intros _. split; [lia |]. split; [exact Hp | lia].
  - split; [exact Hw |]. split; [lia | reflexivity].
Qed.

(** The window size after lines 325-326 and 349-350 is not below the one
    before. *)
Lemma stretch_windowSize_grows (r : Q) s :
  1 <= windowSize s < 2 ^ 64 ->
  exists w, stretch_windowSize r s
            = Some {| inputIncrement := inputIncrement s;
                      windowSize := w;
                      outputIncrement := outputIncrement s |}
            /\ windowSize s <= w < 2 ^ 64
            /\ (Qltb 5 r = true -> 8192 <= w).
Proof.
  intros Hw. unfold stretch_windowSize.
  set (w0 := Z.max (windowSize s) (roundUp (size_mul (outputIncrement s) 6))).
  assert (Hw0 : windowSize s <= w0 < 2 ^ 64).
  { pose proof (roundUp_range (size_mul (outputIncrement s) 6)
                  (wrap_size_t_range _)) as Hr.
    unfold in_size_t, size_t_modulus in Hr. unfold w0. lia. }
  destruct (Qltb 5 r).
  - assert (Hstep : forall w, w0 <= w < 2 ^ 64 -> (w <? 8192) = true ->
                      w0 <= size_mul w 2 < 2 ^ 64).
    { intros w Hinv Hc. apply Z.ltb_lt in Hc.
      rewrite size_mul_id by (unfold in_size_t, size_t_modulus; lia). lia. }
    destruct (doubling_terminates 64 w0) as [w' Hw']; [lia | lia |].
    unfold sizes_fuel. rewrite Hw'. cbn [mbind option_bind].
    exists w'. split; [reflexivity |].
    destruct (while_loop_invariant (fun w => w <? 8192) (fun w => size_mul w 2)
                (fun w => w0 <= w < 2 ^ 64) _ _ _ Hstep
                (conj (Z.le_refl w0) (proj2 Hw0)) Hw')
      as [Hinv Hc].
    apply Z.ltb_ge in Hc. clear Hw'. split; [lia |]. intros _. exact Hc.
  - cbn [mbind option_bind]. exists w0. split; [reflexivity |].
    split; [lia | discriminate].
Qed.

(** The choice of sizes returns with a window size that is not zero, for
    every base window size that is not zero and every ratio from 2^-28
    on; for a ratio of at least one the window is not below the base
    window. *)
Lemma choose_sizes_windowSize st :
  1 <= m_baseWindowSize st < 2 ^ 64 ->
  ratio_in_range (getEffectiveRatio st) ->
  exists s, choose_sizes st = Some s
            /\ in_size_t (inputIncrement s)
            /\ 1 <= windowSize s < 2 ^ 64
            /\ (Qltb (getEffectiveRatio st) 1 = false ->
                m_baseWindowSize st <= windowSize s).
Proof.
  intros Hb Hratio. unfold choose_sizes.
  set (r := getEffectiveRatio st) in *.
  destruct (m_realtime st).
  - set (inc0 := roundUp _).
    assert (Hinc0 : in_size_t inc0)
      by (apply roundUp_range, wrap_size_t_range).
    destruct (Qltb r 1).
    + eexists. split; [reflexivity |].
      unfold realtime_squash.
      split; [apply clamp_outputIncrement_range; exact Hinc0 |].
      split; [| discriminate].
      apply (clamp_outputIncrement_windowSize r _ Hratio). exact Hb.
    + unfold realtime_stretch.
      destruct (realtime_halving_returns r
                  {| inputIncrement := inc0;
                     windowSize := m_baseWindowSize st;
                     outputIncrement :=
                       wrap_size_t
                         (int_of_double (ceil (double_of_size_t inc0 * r))) |})
        as (s' & Hrun & Hr & Hw & _); [exact Hinc0 |].
      cbn [inputIncrement windowSize outputIncrement] in *.
      rewrite Hrun. cbn [mbind option_bind].
      destruct (stretch_windowSize_grows r s') as (w & Ew & Hge & _); [lia |].
      rewrite Ew. eexists. split; [reflexivity |].
      cbn [inputIncrement windowSize].
      split; [exact Hr |]. split; [lia |]. intros _. lia.
  - destruct (Qltb r 1).
    + unfold offline_squash. cbn [windowSize].
      destruct (offline_squash_loop_returns (m_baseWindowSize st / 4))
        as (i' & Hrun & Hi' & _).
      { unfold in_size_t, size_t_modulus.
        split; [apply Z.div_pos; lia | apply Z.div_lt_upper_bound; lia]. }
      rewrite Hrun. cbn [mbind option_bind].
      eexists. split; [reflexivity |].
      split; [apply clamp_outputIncrement_range; cbn [inputIncrement];
              unfold in_size_t, size_t_modulus; lia |].
      split; [| discriminate].
      apply (clamp_outputIncrement_windowSize r _ Hratio). exact Hb.
    + unfold offline_stretch. cbn [windowSize].
      destruct (offline_halving_returns r
                  {| inputIncrement :=
                       wrap_size_t
                         (int_of_double
                            (double_of_size_t (m_baseWindowSize st / 6) / r));
                     windowSize := m_baseWindowSize st;
                     outputIncrement := m_baseWindowSize st / 6 |})
        as (s' & Hrun & Hr & Hw & _).
      { cbn [outputIncrement]. unfold in_size_t, size_t_modulus.
        split; [apply Z.div_pos; lia | apply Z.div_lt_upper_bound; lia]. }
      { apply wrap_size_t_range. }
      cbn [inputIncrement windowSize outputIncrement] in *.
      rewrite Hrun. cbn [mbind option_bind].
      destruct (stretch_windowSize_grows r s') as (w & Ew & Hge & _); [lia |].
      rewrite Ew. eexists. split; [reflexivity |].
      cbn [inputIncrement windowSize].
      split; [exact Hr |]. split; [lia |]. intros _. lia.
Qed.

(** The sizing computation on such a state: it returns, and the window
    size it leaves is not zero. *)
Lemma calculateSizes_windowSize st :
  1 <= m_baseWindowSize st < 2 ^ 64 ->
  ratio_in_range (getEffectiveRatio st) ->
  exists st', calculateSizes st = Some st'
              /\ 1 <= m_windowSize st' < 2 ^ 64
              /\ (Qltb (getEffectiveRatio st) 1 = false ->
                  m_baseWindowSize st <= m_windowSize st').
Proof.
  intros Hb Hratio.
  destruct (choose_sizes_windowSize st Hb Hratio) as (s & Hs & Hr & Hw & Hge).
  destruct (fit_expectedInputDuration_returns st (inputIncrement s))
    as (i & Hi & _); [exact Hr |].
  destruct (calculateSizes_assigns st s i Hs Hi) as (st' & Hrun & Ew & _).
  exists st'. rewrite Ew. split; [exact Hrun |]. split; [exact Hw | exact Hge].
Qed.

End WindowSize.

(** ** configure establishes the invariants *)

Ltac impl_cbn :=
  cbn [m_sampleRate m_channels m_timeRatio m_pitchScale m_windowSize
       m_increment m_outbufSize m_maxProcessSize m_expectedInputDuration
       m_threaded m_realtime m_options m_mode m_windows m_window m_studyFFT
       m_inputDuration m_phaseResetDf m_stretchDf m_outputIncrements
       m_phaseResetAudioCurve m_stretchAudioCurve m_stretchCalculator
       m_freq0 m_freq1 m_freq2 m_baseWindowSize m_rateMultiple m_channelData
       set_m_timeRatio set_m_pitchScale set_m_windowSize set_m_increment
       set_m_outbufSize set_m_maxProcessSize set_m_expectedInputDuration
       set_m_mode set_m_windows set_m_window set_m_studyFFT
       set_m_inputDuration set_m_phaseResetDf set_m_stretchDf
       set_m_outputIncrements set_m_phaseResetAudioCurve
       set_m_stretchAudioCurve set_m_stretchCalculator set_m_channelData
       set_m_options set_m_freq0 set_m_freq1 set_m_freq2] in *.

Section ConfigureFacts.

Context `{Collaborators}.

(** The sizing computation assigns the four sizes and nothing else. *)
Lemma calculateSizes_Some st st' :
  calculateSizes st = Some st' ->
  st' = set_m_outbufSize (m_outbufSize st')
          (set_m_maxProcessSize (m_maxProcessSize st')
             (set_m_increment (m_increment st')
                (set_m_windowSize (m_windowSize st') st))).
Proof.
  unfold calculateSizes. intros Hrun.
  destruct (choose_sizes st) as [s |]; [| discriminate].
  cbn [mbind option_bind] in Hrun.
  destruct (fit_expectedInputDuration st (inputIncrement s)) as [i |];
    [| discriminate].
  cbn [mbind option_bind] in Hrun. injection Hrun as <-.
  destruct st. impl_cbn. destruct (_ <? _); reflexivity.
Qed.

Lemma set_m_channelData_id st : set_m_channelData (m_channelData st) st = st.
Proof. destruct st. reflexivity. Qed.

Lemma same_sizes_refl st : same_sizes st st.
Proof. repeat split. Qed.

Lemma same_sizes_trans st1 st2 st3 :
  same_sizes st1 st2 -> same_sizes st2 st3 -> same_sizes st1 st3.
Proof.
  unfold same_sizes.
  intros (? & ? & ? & ? & ? & ? & ? & ? & ? & ? & ? & ?)
         (? & ? & ? & ? & ? & ? & ? & ? & ? & ? & ? & ?).
  repeat split; congruence.
Qed.

Lemma same_curves_refl st : same_curves st st.
Proof. repeat split. Qed.

Lemma same_curves_trans st1 st2 st3 :
  same_curves st1 st2 -> same_curves st2 st3 -> same_curves st1 st3.
Proof.
  unfold same_curves. intros (? & ? & ?) (? & ? & ?).
  repeat split; congruence.
Qed.

(** configure returns on every state that is fresh from the member
    initialisers or configured, with a base window size that is not zero
    and an effective ratio from 2^-28 on; the state it leaves is
    configured, its sizes are those of the sizing computation, its
    duration is zero, and the curves collected by study and the schedule
    are as before. *)
Lemma configure_configured st :
  1 <= m_baseWindowSize st < 2 ^ 64 ->
  ratio_in_range (getEffectiveRatio st) ->
  m_windows st = ∅ \/ configured st ->
  exists stA st' out,
    calculateSizes st = Some stA
    /\ configure st = Some (st', out)
    /\ configured st'
    /\ same_sizes stA st'
    /\ same_curves st st'
    /\ m_mode st' = m_mode st
    /\ m_options st' = m_options st
    /\ m_inputDuration st' = 0.
Proof.
  intros Hb Hratio Hstart.
  destruct (calculateSizes_windowSize st Hb Hratio) as (stA & EA & HwA & _).
  pose proof (calculateSizes_Some st stA EA) as EstA.
  set (wA := m_windowSize stA) in *.
  set (prevWindowSize := if bool_decide (m_windows st = ∅) then 0
                         else m_windowSize st).
  set (prevOutbufSize := if bool_decide (m_windows st = ∅) then 0
                         else m_outbufSize st).
  set (c1 := negb (prevWindowSize =? wA)).
  set (c2 := negb (prevOutbufSize =? m_outbufSize stA)).
  (* either the window size changed, or the state was configured with
     this window size *)
  assert (Hc1 : c1 = true
                \/ (c1 = false /\ configured st /\ m_windowSize st = wA)).
  { unfold c1, prevWindowSize.
    destruct Hstart as [Hempty | Hconf].
    - rewrite bool_decide_eq_true_2 by exact Hempty.
      left. apply negb_true_iff, Z.eqb_neq. lia.
    - assert (Hne : m_windows st <> ∅).
      { destruct Hconf as (_ & _ & Hin & _). intros E. rewrite E in Hin.
        exact (not_elem_of_empty _ Hin). }
      rewrite bool_decide_eq_false_2 by exact Hne.
      destruct (Z.eqb_spec (m_windowSize st) wA) as [E | E];
        [right; auto | left; reflexivity]. }
  set (stB := configure_studyFFT c1
                (configure_channelData (c1 || c2) (configure_windows c1 stA))).
  assert (HB : length (m_channelData stB) = Z.to_nat (m_channels st)
               /\ m_window stB = Some wA
               /\ wA ∈ m_windows stB
               /\ (m_realtime st = false -> m_studyFFT stB = Some wA)
               /\ same_sizes stA stB /\ same_curves st stB
               /\ m_mode stB = m_mode st /\ m_options stB = m_options st
               /\ m_sampleRate stB = m_sampleRate st).
  { unfold stB, configure_studyFFT, configure_channelData, configure_windows.
    rewrite EstA.
    destruct Hc1 as [-> | (-> & Hconf & Ew)].
    - cbn [orb negb andb]. impl_cbn.
      destruct (m_realtime st) eqn:Hrt; cbn [negb andb]; impl_cbn.
      + rewrite length_replicate.
        repeat split; try reflexivity; try discriminate.
        apply elem_of_union_r. unfold configure_windowSizes. impl_cbn.
        apply elem_of_union_r, elem_of_singleton. reflexivity.
      + rewrite length_replicate.
        repeat split; try reflexivity.
        apply elem_of_union_r. unfold configure_windowSizes. impl_cbn.
        apply elem_of_union_r, elem_of_singleton. reflexivity.
    - destruct Hconf as (Hlen & Hwin & Hin & _ & _ & Hoff & _).
      rewrite andb_false_r. cbn [orb]. impl_cbn.
      destruct c2; impl_cbn.
      + rewrite length_replicate.
        repeat split; try reflexivity; try congruence.
        intros Hrt. destruct (Hoff Hrt) as [Efft _]. congruence.
      + repeat split; try reflexivity; try congruence.
        intros Hrt. destruct (Hoff Hrt) as [Efft _]. congruence. }
  destruct HB as (HlenB & HwinB & HinB & HfftB & HsizesB & HcurvesB
                  & HmodeB & HoptB & HrateB).
  pose proof HsizesB as (EwB & _ & _ & _ & _ & EbB & _ & _ & EchB & _ & _ & ErtB).
  assert (EstA_rt : m_realtime stA = m_realtime st) by (rewrite EstA; reflexivity).
  assert (EstA_ch : m_channels stA = m_channels st) by (rewrite EstA; reflexivity).
  assert (EstA_b : m_baseWindowSize stA = m_baseWindowSize st)
    by (rewrite EstA; reflexivity).
  (* the resamplers *)
  assert (HC : exists stC out,
             configure_resamplers stB = Some (stC, out)
             /\ exists l, stC = set_m_channelData l stB
                          /\ length l = length (m_channelData stB)).
  { unfold configure_resamplers.
    destruct (negb (Qeq_bool (m_pitchScale stB) 1) || m_realtime stB).
    - destruct (on_channels_returns
                  (fun cd => ret (if resampler cd then cd
                                  else set_resampler (resamplebuf_size stB) cd))
                  stB) as (stC & out & EC).
      + intros cd. eexists _, _. reflexivity.
      + rewrite HlenB, EchB, EstA_ch. lia.
      + exists stC, out. split; [exact EC |].
        exact (on_channels_Some _ _ _ _ EC).
    - exists stB, []. split; [reflexivity |].
      exists (m_channelData stB). split; [| reflexivity].
      symmetry. apply set_m_channelData_id. }
  destruct HC as (stC & outC & EC & lC & EstC & HlenC).
  set (stD := configure_curves stC).
  assert (HD : configured stD /\ same_sizes stA stD /\ same_curves st stD
               /\ m_mode stD = m_mode st /\ m_options stD = m_options st
               /\ m_inputDuration stD = 0
               /\ m_realtime stD = m_realtime st).
  { unfold stD, configure_curves. rewrite EstC. impl_cbn.
    unfold configured, same_sizes, same_curves in *.
    destruct (m_realtime stB) eqn:HrtB; cbn [negb]; impl_cbn.
    - repeat split; try tauto; try congruence; try lia; eauto;
        rewrite ?EwB;
        first [exact HwinB | exact HinB | rewrite HlenC, HlenB; congruence].
    - repeat split; try tauto; try congruence; try lia; eauto;
        rewrite ?EwB;
        first [exact HwinB | exact HinB | apply HfftB; congruence
              | rewrite HlenC, HlenB; congruence]. }
  destruct HD as (HconfD & HsizesD & HcurvesD & HmodeD & HoptD & HdurD & HrtD).
  assert (Hfinal : exists st' out,
             (if negb (m_realtime stC) then prefill_channels stD
              else ret stD) = Some (st', out)
             /\ exists l, st' = set_m_channelData l stD
                          /\ length l = length (m_channelData stD)).
  { destruct (negb (m_realtime stC)).
    - unfold prefill_channels.
      destruct (on_channels_returns
                  (fun cd =>
                     let cd := ChannelData_reset cd in
                     ret (set_inbuf
                            (RingBuffer.zero (inbuf cd) (m_windowSize stD / 2))
                            cd))
                  stD) as (st' & out & E').
      + intros cd. eexists _, _. reflexivity.
      + destruct HconfD as (HlenD & _). rewrite HlenD. lia.
      + exists st', out. split; [exact E' |].
        exact (on_channels_Some _ _ _ _ E').
    - exists stD, []. split; [reflexivity |].
      exists (m_channelData stD). split; [| reflexivity].
      symmetry. apply set_m_channelData_id. }
  destruct Hfinal as (st' & out' & E' & l' & Est' & Hlen').
  exists stA, st', (outC ++ out').
  split; [exact EA |]. split.
  - unfold configure. cbv zeta. rewrite EA. cbn [lift]. rewrite bind_ret_l.
    fold prevWindowSize prevOutbufSize. fold wA. fold c1 c2.
    apply (bind_returns _ _ stC st' outC out' EC). exact E'.
  - rewrite Est'. unfold configured, same_sizes, same_curves in *. impl_cbn.
    destruct HconfD as (HlenD & HD2 & HD3 & HD4 & HD5 & HD6 & HD7).
    repeat split; try tauto; try congruence.
Qed.

End ConfigureFacts.

(** ** reconfigure keeps the invariants *)

Section ReconfigureFacts.

Context `{Collaborators}.

(** The sizing computation on two states with the same sizes. *)
Lemma calculateSizes_ext st st' r :
  same_sizes st st' -> calculateSizes st = Some r ->
  exists r', calculateSizes st' = Some r' /\ same_sizes r r'.
Proof.
  intros (Ew & Ei & Eo & Em & Ee & Eb & Erm & Eth & Ech & Et & Ep & Ert).
  unfold calculateSizes.
  rewrite <- (choose_sizes_ext st st' Et Ep Ert Erm Eb).
  destruct (choose_sizes st') as [s |]; [| discriminate].
  cbn [mbind option_bind].
  rewrite <- (fit_expectedInputDuration_ext st st' _ Ee).
  destruct (fit_expectedInputDuration st' (inputIncrement s)) as [i |];
    [| discriminate].
  cbn [mbind option_bind]. intros [= <-].
  eexists. split; [reflexivity |].
  unfold same_sizes, choose_outbufSize. impl_cbn. rewrite Em.
  destruct (_ <? _); impl_cbn; rewrite ?Em, ?Ep, ?Et, ?Ert, ?Eth;
    repeat split; assumption.
Qed.

(** A state with the sizes of a sized state is sized. *)
Lemma sized_transfer st st' :
  calculateSizes st = Some st -> same_sizes st st' ->
  calculateSizes st' = Some st'.
Proof.
  intros Hsized Hsame.
  destruct (calculateSizes_ext st st' st Hsame Hsized) as (r' & Hrun & Hr').
  rewrite Hrun. f_equal.
  rewrite (calculateSizes_Some st' r' Hrun).
  destruct Hsame as (Ew & Ei & Eo & Em & _).
  destruct Hr' as (Ew' & Ei' & Eo' & Em' & _).
  rewrite Ew', Ei', Eo', Em', <- Ew, <- Ei, <- Eo, <- Em.
  destruct st'. reflexivity.
Qed.

(** Lines 571-616 on a configured state [st1] that the sizing
    computation took to [st2]: the window, the buffers, the resamplers
    and the curve follow the sizes. *)
Lemma reconfigure_tail st1 st2 :
  configured st1 ->
  calculateSizes st1 = Some st2 ->
  1 <= m_windowSize st2 ->
  (m_realtime st1 = false -> m_windowSize st2 = m_windowSize st1) ->
  let windowSizeChanged := negb (m_windowSize st2 =? m_windowSize st1) in
  exists st' out,
    (st <- (if windowSizeChanged then reconfigure_window st2 else ret st2) ;;
     st <- (if negb (m_outbufSize st =? m_outbufSize st1)
            then reconfigure_outbuf st else ret st) ;;
     st <- (if negb (Qeq_bool (m_pitchScale st) 1)
            then reconfigure_resamplers st else ret st) ;;
     if windowSizeChanged then reconfigure_curve st else ret st)%run
    = Some (st', out)
    /\ configured st'
    /\ same_sizes st2 st'
    /\ same_curves st1 st'
    /\ m_mode st' = m_mode st1
    /\ m_options st' = m_options st1
    /\ m_inputDuration st' = m_inputDuration st1.
Proof.
  intros Hconf Hsizes Hw Hoff windowSizeChanged.
  pose proof (calculateSizes_Some st1 st2 Hsizes) as Est2.
  destruct Hconf as (Hlen & Hwin & Hin & [curve Hcurve] & Hcalc & Hfft & Hb).
  assert (Ech2 : m_channels st2 = m_channels st1) by (rewrite Est2; reflexivity).
  assert (Ecd2 : m_channelData st2 = m_channelData st1)
    by (rewrite Est2; reflexivity).
  (* the window *)
  assert (H3 : exists st3 out3 l3 ws3,
             (if windowSizeChanged then reconfigure_window st2 else ret st2)
             = Some (st3, out3)
             /\ st3 = set_m_channelData l3
                        (set_m_window (Some (m_windowSize st2))
                           (set_m_windows ws3 st2))
             /\ length l3 = length (m_channelData st1)
             /\ m_windowSize st2 ∈ ws3).
  { unfold windowSizeChanged.
    destruct (Z.eqb_spec (m_windowSize st2) (m_windowSize st1)) as [E | E];
      cbn [negb].
    - exists st2, [], (m_channelData st1), (m_windows st1).
      split; [reflexivity |]. split; [| split; [reflexivity |]].
      + rewrite E, <- Hwin. rewrite Est2 at 1. rewrite Est2.
        destruct st1. reflexivity.
      + rewrite E. exact Hin.
    - unfold reconfigure_window.
      set (st2w := if bool_decide (m_windowSize st2 ∈ m_windows st2)
                   then st2
                   else set_m_windows (m_windows st2 ∪ {[m_windowSize st2]})
                          st2).
      assert (Hst2w : exists out,
                (if bool_decide (m_windowSize st2 ∈ m_windows st2)
                 then ret st2
                 else (cerr (WindowAllocationRequiredInRT (m_windowSize st2)) ;;;
                       ret (set_m_windows
                              (m_windows st2 ∪ {[m_windowSize st2]}) st2))%run)
                = Some (st2w, out)).
      { unfold st2w. destruct (bool_decide _); eexists; reflexivity. }
      destruct Hst2w as [outw Ew].
      assert (Hst2w : st2w = set_m_windows (m_windows st2w) st2
                      /\ m_windowSize st2 ∈ m_windows st2w).
      { unfold st2w. destruct (bool_decide _) eqn:Ed.
        - apply bool_decide_eq_true_1 in Ed. split; [| exact Ed].
          destruct st2. reflexivity.
        - impl_cbn. split; [reflexivity |].
          apply elem_of_union_r, elem_of_singleton. reflexivity. }
      destruct Hst2w as [Est2w Hin2w]. clearbody st2w.
      destruct (on_channels_returns
                  (fun cd => ret (ChannelData_setWindowSize cd
                                    (m_windowSize st2w)))
                  (set_m_window (Some (m_windowSize st2w)) st2w))
        as (st3 & out3 & E3).
      + intros cd. eexists _, _. reflexivity.
      + rewrite Est2w. impl_cbn. rewrite Ecd2, Ech2, Hlen. lia.
      + destruct (on_channels_Some _ _ _ _ E3) as (l3 & Est3 & Hl3).
        exists st3, (outw ++ out3), l3, (m_windows st2w).
        split; [exact (bind_returns _ _ st2w st3 outw out3 Ew E3) |].
        split; [| split; [| exact Hin2w]].
        * rewrite Est3. rewrite Est2w at 2 3. impl_cbn.
          rewrite Est2w at 1. impl_cbn. reflexivity.
        * rewrite Hl3. rewrite Est2w. impl_cbn. exact (f_equal _ Ecd2). }
  destruct H3 as (st3 & out3 & l3 & ws3 & E3 & Est3 & Hl3 & Hin3).
  (* the output buffers *)
  assert (H4 : exists st4 out4 l4,
             (if negb (m_outbufSize st3 =? m_outbufSize st1)
              then reconfigure_outbuf st3 else ret st3) = Some (st4, out4)
             /\ st4 = set_m_channelData l4 st3
             /\ length l4 = length (m_channelData st1)).
  { destruct (negb (m_outbufSize st3 =? m_outbufSize st1)).
    - unfold reconfigure_outbuf.
      destruct (on_channels_returns
                  (fun cd => ret (ChannelData_setOutbufSize cd
                                    (m_outbufSize st3))) st3)
        as (st4 & out4 & E4).
      + intros cd. eexists _, _. reflexivity.
      + rewrite Est3. impl_cbn. rewrite Ech2, Hl3, Hlen. lia.
      + destruct (on_channels_Some _ _ _ _ E4) as (l4 & Est4 & Hl4).
        exists st4, out4, l4. split; [exact E4 |]. split; [exact Est4 |].
        rewrite Hl4, Est3. impl_cbn. exact Hl3.
    - exists st3, [], (m_channelData st3). split; [reflexivity |].
      split; [symmetry; apply set_m_channelData_id |].
      rewrite Est3. impl_cbn. exact Hl3. }
  destruct H4 as (st4 & out4 & l4 & E4 & Est4 & Hl4).
  (* the resamplers *)
  assert (H5 : exists st5 out5 l5,
             (if negb (Qeq_bool (m_pitchScale st4) 1)
              then reconfigure_resamplers st4 else ret st4) = Some (st5, out5)
             /\ st5 = set_m_channelData l5 st4
             /\ length l5 = length (m_channelData st1)).
  { destruct (negb (Qeq_bool (m_pitchScale st4) 1)).
    - unfold reconfigure_resamplers.
      match goal with
      | |- context [on_channels ?body st4] =>
          destruct (on_channels_returns body st4) as (st5 & out5 & E5)
      end.
      + intros cd. destruct (resampler cd); eexists _, _; reflexivity.
      + rewrite Est4, Est3. impl_cbn. rewrite Ech2, Hl4, Hlen. lia.
      + destruct (on_channels_Some _ _ _ _ E5) as (l5 & Est5 & Hl5).
        exists st5, out5, l5. split; [exact E5 |]. split; [exact Est5 |].
        rewrite Hl5, Est4. impl_cbn. exact Hl4.
    - exists st4, [], (m_channelData st4). split; [reflexivity |].
      split; [symmetry; apply set_m_channelData_id |].
      rewrite Est4. impl_cbn. exact Hl4. }
  destruct H5 as (st5 & out5 & l5 & E5 & Est5 & Hl5).
  (* the curve *)
  assert (Ecurve5 : m_phaseResetAudioCurve st5 = Some curve).
  { rewrite Est5, Est4, Est3, Est2. impl_cbn. exact Hcurve. }
  assert (H6 : exists st6 out6 curve6,
             (if windowSizeChanged then reconfigure_curve st5 else ret st5)
             = Some (st6, out6)
             /\ st6 = set_m_phaseResetAudioCurve (Some curve6) st5).
  { destruct windowSizeChanged.
    - unfold reconfigure_curve. rewrite Ecurve5. cbn [lift].
      rewrite bind_ret_l. eexists _, _, _. split; reflexivity.
    - exists st5, [], curve. split; [reflexivity |].
      rewrite <- Ecurve5. destruct st5. reflexivity. }
  destruct H6 as (st6 & out6 & curve6 & E6 & Est6).
  exists st6, (out3 ++ out4 ++ out5 ++ out6).
  split.
  { apply (bind_returns _ _ st3 st6 out3 _ E3).
    apply (bind_returns _ _ st4 st6 out4 _ E4).
    apply (bind_returns _ _ st5 st6 out5 _ E5). exact E6. }
  rewrite Est6, Est5, Est4, Est3.
  unfold configured, same_sizes, same_curves. impl_cbn.
  rewrite Hl5.
  assert (E2 : m_realtime st2 = m_realtime st1
               /\ m_baseWindowSize st2 = m_baseWindowSize st1
               /\ m_studyFFT st2 = m_studyFFT st1
               /\ m_stretchAudioCurve st2 = m_stretchAudioCurve st1
               /\ m_stretchCalculator st2 = m_stretchCalculator st1
               /\ m_phaseResetDf st2 = m_phaseResetDf st1
               /\ m_stretchDf st2 = m_stretchDf st1
               /\ m_outputIncrements st2 = m_outputIncrements st1
               /\ m_mode st2 = m_mode st1
               /\ m_options st2 = m_options st1
               /\ m_inputDuration st2 = m_inputDuration st1)
    by (rewrite Est2; repeat split).
  destruct E2 as (Ert & Eb & Ef & Es & Ec & ? & ? & ? & ? & ? & ?).
  rewrite Ert, Eb, Ef, Es, Ec, Ech2.
  repeat split; try assumption; eauto.
  - rewrite Hoff by assumption. apply Hfft. assumption.
  - apply Hfft. assumption.
  - lia.
  - lia.
Qed.

End ReconfigureFacts.

Section ReconfigureInvariant.

Context `{Collaborators}.

Lemma calculateSizes_inputs st st' :
  calculateSizes st = Some st' ->
  m_maxProcessSize st <= m_maxProcessSize st'
  /\ m_windowSize st' <= m_maxProcessSize st'
  /\ m_expectedInputDuration st' = m_expectedInputDuration st.
Proof.
  unfold calculateSizes. intros Hrun.
  destruct (choose_sizes st) as [s |]; [| discriminate].
  cbn [mbind option_bind] in Hrun.
  destruct (fit_expectedInputDuration st (inputIncrement s)) as [i |];
    [| discriminate].
  cbn [mbind option_bind] in Hrun. injection Hrun as <-. impl_cbn.
  destruct (Z.ltb_spec (m_maxProcessSize st) (windowSize s)); impl_cbn;
    repeat split; lia.
Qed.

(** reconfigure returns on every configured state with an effective
    ratio from 2^-28 on.  The state it leaves is configured and sized
    (sizing it again changes nothing); the expected input duration, the
    mode and the options are as before, and the maximum process size is
    not lowered. *)
Lemma reconfigure_configured st :
  configured st ->
  ratio_in_range (getEffectiveRatio st) ->
  exists st' out,
    reconfigure st = Some (st', out)
    /\ configured st'
    /\ calculateSizes st' = Some st'
    /\ m_expectedInputDuration st' = m_expectedInputDuration st
    /\ m_maxProcessSize st <= m_maxProcessSize st'
    /\ m_mode st' = m_mode st
    /\ m_options st' = m_options st
    /\ study_closed st st'
    /\ m_inputDuration st'
       = (if m_realtime st then m_inputDuration st else 0).
Proof.
  intros Hconf Hratio.
  assert (HA : exists st1 out1,
             reconfigure_offline st = Some (st1, out1)
             /\ configured st1
             /\ m_expectedInputDuration st1 = m_expectedInputDuration st
             /\ m_maxProcessSize st <= m_maxProcessSize st1
             /\ m_timeRatio st1 = m_timeRatio st
             /\ m_pitchScale st1 = m_pitchScale st
             /\ m_realtime st1 = m_realtime st
             /\ m_mode st1 = m_mode st
             /\ m_options st1 = m_options st
             /\ study_closed st st1
             /\ m_inputDuration st1
                = (if m_realtime st then m_inputDuration st else 0)
             /\ (m_realtime st = false -> calculateSizes st1 = Some st1)).
  { unfold reconfigure_offline, study_closed.
    destruct (m_realtime st) eqn:Hrt; cbn [negb andb].
    { exists st, []. split; [reflexivity |].
      split; [exact Hconf |].
      repeat split; try lia; try reflexivity. congruence. }
    (* offline: the study is closed, then configure *)
    set (st0 := if ProcessMode_eqb (m_mode st) Studying
                then match m_stretchCalculator st with
                     | Some calculator =>
                         set_m_inputDuration 0
                           (set_m_stretchDf []
                              (set_m_phaseResetDf []
                                 (set_m_outputIncrements
                                    (m_outputIncrements st
                                     ++ calculate calculator
                                          (getEffectiveRatio st)
                                          (m_inputDuration st)
                                          (m_phaseResetDf st)
                                          (m_stretchDf st)) st)))
                     | None => st
                     end
                else st).
    assert (E0 : (if ProcessMode_eqb (m_mode st) Studying
                  then (st <- calculateStretch st ;;
                        ret (set_m_inputDuration 0
                               (set_m_stretchDf []
                                  (set_m_phaseResetDf [] st))))%run
                  else ret st) = Some (st0, [])).
    { unfold st0. destruct (ProcessMode_eqb (m_mode st) Studying);
        [| reflexivity].
      destruct Hconf as (_ & _ & _ & _ & [calculator Ecalc] & _).
      unfold calculateStretch. rewrite Ecalc. cbn [lift].
      rewrite bind_ret_l.
      destruct (m_outputIncrements st) eqn:Eout; reflexivity. }
    assert (H0 : configured st0
                 /\ m_expectedInputDuration st0 = m_expectedInputDuration st
                 /\ m_maxProcessSize st0 = m_maxProcessSize st
                 /\ m_timeRatio st0 = m_timeRatio st
                 /\ m_pitchScale st0 = m_pitchScale st
                 /\ m_realtime st0 = m_realtime st
                 /\ m_mode st0 = m_mode st
                 /\ m_options st0 = m_options st
                 /\ m_baseWindowSize st0 = m_baseWindowSize st
                 /\ (if ProcessMode_eqb (m_mode st) Studying
                     then exists calculator,
                            m_stretchCalculator st = Some calculator
                            /\ m_phaseResetDf st0 = []
                            /\ m_stretchDf st0 = []
                            /\ m_outputIncrements st0
                               = m_outputIncrements st
                                 ++ calculate calculator (getEffectiveRatio st)
                                      (m_inputDuration st) (m_phaseResetDf st)
                                      (m_stretchDf st)
                     else same_curves st st0)).
    { unfold st0. destruct (ProcessMode_eqb (m_mode st) Studying).
      - pose proof Hconf as (? & ? & ? & ? & [calculator Ecalc] & ? & ?).
        rewrite Ecalc. unfold configured. impl_cbn. rewrite Ecalc.
        repeat split; try assumption; eauto; try tauto.
      - repeat split; try assumption; try reflexivity;
          destruct Hconf as (? & ? & ? & ? & ? & ? & ?); tauto. }
    clearbody st0.
    destruct H0 as (Hconf0 & Ee0 & Em0 & Et0 & Ep0 & Er0 & Emode0 & Eopt0
                    & Eb0 & Hcurves0).
    destruct (configure_configured st0) as
      (stA & st1 & out1 & EA & E1 & Hconf1 & Hsizes1 & Hcurves1 & Emode1
       & Eopt1 & Edur1).
    { destruct Hconf0 as (_ & _ & _ & _ & _ & _ & Hb). exact Hb. }
    { unfold getEffectiveRatio in *. rewrite Et0, Ep0. exact Hratio. }
    { right. exact Hconf0. }
    exists st1, ([] ++ out1).
    split; [exact (bind_returns _ _ st0 st1 [] out1 E0 E1) |].
    destruct (calculateSizes_inputs st0 stA EA) as (HmA & _ & HeA).
    pose proof (calculateSizes_frame st0 stA EA) as (EtA & EpA & _ & ErA).
    pose proof Hsizes1 as (_ & _ & _ & Em1 & Ee1 & _ & _ & _ & _ & Et1 & Ep1 & Er1).
    split; [exact Hconf1 |].
    split; [congruence |]. split; [lia |].
    split; [congruence |]. split; [congruence |]. split; [congruence |].
    split; [congruence |]. split; [congruence |].
    split.
    { destruct (ProcessMode_eqb (m_mode st) Studying).
      - destruct Hcurves0 as (calculator & Ecalc & Ed1 & Ed2 & Ed3).
        destruct Hcurves1 as (Ec1 & Ec2 & Ec3).
        exists calculator. repeat split; congruence.
      - eapply same_curves_trans; [exact Hcurves0 | exact Hcurves1]. }
    split; [exact Edur1 |].
    intros _. apply (sized_transfer stA st1); [| exact Hsizes1].
    exact (calculateSizes_twice st0 stA EA). }
  destruct HA as (st1 & out1 & E1 & Hconf1 & Ee1 & Hm1 & Et1 & Ep1 & Er1
                  & Emode1 & Eopt1 & Hcurves1 & Edur1 & Hsized1).
  destruct (calculateSizes_windowSize st1) as (st2 & E2 & Hw2 & _).
  { destruct Hconf1 as (_ & _ & _ & _ & _ & _ & Hb). exact Hb. }
  { unfold getEffectiveRatio in *. rewrite Et1, Ep1. exact Hratio. }
  destruct (reconfigure_tail st1 st2 Hconf1 E2) as
    (st' & out' & E' & Hconf' & Hsizes' & Hcurves' & Emode' & Eopt' & Edur').
  { lia. }
  { intros Hrt. rewrite Er1 in Hrt. specialize (Hsized1 Hrt).
    rewrite Hsized1 in E2. injection E2 as <-. reflexivity. }
  exists st', (out1 ++ [] ++ out').
  split.
  { unfold reconfigure. cbv zeta.
    apply (bind_returns _ _ st1 st' out1 _ E1).
    rewrite E2. cbn [lift]. rewrite bind_ret_l. exact E'. }
  destruct (calculateSizes_inputs st1 st2 E2) as (Hm2 & _ & He2).
  pose proof Hsizes' as (_ & _ & _ & Em' & Ee' & _).
  split; [exact Hconf' |].
  split; [apply (sized_transfer st2 st');
          [exact (calculateSizes_twice st1 st2 E2) | exact Hsizes'] |].
  split; [congruence |]. split; [lia |].
  split; [congruence |]. split; [congruence |].
  split; [| congruence].
  unfold study_closed in *.
  destruct (negb (m_realtime st) && ProcessMode_eqb (m_mode st) Studying).
  - destruct Hcurves1 as (calculator & Ecalc & Ed1 & Ed2 & Ed3).
    destruct Hcurves' as (Ec1 & Ec2 & Ec3).
    exists calculator. repeat split; congruence.
  - eapply same_curves_trans; [exact Hcurves1 | exact Hcurves'].
Qed.

End ReconfigureInvariant.

(** ** The constructor *)

Section ConstructorFacts.

Context `{Collaborators}.

Lemma half_power_of_two b :
  is_power_of_two b -> 2 <= b -> is_power_of_two (b / 2) /\ 2 * (b / 2) = b.
Proof.
  intros (k & Hk & ->) Hb.
  assert (Hk1 : 1 <= k).
  { destruct (Z.eq_dec k 0) as [-> | ?]; [simpl in Hb; lia | lia]. }
  replace k with (Z.succ (k - 1)) by lia.
  rewrite Z.pow_succ_r by lia.
  replace (2 * 2 ^ (k - 1) / 2) with (2 ^ (k - 1))
    by (rewrite Z.mul_comm, Z.div_mul; lia).
  split; [exists (k - 1); split; [lia | reflexivity] | reflexivity].
Qed.

Lemma double_power_of_two b : is_power_of_two b -> is_power_of_two (2 * b).
Proof.
  intros (k & Hk & ->). exists (Z.succ k). split; [lia |].
  now rewrite Z.pow_succ_r by lia.
Qed.

(** The rate multiple is the quotient of the sample rate by 48000, but
    not below 1. *)
Lemma rateMultiple_bounds sampleRate channels options (t p : Q) :
  0 <= sampleRate <= 48000 * 2 ^ 19 ->
  let st := Impl_members sampleRate channels options t p in
  (1 <= m_rateMultiple st)%Q
  /\ (m_rateMultiple st <= inject_Z (2 ^ 19))%Q
  /\ (sampleRate <= 48000 -> (m_rateMultiple st == 1)%Q).
Proof.
  intros Hsr. cbn [Impl_members m_rateMultiple].
  destruct (Qltb (inject_Z sampleRate / 48000) 1) eqn:Hlt.
  - split; [apply Qle_refl |]. split; [discriminate | reflexivity].
  - apply Qltb_ge in Hlt. split; [exact Hlt |]. split.
    + apply Qle_shift_div_r; [reflexivity |].
      change (48000%Q) with (inject_Z 48000).
      rewrite <- inject_Z_mult, <- Zle_Qle. lia.
    + intros Hle. apply Qle_antisym; [| exact Hlt].
      apply Qle_shift_div_r; [reflexivity |]. rewrite Qmult_1_l.
      change (48000%Q) with (inject_Z 48000). rewrite <- Zle_Qle. exact Hle.
Qed.

(** The window size before the window options are applied. *)
Lemma standard_window_bounds (rateMultiple : Q) :
  (1 <= rateMultiple)%Q -> (rateMultiple <= inject_Z (2 ^ 19))%Q ->
  let b := roundUp (wrap_size_t
                      (int_of_double
                         (double_of_size_t m_defaultWindowSize
                          * rateMultiple))) in
  is_power_of_two b /\ 2048 <= b <= 2 ^ 30
  /\ ((rateMultiple == 1)%Q -> b = 2048).
Proof.
  intros Hlo Hhi b.
  set (x := (double_of_size_t m_defaultWindowSize * rateMultiple)%Q) in *.
  assert (Hx : (inject_Z 2048 <= x)%Q /\ (x <= inject_Z (2 ^ 30))%Q).
  { unfold x, double_of_size_t, m_defaultWindowSize. split.
    - rewrite <- (Qmult_1_r (inject_Z 2048)) at 1.
      apply Qmult_le_l; [reflexivity | exact Hlo].
    - change (2 ^ 30) with (2048 * 2 ^ 19). rewrite inject_Z_mult.
      apply Qmult_le_l; [reflexivity | exact Hhi]. }
  assert (Hf : 2048 <= Qfloor x <= 2 ^ 30).
  { split.
    - rewrite <- (Qfloor_Z 2048). apply Qfloor_resp_le, Hx.
    - rewrite <- (Qfloor_Z (2 ^ 30)). apply Qfloor_resp_le, Hx. }
  assert (Ev : wrap_size_t (int_of_double x) = Qfloor x).
  { unfold int_of_double. rewrite Qtrunc_floor.
    - rewrite wrap_int_id by (unfold in_int, int_half; lia).
      apply wrap_size_t_id. unfold in_size_t, size_t_modulus. lia.
    - eapply Qle_trans; [| apply Hx]. discriminate. }
  unfold b. rewrite Ev.
  destruct (roundUp_bounds (Qfloor x)) as [Hp Hb]; [lia |].
  split; [exact Hp |]. split; [lia |].
  intros E1.
  assert (Ex : (x == inject_Z 2048)%Q).
  { unfold x, double_of_size_t, m_defaultWindowSize. rewrite E1.
    apply Qmult_1_r. }
  rewrite Ex, Qfloor_Z.
  apply roundUp_power_of_two; [unfold size_t_modulus; lia |].
  exists 11. split; [lia | reflexivity].
Qed.

(** The base window size that the constructor computes. *)
Lemma Impl_members_baseWindowSize sampleRate channels options (t p : Q) :
  0 <= sampleRate <= 48000 * 2 ^ 19 ->
  let st := Impl_members sampleRate channels options t p in
  let short := has_option options OptionWindowShort in
  let long := has_option options OptionWindowLong in
  is_power_of_two (m_baseWindowSize st)
  /\ 1024 <= m_baseWindowSize st <= 2 ^ 31
  /\ (short = long -> 2048 <= m_baseWindowSize st <= 2 ^ 30)
  /\ (sampleRate <= 48000 ->
      m_baseWindowSize st
      = if short && long then 2048
        else if short then 1024 else if long then 4096 else 2048).
Proof.
  intros Hsr st short long.
  destruct (rateMultiple_bounds sampleRate channels options t p Hsr)
    as (Hlo & Hhi & H48).
  destruct (standard_window_bounds _ Hlo Hhi) as (Hp & Hb & Hstd).
  unfold st in *. cbn [Impl_members m_baseWindowSize m_rateMultiple] in *.
  fold short long.
  set (rm := if Qltb (inject_Z sampleRate / 48000) 1 then 1%Q
             else (inject_Z sampleRate / 48000)%Q) in *.
  set (b := roundUp _) in *.
  destruct short, long; cbn [andb].
  - split; [exact Hp |]. split; [lia |]. split; [lia |].
    intros Hle. exact (Hstd (H48 Hle)).
  - destruct (half_power_of_two b Hp) as [Hhp Hhe]; [lia |].
    split; [exact Hhp |]. split; [lia |]. split; [discriminate |].
    intros Hle. rewrite (Hstd (H48 Hle)). reflexivity.
  - rewrite size_mul_id by (unfold in_size_t, size_t_modulus; lia).
    split; [rewrite Z.mul_comm; apply double_power_of_two, Hp |].
    split; [lia |]. split; [discriminate |].
    intros Hle. rewrite (Hstd (H48 Hle)). reflexivity.
  - split; [exact Hp |]. split; [lia |]. split; [lia |].
    intros Hle. exact (Hstd (H48 Hle)).
Qed.

(** The constructor returns for every sample rate up to 48000 * 2^19
    and every effective ratio from 2^-28 on; the object it leaves is
    configured and sized, in mode JustCreated, with no duration, no
    curves and no schedule. *)
Lemma Impl_new_configured sampleRate channels options (t p : Q) :
  0 <= sampleRate <= 48000 * 2 ^ 19 ->
  ratio_in_range (t * p) ->
  exists st out,
    Impl_new sampleRate channels options t p = Some (st, out)
    /\ configured st
    /\ calculateSizes st = Some st
    /\ m_mode st = JustCreated
    /\ m_inputDuration st = 0
    /\ m_phaseResetDf st = [] /\ m_stretchDf st = []
    /\ m_outputIncrements st = []
    /\ m_timeRatio st = t /\ m_pitchScale st = p
    /\ m_channels st = channels
    /\ m_realtime st = has_option options OptionProcessRealTime
    /\ m_baseWindowSize st
       = m_baseWindowSize (Impl_members sampleRate channels options t p).
Proof.
  intros Hsr Hratio.
  set (st0 := Impl_members sampleRate channels options t p).
  destruct (Impl_members_baseWindowSize sampleRate channels options t p Hsr)
    as (_ & Hb & _).
  destruct (configure_configured st0) as
    (stA & st & out & EA & Erun & Hconf & Hsizes & Hcurves & Emode & Eopt
     & Edur).
  { fold st0 in Hb. lia. }
  { exact Hratio. }
  { left. reflexivity. }
  pose proof (calculateSizes_frame st0 stA EA) as (EtA & EpA & _ & ErA).
  pose proof (calculateSizes_Some st0 stA EA) as EstA.
  pose proof Hsizes as (_ & _ & _ & _ & _ & Eb' & _ & _ & Ech & Et & Ep & Er).
  pose proof Hcurves as (Ec1 & Ec2 & Ec3).
  assert (Eout : exists out0,
            ((if has_option options OptionWindowShort
                 && has_option options OptionWindowLong
              then cerr WindowShortAndLongTogether else ret tt) ;;;
             (if has_option options OptionProcessRealTime
                 && negb (has_option options OptionStretchPrecise)
              then cerr RealTimeEnablesStretchPrecise else ret tt) ;;;
             configure st0)%run = Some (st, out0)).
  { destruct (_ && _); destruct (_ && _); unfold bind, cerr, ret;
      rewrite Erun; eexists; reflexivity. }
  destruct Eout as [out0 Eout].
  exists st, out0. split; [exact Eout |].
  split; [exact Hconf |].
  split; [apply (sized_transfer stA st);
          [exact (calculateSizes_twice st0 stA EA) | exact Hsizes] |].
  split; [rewrite Emode; reflexivity |].
  split; [exact Edur |].
  split; [rewrite Ec1; reflexivity |]. split; [rewrite Ec2; reflexivity |].
  split; [rewrite Ec3; reflexivity |].
  split; [rewrite Et, EtA; reflexivity |].
  split; [rewrite Ep, EpA; reflexivity |].
  split; [rewrite Ech, EstA; reflexivity |].
  split; [rewrite Er, ErA; reflexivity |].
  rewrite Eb', EstA. reflexivity.
Qed.

(** The object that a constructor call leaves is configured. *)
Lemma constructed_configured sampleRate channels options (t p : Q) :
  0 <= sampleRate <= 48000 * 2 ^ 19 ->
  ratio_in_range (t * p) ->
  configured (constructed sampleRate channels options t p)
  /\ calculateSizes (constructed sampleRate channels options t p)
     = Some (constructed sampleRate channels options t p).
Proof.
  intros Hsr Hratio.
  destruct (Impl_new_configured sampleRate channels options t p Hsr Hratio)
    as (st & out & Erun & Hconf & Hsized & _).
  unfold constructed. rewrite Erun. cbn. split; assumption.
Qed.

End ConstructorFacts.

(** ** study, reset and process on a configured object *)

Section Lifecycle.

Context `{Collaborators}.

Lemma same_setup_refl st : same_setup st st.
Proof. repeat split; auto. Qed.

Lemma same_setup_trans st1 st2 st3 :
  same_setup st1 st2 -> same_setup st2 st3 -> same_setup st1 st3.
Proof.
  unfold same_setup.
  intros (? & ? & ? & ? & ? & ? & ? & ? & ? & ? & ?)
         (? & ? & ? & ? & ? & ? & ? & ? & ? & ? & ?).
  repeat split; try congruence; auto.
Qed.

Lemma same_setup_configured st st' :
  same_setup st st' -> configured st -> configured st'.
Proof.
  unfold same_setup, configured.
  intros (El & Ech & Ew & Ewin & Ews & Ef & Eb & Er & Hp & Hs & Hc)
         (Hlen & Hwin & Hin & Hcurve & Hcalc & Hoff & Hb).
  rewrite El, Ech, Ew, Ewin, Ews, Ef, Eb, Er.
  repeat split; try assumption; auto; try lia.
  - apply Hoff. assumption.
  - apply Hs, Hoff. assumption.
Qed.

Lemma set_channel_setup c cd st : same_setup st (set_channel c cd st).
Proof.
  unfold same_setup, set_channel. impl_cbn. rewrite length_insert.
  repeat split; auto.
Qed.

Lemma study_chunk_setup st st' out :
  study_chunk st = Some (st', out) -> same_setup st st'.
Proof.
  unfold study_chunk. intros Hrun.
  apply bind_Some in Hrun as (cd & ? & ? & _ & Hrun & _).
  apply bind_Some in Hrun as (window & ? & ? & _ & Hrun & _).
  apply bind_Some in Hrun as (fft & ? & ? & _ & Hrun & _).
  apply bind_Some in Hrun as (phaseReset & ? & ? & _ & Hrun & _).
  apply bind_Some in Hrun as (stretch & ? & ? & _ & Hrun & _).
  destruct (curve_process phaseReset _ _) as [df1 curve1].
  cbn [m_increment set_m_phaseResetDf set_m_phaseResetAudioCurve] in Hrun.
  destruct (curve_process stretch _ _) as [df2 curve2].
  apply ret_Some in Hrun as [-> _].
  unfold same_setup, set_channel. impl_cbn. rewrite length_insert.
  repeat split; eauto.
Qed.

Lemma study_chunks_setup fuel final st st' out :
  study_chunks fuel final st = Some (st', out) -> same_setup st st'.
Proof.
  revert st out. induction fuel as [| fuel IH]; intros st out Hrun;
    [discriminate |].
  cbn [study_chunks] in Hrun.
  apply bind_Some in Hrun as (cd & ? & ? & _ & Hrun & _).
  destruct (_ || _) in Hrun.
  - apply bind_Some in Hrun as (st1 & ? & ? & Hchunk & Hrun & _).
    eapply same_setup_trans;
      [apply (study_chunk_setup _ _ _ Hchunk) | apply (IH _ _ Hrun)].
  - apply ret_Some in Hrun as [-> _]. apply same_setup_refl.
Qed.

Lemma study_write_setup mix samples consumed st consumed' st' out :
  study_write mix samples consumed st = Some ((consumed', st'), out) ->
  same_setup st st'.
Proof.
  unfold study_write. intros Hrun.
  apply bind_Some in Hrun as (cd & ? & ? & _ & Hrun & _).
  destruct (_ =? 0) in Hrun.
  - apply bind_Some in Hrun as (? & ? & ? & _ & Hrun & _).
    apply ret_Some in Hrun as [[= -> ->] _]. apply same_setup_refl.
  - apply ret_Some in Hrun as [[= -> ->] _]. apply set_channel_setup.
Qed.

Lemma study_loop_setup fuel mix samples final consumed st st' out :
  study_loop fuel mix samples final consumed st = Some (st', out) ->
  same_setup st st'.
Proof.
  revert consumed st out.
  induction fuel as [| fuel IH]; intros consumed st out Hrun; [discriminate |].
  cbn [study_loop] in Hrun.
  destruct (consumed <? samples).
  - apply bind_Some in Hrun as ([consumed' st1] & ? & ? & Hwrite & Hrun & _).
    apply bind_Some in Hrun as (st2 & ? & ? & Hchunks & Hrun & _).
    cbn [fst snd] in *.
    apply study_write_setup in Hwrite.
    apply study_chunks_setup in Hchunks. apply IH in Hrun.
    eapply same_setup_trans; [| exact Hrun].
    eapply same_setup_trans; [exact Hwrite | exact Hchunks].
  - apply ret_Some in Hrun as [-> _]. apply same_setup_refl.
Qed.

Lemma study_setup fuel input samples final st st' out :
  study fuel input samples final st = Some (st', out) -> same_setup st st'.
Proof.
  unfold study. intros Hrun.
  destruct (m_realtime st);
    [apply ret_Some in Hrun as [-> _]; apply same_setup_refl |].
  destruct (_ || _) in Hrun.
  { apply bind_Some in Hrun as (? & ? & ? & _ & Hrun & _).
    apply ret_Some in Hrun as [-> _]. apply same_setup_refl. }
  apply bind_Some in Hrun as (cd0 & ? & ? & _ & Hrun & _).
  apply bind_Some in Hrun as (st1 & ? & ? & Hloop & Hrun & _).
  apply study_loop_setup in Hloop.
  assert (H1 : same_setup st st1).
  { eapply same_setup_trans; [| exact Hloop]. repeat split; auto. }
  destruct final.
  - unfold study_final in Hrun.
    apply bind_Some in Hrun as (cd & ? & ? & _ & Hrun & _).
    eapply same_setup_trans; [exact H1 |].
    destruct (_ <? _) in Hrun; apply ret_Some in Hrun as [-> _];
      repeat split; auto.
  - apply ret_Some in Hrun as [-> _]. exact H1.
Qed.

Lemma on_channels_setup body st st' out :
  on_channels body st = Some (st', out) -> same_setup st st'.
Proof.
  intros Hrun. destruct (on_channels_Some _ _ _ _ Hrun) as (l & -> & Hl).
  unfold same_setup. impl_cbn. repeat split; auto.
Qed.

Lemma reset_setup st st' out :
  reset st = Some (st', out) -> same_setup st st'.
Proof.
  unfold reset. intros Hrun.
  apply bind_Some in Hrun as (st1 & ? & ? & Hch & Hrun & _).
  apply ret_Some in Hrun as [-> _].
  destruct (on_channels_Some _ _ _ _ Hch) as (l & -> & Hl).
  unfold same_setup. impl_cbn.
  repeat split; auto; intros [curve Hcurve]; rewrite Hcurve;
    eexists; reflexivity.
Qed.

(** The entry of process on a configured object: refused once the mode
    is Finished, nothing to do while it is Processing; otherwise the
    schedule of a study is appended, the channels are reset and
    pre-filled and the mode becomes Processing. *)
Lemma process_enter_configured st :
  configured st ->
  exists r out,
    process_enter st = Some (r, out)
    /\ match m_mode st with
       | Finished => r = None /\ out = [CannotProcessAfterFinalChunk]
       | Processing => r = Some st /\ out = []
       | JustCreated =>
           exists st', r = Some st' /\ out = []
                       /\ m_mode st' = Processing
                       /\ same_setup st st' /\ same_sizes st st'
                       /\ same_curves st st'
       | Studying =>
           exists st' calculator,
             r = Some st' /\ out = []
             /\ m_mode st' = Processing
             /\ same_setup st st' /\ same_sizes st st'
             /\ m_stretchCalculator st = Some calculator
             /\ m_phaseResetDf st' = m_phaseResetDf st
             /\ m_stretchDf st' = m_stretchDf st
             /\ m_outputIncrements st'
                = m_outputIncrements st
                  ++ calculate calculator (getEffectiveRatio st)
                       (m_inputDuration st) (m_phaseResetDf st)
                       (m_stretchDf st)
       end.
Proof.
  intros Hconf. unfold process_enter.
  pose proof Hconf as (Hlen & _ & _ & _ & [calculator Ecalc] & _).
  assert (Hfill : forall st0,
            length (m_channelData st0) = length (m_channelData st) ->
            m_channels st0 = m_channels st ->
            exists l,
              prefill_channels st0 = Some (set_m_channelData l st0, [])
              /\ length l = length (m_channelData st0)).
  { intros st0 El Ech. unfold prefill_channels.
    match goal with
    | |- context [on_channels ?body st0] =>
        destruct (on_channels_returns body st0) as (st1 & out1 & E1)
    end.
    - intros cd. eexists _, _. reflexivity.
    - rewrite El, Ech, Hlen. lia.
    - destruct (on_channels_Some _ _ _ _ E1) as (l & -> & Hl).
      exists l. split; [| exact Hl]. rewrite E1. repeat f_equal.
      unfold on_channels in E1.
      apply bind_Some in E1 as (l' & o1 & o2 & Hloop & Hret & ->).
      apply ret_Some in Hret as [_ ->]. rewrite app_nil_r.
      clear -Hloop. revert Hloop.
      generalize (m_channelData st0) as cds, 0%nat as c, l' as r, o1 as o.
      induction (Z.to_nat (m_channels st0)) as [| n IH];
        intros cds c r o Hloop.
      + apply ret_Some in Hloop as [_ ->]. reflexivity.
      + cbn [for_each_channel] in Hloop.
        apply bind_Some in Hloop as (cd & ? & ? & Hcd & Hloop & ->).
        apply lift_Some in Hcd as [_ ->].
        apply bind_Some in Hloop as (cd' & ? & ? & Hb & Hloop & ->).
        apply ret_Some in Hb as [_ ->].
        apply IH in Hloop. rewrite Hloop. reflexivity. }
  destruct (m_mode st) eqn:Hmode; cbn [ProcessMode_eqb orb].
  - destruct (Hfill st eq_refl eq_refl) as (l & El & Hl).
    rewrite bind_ret_l, El. eexists _, _. split; [reflexivity |].
    eexists. split; [reflexivity |]. split; [reflexivity |].
    unfold same_setup, same_sizes, same_curves. impl_cbn.
    repeat split; auto.
  - unfold calculateStretch. rewrite Ecalc. cbn [lift]. rewrite bind_ret_l.
    set (st1 := set_m_outputIncrements
                  (m_outputIncrements st
                   ++ calculate calculator (getEffectiveRatio st)
                        (m_inputDuration st) (m_phaseResetDf st)
                        (m_stretchDf st)) st).
    assert (E1 : match m_outputIncrements st with
                 | [] => ret (set_m_outputIncrements
                                (calculate calculator (getEffectiveRatio st)
                                   (m_inputDuration st) (m_phaseResetDf st)
                                   (m_stretchDf st)) st)
                 | _ :: _ => ret st1
                 end = ret st1).
    { unfold st1. destruct (m_outputIncrements st); reflexivity. }
    rewrite E1, bind_ret_l.
    destruct (Hfill st1 eq_refl eq_refl) as (l & El & Hl).
    rewrite El. eexists _, _. split; [reflexivity |].
    exists (set_m_mode Processing (set_m_channelData l st1)), calculator.
    split; [reflexivity |]. split; [reflexivity |].
    unfold same_setup, same_sizes, st1. impl_cbn.
    repeat split; auto.
  - eexists _, _. split; [reflexivity |]. split; reflexivity.
  - eexists _, _. split; [reflexivity |]. split; reflexivity.
Qed.

End Lifecycle.

(** ** The window size is a power of two *)

Section PowerOfTwoWindow.

Context `{Collaborators}.

Lemma max_power_of_two a b :
  is_power_of_two a -> is_power_of_two b -> is_power_of_two (Z.max a b).
Proof. intros Ha Hb. destruct (Z.max_spec a b) as [[_ ->] | [_ ->]]; assumption. Qed.

Lemma four_times_power_of_two b : is_power_of_two b -> is_power_of_two (4 * b).
Proof.
  intros Hb. replace (4 * b) with (2 * (2 * b)) by lia.
  now apply double_power_of_two, double_power_of_two.
Qed.

(** Below a power of two (up to 2^30), [roundUp] stays below it. *)
Lemma roundUp_le_power_of_two x b :
  1 <= x <= b -> is_power_of_two b -> b <= 2 ^ 30 -> roundUp x <= b.
Proof.
  intros Hx Hb Hb30.
  destruct (power_of_two_dec x) as [Hp | Hp]; [lia | |].
  - rewrite roundUp_power_of_two by (unfold size_t_modulus; lia || exact Hp).
    lia.
  - destruct (roundUp_least x) as [(_ & _ & Hleast) _]; [lia | exact Hp |].
    apply Hleast; [exact Hb | lia].
Qed.

(** [roundUp (outputIncrement * 6)] of lines 325 and 349. *)
Lemma roundUp_times_six out :
  0 <= out -> out * 6 <= 2 ^ 30 ->
  roundUp (size_mul out 6) = 0
  \/ is_power_of_two (roundUp (size_mul out 6))
     /\ out * 6 <= roundUp (size_mul out 6) <= 2 ^ 30.
Proof.
  intros Ho Hb.
  rewrite size_mul_id by (unfold in_size_t, size_t_modulus; lia).
  destruct (Z.eq_dec out 0) as [-> | Hne]; [left; reflexivity |].
  right. destruct (roundUp_bounds (out * 6)) as [Hp Hr]; [lia |].
  split; [exact Hp | lia].
Qed.

(** The size that the constructor and the realtime case scale by the
    rate multiple. *)
Lemma scaled_size_bounds d (rateMultiple : Q) :
  1 <= d <= 2048 ->
  (1 <= rateMultiple)%Q -> (rateMultiple <= inject_Z (2 ^ 19))%Q ->
  let b := roundUp (wrap_size_t
                      (int_of_double (double_of_size_t d * rateMultiple))) in
  is_power_of_two b /\ d <= b <= 2 ^ 30.
Proof.
  intros Hd Hlo Hhi b.
  set (x := (double_of_size_t d * rateMultiple)%Q) in *.
  assert (Hdpos : (0 < inject_Z d)%Q)
    by (change 0%Q with (inject_Z 0); rewrite <- Zlt_Qlt; lia).
  assert (Hx : (inject_Z d <= x)%Q /\ (x <= inject_Z (2 ^ 30))%Q).
  { unfold x, double_of_size_t. split.
    - rewrite <- (Qmult_1_r (inject_Z d)) at 1.
      apply Qmult_le_l; [exact Hdpos | exact Hlo].
    - apply Qle_trans with (inject_Z d * inject_Z (2 ^ 19))%Q.
      + apply Qmult_le_l; [exact Hdpos | exact Hhi].
      + rewrite <- inject_Z_mult, <- Zle_Qle. lia. }
  assert (Hf : d <= Qfloor x <= 2 ^ 30).
  { split.
    - rewrite <- (Qfloor_Z d). apply Qfloor_resp_le, Hx.
    - rewrite <- (Qfloor_Z (2 ^ 30)). apply Qfloor_resp_le, Hx. }
  assert (Ev : wrap_size_t (int_of_double x) = Qfloor x).
  { unfold int_of_double. rewrite Qtrunc_floor.
    - rewrite wrap_int_id by (unfold in_int, int_half; lia).
      apply wrap_size_t_id. unfold in_size_t, size_t_modulus. lia.
    - eapply Qle_trans; [| apply Hx]. apply Qlt_le_weak, Hdpos. }
  unfold b. rewrite Ev.
  destruct (roundUp_bounds (Qfloor x)) as [Hp Hb]; [lia |].
  split; [exact Hp | lia].
Qed.

(** Lines 325-326 and 349-350 on powers of two. *)
Lemma stretch_windowSize_power_of_two (r : Q) s :
  is_power_of_two (windowSize s) -> windowSize s <= 2 ^ 30 ->
  roundUp (size_mul (outputIncrement s) 6) = 0
  \/ is_power_of_two (roundUp (size_mul (outputIncrement s) 6))
     /\ roundUp (size_mul (outputIncrement s) 6) <= 2 ^ 30 ->
  exists w, stretch_windowSize r s
            = Some {| inputIncrement := inputIncrement s;
                      windowSize := w;
                      outputIncrement := outputIncrement s |}
            /\ is_power_of_two w
            /\ Z.max (windowSize s) (roundUp (size_mul (outputIncrement s) 6))
               <= w.
Proof.
  intros Hp Hb Hround. unfold stretch_windowSize.
  set (w0 := Z.max (windowSize s) (roundUp (size_mul (outputIncrement s) 6))).
  pose proof (power_of_two_pos _ Hp) as Hpos.
  assert (Hw0 : is_power_of_two w0 /\ 1 <= w0 <= 2 ^ 30).
  { unfold w0. destruct Hround as [-> | [Hpr Hbr]].
    - rewrite Z.max_l by lia. split; [exact Hp | lia].
    - split; [apply max_power_of_two; assumption | lia]. }
  destruct Hw0 as [Hpw0 Hbw0].
  destruct (Qltb 5 r).
  - assert (Hstep : forall w, (is_power_of_two w /\ w0 <= w < 2 ^ 62) ->
                      (w <? 8192) = true ->
                      is_power_of_two (size_mul w 2)
                      /\ w0 <= size_mul w 2 < 2 ^ 62).
    { intros w [Hpw Hbw] Hc. apply Z.ltb_lt in Hc.
      rewrite size_mul_id by (unfold in_size_t, size_t_modulus; lia).
      split; [rewrite Z.mul_comm; apply double_power_of_two, Hpw | lia]. }
    assert (Hinit : is_power_of_two w0 /\ w0 <= w0 < 2 ^ 62)
      by (split; [exact Hpw0 | lia]).
    destruct (doubling_terminates 64 w0) as [w' Hw']; [lia | lia |].
    unfold sizes_fuel. rewrite Hw'. cbn [mbind option_bind].
    exists w'. split; [reflexivity |].
    destruct (while_loop_invariant (fun w => w <? 8192) (fun w => size_mul w 2)
                (fun w => is_power_of_two w /\ w0 <= w < 2 ^ 62) _ _ _ Hstep
                Hinit Hw')
      as [[Hpw' Hbw'] _].
    clear Hw'. split; [exact Hpw' | lia].
  - cbn [mbind option_bind]. exists w0. split; [reflexivity |].
    split; [exact Hpw0 | lia].
Qed.

(** The clamp of the squashing cases keeps a power of two as window
    size and an increment of at least 1. *)
Lemma clamp_outputIncrement_shape (r : Q) s :
  ratio_in_range r ->
  is_power_of_two (windowSize s) -> 1 <= inputIncrement s < 2 ^ 64 ->
  is_power_of_two (windowSize (clamp_outputIncrement r s))
  /\ 1 <= inputIncrement (clamp_outputIncrement r s) < 2 ^ 64.
Proof.
  intros Hr Hp Hi. unfold clamp_outputIncrement.
  destruct (_ <? 1); [| split; assumption].
  cbn [windowSize inputIncrement].
  destruct (clamped_inputIncrement_bounds r Hr) as [Hpi Hbi].
  rewrite size_mul_id by (unfold in_size_t, size_t_modulus; lia).
  split; [rewrite Z.mul_comm; apply four_times_power_of_two, Hpi | lia].
Qed.

(** The halving loop of the realtime case from a power of two. *)
Lemma realtime_halving_shape (r : Q) s :
  1 <= inputIncrement s < 2 ^ 64 ->
  exists s', realtime_halving r s = Some s'
             /\ windowSize s' = windowSize s
             /\ 1 <= inputIncrement s' <= inputIncrement s
             /\ (s' = s
                 \/ outputIncrement s'
                    = wrap_size_t
                        (lrint (ceil (double_of_size_t (inputIncrement s')
                                      * r))))
             /\ (outputIncrement s' <= 1024 \/ inputIncrement s' = 1).
Proof.
  intros Hs. unfold realtime_halving, sizes_fuel.
  destruct (while_loop_halving
              (fun s => (1024 <? outputIncrement s) && (1 <? inputIncrement s))
              (fun s0 =>
                 let inputIncrement := inputIncrement s0 / 2 in
                 {| inputIncrement := inputIncrement;
                    windowSize := windowSize s0;
                    outputIncrement :=
                      wrap_size_t
                        (lrint (ceil (double_of_size_t inputIncrement * r))) |})
              inputIncrement
              (fun s0 => windowSize s0 = windowSize s
                         /\ 1 <= inputIncrement s0 <= inputIncrement s
                         /\ (s0 = s
                             \/ outputIncrement s0
                                = wrap_size_t
                                    (lrint (ceil (double_of_size_t
                                                    (inputIncrement s0)
                                                  * r)))))
              64 s) as (s' & Hrun & (Hw & Hi & Ho) & Hc).
  - intros s0 (Hw & Hi & Ho) Hc. apply andb_true_iff in Hc as [_ Hc].
    apply Z.ltb_lt in Hc. cbn [inputIncrement windowSize outputIncrement].
    assert (1 <= inputIncrement s0 / 2)
      by (apply Z.div_le_lower_bound; lia).
    assert (inputIncrement s0 / 2 <= inputIncrement s0)
      by (apply Z.div_le_upper_bound; lia).
    split; [lia |]. split; [lia |]. split; [exact Hw |].
    split; [lia |]. right. reflexivity.
  - split; [reflexivity |]. split; [lia |]. left. reflexivity.
  - change (Z.of_nat 64) with 64. lia.
  - exists s'. split; [exact Hrun |]. split; [exact Hw |].
    split; [exact Hi |]. split; [exact Ho |].
    apply andb_false_iff in Hc as [Hc | Hc]; apply Z.ltb_ge in Hc; lia.
Qed.

(** The loop of line 335 from a value that is not zero. *)
Lemma offline_squash_loop_shape i :
  1 <= i < 2 ^ 64 ->
  exists i', while_loop sizes_fuel (fun i => 512 <=? i) (fun i => i / 2) i
             = Some i'
             /\ 1 <= i' < 512.
Proof.
  intros Hi. unfold sizes_fuel.
  destruct (while_loop_halving (fun i => 512 <=? i) (fun i => i / 2)
              (fun i => i) (fun i0 => 1 <= i0 <= i) 64 i)
    as (i' & Hrun & Hr & Hc).
  - intros i0 Hr Hc. apply Z.leb_le in Hc.
    assert (256 <= i0 / 2) by (apply Z.div_le_lower_bound; lia).
    assert (i0 / 2 <= i0) by (apply Z.div_le_upper_bound; lia).
    split; [lia |]. split; lia.
  - lia.
  - change (Z.of_nat 64) with 64. lia.
  - exists i'. split; [exact Hrun |]. apply Z.leb_gt in Hc. lia.
Qed.

(** The loop of lines 355-358 keeps an increment of at least 1. *)
Lemma fit_expectedInputDuration_shape st i :
  1 <= i < 2 ^ 64 ->
  exists i', fit_expectedInputDuration st i = Some i' /\ 1 <= i' <= i.
Proof.
  intros Hi. unfold fit_expectedInputDuration.
  destruct (0 <? m_expectedInputDuration st);
    [| exists i; split; [reflexivity | lia]].
  unfold sizes_fuel.
  destruct (while_loop_halving
              (fun i => (m_expectedInputDuration st <? size_mul i 4) && (1 <? i))
              (fun i => i / 2) (fun i => i) (fun i0 => 1 <= i0 <= i) 64 i)
    as (i' & Hrun & Hr & _).
  - intros i0 Hr Hc. apply andb_true_iff in Hc as [_ Hc].
    apply Z.ltb_lt in Hc.
    assert (1 <= i0 / 2) by (apply Z.div_le_lower_bound; lia).
    assert (i0 / 2 <= i0) by (apply Z.div_le_upper_bound; lia).
    split; [lia |]. split; lia.
  - lia.
  - change (Z.of_nat 64) with 64. lia.
  - exists i'. split; [exact Hrun | exact Hr].
Qed.

(** The sizes that the four cases choose within the range where the
    casts are exact: the window size is a power of two, and the
    increment is at least 1 except possibly in the offline case for a
    ratio of at least one. *)
Lemma choose_sizes_shape st :
  sizing_in_range st ->
  exists s, choose_sizes st = Some s
            /\ is_power_of_two (windowSize s)
            /\ in_size_t (inputIncrement s)
            /\ (m_realtime st = true \/ Qltb (getEffectiveRatio st) 1 = true ->
                1 <= inputIncrement s).
Proof.
  intros (Hpb & Hb & Hrm1 & Hrm2 & Hr1 & Hr2). unfold choose_sizes.
  set (r := getEffectiveRatio st) in *.
  assert (Hratio : ratio_in_range r) by exact Hr1.
  destruct (m_realtime st).
  - destruct (scaled_size_bounds m_defaultIncrement (m_rateMultiple st))
      as [Hpi Hbi]; [unfold m_defaultIncrement; lia | exact Hrm1 | exact Hrm2 |].
    set (inc0 := roundUp _) in *. unfold m_defaultIncrement in Hbi.
    destruct (Qltb r 1) eqn:Hlt.
    + eexists. split; [reflexivity |]. unfold realtime_squash.
      match goal with
      | |- context [clamp_outputIncrement r ?s0] =>
          destruct (clamp_outputIncrement_shape r s0 Hratio) as [Hpw Hi]
      end; [exact Hpb | cbn [inputIncrement]; lia |].
      split; [exact Hpw |].
      split; [unfold in_size_t, size_t_modulus; lia |]. intros _. lia.
    + apply Qltb_ge in Hlt. unfold realtime_stretch.
      match goal with
      | |- context [realtime_halving r ?s0] =>
          destruct (realtime_halving_shape r s0)
            as (s' & Hrun & Hw & Hi & Ho & Hexit)
      end; [cbn [inputIncrement]; lia |].
      cbn [inputIncrement windowSize outputIncrement] in *.
      rewrite Hrun. cbn [mbind option_bind].
      assert (Hround : roundUp (size_mul (outputIncrement s') 6) = 0
                       \/ is_power_of_two
                            (roundUp (size_mul (outputIncrement s') 6))
                          /\ roundUp (size_mul (outputIncrement s') 6)
                             <= 2 ^ 30).
      { assert (Hout : 0 <= outputIncrement s' /\ outputIncrement s' * 6 <= 2 ^ 30).
        { assert (Hnn : 0 <= outputIncrement s').
          { destruct Ho as [-> | ->]; cbn [outputIncrement];
              apply (proj1 (wrap_size_t_range _)). }
          destruct Hexit as [Hle | Hone].
          - clear -Hle Hnn. split; lia.
          - destruct Ho as [-> | Eo]; [cbn [inputIncrement] in Hone; lia |].
            rewrite Eo, Hone. unfold ceil, double_of_size_t.
            assert (Hc : 1 <= Qceiling (inject_Z 1 * r) <= 2 ^ 27).
            { rewrite Qmult_1_l. split.
              - rewrite <- (Qceiling_Z 1). apply Qceiling_resp_le. exact Hlt.
              - rewrite <- (Qceiling_Z (2 ^ 27)). apply Qceiling_resp_le.
                exact Hr2. }
            rewrite lrint_inject_Z by (unfold in_long, long_half; lia).
            rewrite wrap_size_t_id by (unfold in_size_t, size_t_modulus; lia).
            lia. }
        destruct (roundUp_times_six (outputIncrement s')) as [E0 | [Hp6 Hb6]];
          [lia | lia | left; exact E0 | right; split; [exact Hp6 | lia]]. }
      destruct (stretch_windowSize_power_of_two r s')
        as (w & Ew & Hpw & _); [rewrite Hw; exact Hpb | lia | exact Hround |].
      rewrite Ew. eexists. split; [reflexivity |].
      cbn [inputIncrement windowSize].
      split; [exact Hpw |].
      split; [unfold in_size_t, size_t_modulus; lia |]. intros _. lia.
  - destruct (Qltb r 1) eqn:Hlt.
    + unfold offline_squash. cbn [windowSize].
      destruct (offline_squash_loop_shape (m_baseWindowSize st / 4))
        as (i' & Hrun & Hi').
      { split; [apply Z.div_le_lower_bound; lia
               | apply Z.div_lt_upper_bound; lia]. }
      rewrite Hrun. cbn [mbind option_bind].
      eexists. split; [reflexivity |].
      match goal with
      | |- context [clamp_outputIncrement r ?s0] =>
          destruct (clamp_outputIncrement_shape r s0 Hratio) as [Hpw Hi]
      end; [exact Hpb | cbn [inputIncrement]; lia |].
      split; [exact Hpw |].
      split; [unfold in_size_t, size_t_modulus; lia |]. intros _. lia.
    + unfold offline_stretch. cbn [windowSize].
      match goal with
      | |- context [offline_halving r ?s0] =>
          destruct (offline_halving_returns r s0)
            as (s' & Hrun & Hr & Hw & Hle & _)
      end.
      { cbn [outputIncrement]. unfold in_size_t, size_t_modulus.
        split; [apply Z.div_pos; lia | apply Z.div_lt_upper_bound; lia]. }
      { apply wrap_size_t_range. }
      cbn [inputIncrement windowSize outputIncrement] in *.
      rewrite Hrun. cbn [mbind option_bind].
      assert (Hsix : m_baseWindowSize st / 6 * 6 <= m_baseWindowSize st).
      { pose proof (Z.mul_div_le (m_baseWindowSize st) 6). lia. }
      assert (Hnn : 0 <= outputIncrement s') by lia.
      assert (Hround : roundUp (size_mul (outputIncrement s') 6) = 0
                       \/ is_power_of_two
                            (roundUp (size_mul (outputIncrement s') 6))
                          /\ roundUp (size_mul (outputIncrement s') 6)
                             <= 2 ^ 30).
      { destruct (roundUp_times_six (outputIncrement s')) as [E0 | [Hp6 Hb6]];
          [lia | lia | left; exact E0 | right; split; [exact Hp6 | lia]]. }
      destruct (stretch_windowSize_power_of_two r s')
        as (w & Ew & Hpw & _); [rewrite Hw; exact Hpb | lia | exact Hround |].
      rewrite Ew. eexists. split; [reflexivity |].
      cbn [inputIncrement windowSize].
      split; [exact Hpw |]. split; [exact Hr |].
      intros [Habs | Habs]; discriminate.
Qed.

(** The sizing computation within that range. *)
Lemma calculateSizes_shape st :
  sizing_in_range st ->
  exists st',
    calculateSizes st = Some st'
    /\ is_power_of_two (m_windowSize st')
    /\ (m_realtime st = true \/ Qltb (getEffectiveRatio st) 1 = true ->
        1 <= m_increment st').
Proof.
  intros Hrange.
  destruct (choose_sizes_shape st Hrange) as (s & Hs & Hpw & Hr & Hi).
  destruct (fit_expectedInputDuration_returns st (inputIncrement s))
    as (i & Ei & _); [exact Hr |].
  destruct (calculateSizes_assigns st s i Hs Ei) as (st' & Hrun & Ew & Einc & _).
  exists st'. rewrite Ew, Einc. split; [exact Hrun |]. split; [exact Hpw |].
  intros Hcase. specialize (Hi Hcase).
  destruct (fit_expectedInputDuration_shape st (inputIncrement s))
    as (i' & Ei' & Hi'); [unfold in_size_t, size_t_modulus in Hr; lia |].
  rewrite Ei in Ei'. injection Ei' as <-. lia.
Qed.

End PowerOfTwoWindow.

(** ** The output buffer size *)

Section OutbufSize.

Context `{Collaborators}.

Lemma calculateSizes_outbufSize st st' :
  calculateSizes st = Some st' ->
  m_outbufSize st' = choose_outbufSize st'
  /\ m_timeRatio st' = m_timeRatio st /\ m_pitchScale st' = m_pitchScale st
  /\ m_realtime st' = m_realtime st /\ m_threaded st' = m_threaded st.
Proof.
  unfold calculateSizes. intros Hrun.
  destruct (choose_sizes st) as [s |]; [| discriminate].
  cbn [mbind option_bind] in Hrun.
  destruct (fit_expectedInputDuration st (inputIncrement s)) as [i |];
    [| discriminate].
  cbn [mbind option_bind] in Hrun. injection Hrun as <-.
  unfold choose_outbufSize. impl_cbn.
  destruct (_ <? _); impl_cbn; repeat split; reflexivity.
Qed.

(** Lines 383-401 where nothing overflows: the size is the ceiling of
    the larger of the two requirements, sixteen times that in realtime
    or threaded mode. *)
Lemma choose_outbufSize_bounds st :
  (0 < m_pitchScale st)%Q ->
  0 <= m_maxProcessSize st -> 0 <= m_windowSize st ->
  let stretch := if Qltb 1 (m_timeRatio st) then m_timeRatio st else 1%Q in
  (inject_Z (m_maxProcessSize st) / m_pitchScale st <= inject_Z (2 ^ 59))%Q ->
  (inject_Z (2 * m_windowSize st) * stretch <= inject_Z (2 ^ 59))%Q ->
  exists n,
    choose_outbufSize st
    = (if m_realtime st || m_threaded st then 16 else 1) * n
    /\ (inject_Z (m_maxProcessSize st) / m_pitchScale st <= inject_Z n)%Q
    /\ (inject_Z (2 * m_windowSize st) * stretch <= inject_Z n)%Q
    /\ 2 * m_windowSize st <= n <= 2 ^ 59.
Proof.
  intros Hp Hm Hw stretch Ha Hb.
  assert (Hs1 : (1 <= stretch)%Q).
  { unfold stretch. destruct (Qltb 1 (m_timeRatio st)) eqn:E;
      [apply Qlt_le_weak, Qltb_lt, E | apply Qle_refl]. }
  assert (Hw2 : (0 <= inject_Z (2 * m_windowSize st))%Q)
    by (apply inject_Z_nonneg; lia).
  assert (Hb1 : (inject_Z (2 * m_windowSize st)
                 <= inject_Z (2 * m_windowSize st) * stretch)%Q).
  { rewrite <- (Qmult_1_r (inject_Z (2 * m_windowSize st))) at 1.
    apply Qmult_le_compat_nonneg.
    - split; [exact Hw2 | apply Qle_refl].
    - split; [discriminate | exact Hs1]. }
  assert (Hw59 : 2 * m_windowSize st <= 2 ^ 59).
  { rewrite Zle_Qle. eapply Qle_trans; [exact Hb1 | exact Hb]. }
  assert (Ha0 : (0 <= inject_Z (m_maxProcessSize st) / m_pitchScale st)%Q).
  { apply Qle_shift_div_l; [exact Hp |]. rewrite Qmult_0_l.
    apply inject_Z_nonneg. exact Hm. }
  assert (Hw64 : in_size_t (m_windowSize st * 2))
    by (unfold in_size_t, size_t_modulus; clear -Hw Hw59; lia).
  unfold choose_outbufSize, double_of_size_t.
  rewrite (size_mul_id (m_windowSize st) 2) by exact Hw64.
  rewrite (Z.mul_comm (m_windowSize st) 2). fold stretch.
  set (a := (inject_Z (m_maxProcessSize st) / m_pitchScale st)%Q) in *.
  set (b := (inject_Z (2 * m_windowSize st) * stretch)%Q) in *.
  set (x := if Qltb a b then b else a).
  assert (Hx : (a <= x)%Q /\ (b <= x)%Q /\ (0 <= x)%Q
               /\ (x <= inject_Z (2 ^ 59))%Q).
  { unfold x. destruct (Qltb a b) eqn:E.
    - apply Qltb_lt in E. split; [apply Qlt_le_weak, E |].
      split; [apply Qle_refl |]. split; [| exact Hb].
      eapply Qle_trans; [exact Ha0 | apply Qlt_le_weak, E].
    - apply Qltb_ge in E. split; [apply Qle_refl |].
      split; [exact E |]. split; [exact Ha0 | exact Ha]. }
  destruct Hx as (Hax & Hbx & Hx0 & Hx59).
  set (n := Qceiling x).
  assert (Hn : 0 <= n <= 2 ^ 59).
  { unfold n. split.
    - rewrite <- (Qceiling_Z 0). apply Qceiling_resp_le. exact Hx0.
    - rewrite <- (Qceiling_Z (2 ^ 59)). apply Qceiling_resp_le. exact Hx59. }
  assert (Hn64 : in_size_t n /\ in_size_t (n * 16))
    by (unfold in_size_t, size_t_modulus; clear -Hn; lia).
  assert (En : size_t_of_double (ceil x) = n).
  { unfold size_t_of_double, ceil. fold n. rewrite Qtrunc_inject_Z.
    apply wrap_size_t_id. apply Hn64. }
  rewrite En.
  assert (Hxn : (x <= inject_Z n)%Q) by apply Qle_ceiling.
  exists n. split.
  - destruct (m_realtime st); cbn [orb].
    + rewrite size_mul_id by apply Hn64. apply Z.mul_comm.
    + destruct (m_threaded st).
      * rewrite size_mul_id by apply Hn64. apply Z.mul_comm.
      * symmetry. apply Z.mul_1_l.
  - split; [eapply Qle_trans; [exact Hax | exact Hxn] |].
    split; [eapply Qle_trans; [exact Hbx | exact Hxn] |].
    split; [| apply Hn].
    rewrite Zle_Qle. eapply Qle_trans; [exact Hb1 |].
    eapply Qle_trans; [exact Hbx | exact Hxn].
Qed.

End OutbufSize.

(** ** Feeding input and the samples required *)

Section Feeding.

Context `{Collaborators}.

Lemma fed_refl c st : fed c st st.
Proof.
  unfold fed. repeat split; auto.
  intros cd Hcd. exists cd. repeat split; [exact Hcd | lia].
Qed.

Lemma fed_trans c st1 st2 st3 : fed c st1 st2 -> fed c st2 st3 -> fed c st1 st3.
Proof.
  intros (Ew1 & Ec1 & El1 & Ho1 & Hc1) (Ew2 & Ec2 & El2 & Ho2 & Hc2).
  unfold fed. repeat split; try congruence.
  - intros j Hj. rewrite (Ho2 j Hj). exact (Ho1 j Hj).
  - intros cd Hcd.
    destruct (Hc1 cd Hcd) as (cd1 & Hcd1 & Ed1 & Ei1 & Hr1).
    destruct (Hc2 cd1 Hcd1) as (cd2 & Hcd2 & Ed2 & Ei2 & Hr2).
    exists cd2. repeat split; [exact Hcd2 | congruence | congruence | lia].
Qed.

Lemma write_readSpace rb source n :
  RingBuffer.getReadSpace rb
  <= RingBuffer.getReadSpace (RingBuffer.write rb source n).
Proof.
  unfold RingBuffer.getReadSpace, RingBuffer.write. cbn [RingBuffer.data].
  rewrite length_app. lia.
Qed.

(** The loop of consumeChannel feeds its channel. *)
Lemma consume_loop_fed fuel c input samples consumed st n st' out :
  consume_loop fuel c input samples consumed st = Some ((n, st'), out) ->
  fed c st st'.
Proof.
  revert consumed st out. induction fuel as [| fuel IH];
    intros consumed st out Hrun; [discriminate |].
  cbn [consume_loop] in Hrun.
  destruct (consumed <? samples).
  2:{ apply ret_Some in Hrun as [[= _ ->] _]. apply fed_refl. }
  apply bind_Some in Hrun as (cd & ? & ? & Hcd & Hrun & _).
  apply lift_Some in Hcd as [Hcd _].
  destruct (_ =? 0) in Hrun.
  { apply ret_Some in Hrun as [[= _ ->] _]. apply fed_refl. }
  apply IH in Hrun. eapply fed_trans; [| exact Hrun].
  pose proof (lookup_lt_Some _ _ _ Hcd) as Hlen.
  unfold fed, set_channel. impl_cbn. rewrite length_insert.
  repeat split.
  - intros j Hj. apply list_lookup_insert_ne. congruence.
  - intros cd0 Hcd0. assert (cd0 = cd) by congruence. subst cd0.
    eexists. split; [apply list_lookup_insert_eq; exact Hlen |].
    cbn [draining inputSize inbuf set_inCount set_inbuf].
    repeat split. apply write_readSpace.
Qed.

(** A channel that holds more needs no more. *)
Lemma channel_requirement_antitone w cd cd' :
  0 <= w ->
  draining cd' = draining cd -> inputSize cd' = inputSize cd ->
  RingBuffer.getReadSpace (inbuf cd) <= RingBuffer.getReadSpace (inbuf cd') ->
  channel_requirement w cd' <= channel_requirement w cd.
Proof.
  intros Hw Ed Ei Hrs.
  pose proof (channel_requirement_nonneg w cd Hw) as Hnn.
  pose proof (Zle_0_nat (length (RingBuffer.data (inbuf cd)))) as H0.
  fold (RingBuffer.getReadSpace (inbuf cd)) in H0.
  unfold channel_requirement in *. rewrite Ed, Ei.
  destruct (Z.ltb_spec (RingBuffer.getReadSpace (inbuf cd')) w) as [Hlt' | ?];
    cbn [andb]; [| exact Hnn].
  destruct (Z.ltb_spec (RingBuffer.getReadSpace (inbuf cd)) w) as [Hlt | ?];
    [| lia].
  cbn [andb] in *. destruct (draining cd); cbn [negb] in *; [lia |].
  destruct (inputSize cd =? -1); [lia |].
  destruct (Z.eqb_spec (RingBuffer.getReadSpace (inbuf cd')) 0) as [E' | E'].
  - destruct (Z.eqb_spec (RingBuffer.getReadSpace (inbuf cd)) 0); lia.
  - exact Hnn.
Qed.

Lemma channel_requirement_le w cd : 0 <= w -> channel_requirement w cd <= w.
Proof.
  intros Hw.
  pose proof (Zle_0_nat (length (RingBuffer.data (inbuf cd)))) as H0.
  fold (RingBuffer.getReadSpace (inbuf cd)) in H0.
  unfold channel_requirement.
  destruct (_ && _); [| exact Hw].
  destruct (inputSize cd =? -1); [lia |].
  destruct (_ =? 0); lia.
Qed.

Lemma max_requirement_bounds w l :
  0 <= w -> 0 <= fold_right Z.max 0 (map (channel_requirement w) l) <= w.
Proof.
  intros Hw. induction l as [| cd l IH]; simpl; [lia |].
  pose proof (channel_requirement_le w cd Hw).
  pose proof (channel_requirement_nonneg w cd Hw). lia.
Qed.

Lemma max_requirement_antitone w l l' :
  Forall2 (fun cd cd' => channel_requirement w cd' <= channel_requirement w cd)
          l l' ->
  fold_right Z.max 0 (map (channel_requirement w) l')
  <= fold_right Z.max 0 (map (channel_requirement w) l).
Proof. induction 1; simpl; lia. Qed.

(** What getSamplesRequired returns on a state with its channels. *)
Lemma getSamplesRequired_max st :
  0 <= m_windowSize st < 2 ^ 64 ->
  (Z.to_nat (m_channels st) <= length (m_channelData st))%nat ->
  getSamplesRequired st
  = Some (fold_right Z.max 0
            (map (channel_requirement (m_windowSize st)) (channels st))).
Proof.
  intros Hw Hlen. unfold getSamplesRequired, channels.
  rewrite samples_required_fold by (try lia; exact Hw).
  rewrite fold_left_max_seed by lia. rewrite drop_0. f_equal.
  apply Z.max_r. apply max_requirement_bounds. lia.
Qed.

(** Feeding a channel does not raise what getSamplesRequired returns. *)
Lemma fed_requirement c st st' :
  fed c st st' ->
  0 <= m_windowSize st < 2 ^ 64 ->
  (Z.to_nat (m_channels st) <= length (m_channelData st))%nat ->
  exists r r',
    getSamplesRequired st = Some r
    /\ getSamplesRequired st' = Some r'
    /\ 0 <= r' <= r /\ r <= m_windowSize st.
Proof.
  intros (Ew & Ec & El & Hother & Hc) Hw Hlen.
  rewrite (getSamplesRequired_max st Hw Hlen).
  rewrite (getSamplesRequired_max st')
    by (rewrite ?Ew, ?Ec, ?El; assumption).
  eexists _, _. split; [reflexivity |]. split; [reflexivity |].
  rewrite Ew.
  pose proof (max_requirement_bounds (m_windowSize st) (channels st')
                ltac:(lia)) as Hb'.
  pose proof (max_requirement_bounds (m_windowSize st) (channels st)
                ltac:(lia)) as Hb.
  split; [split; [lia |] | lia].
  apply max_requirement_antitone. unfold channels. rewrite Ec.
  apply Forall2_take. apply Forall2_same_length_lookup_2; [lia |].
  intros i cd cd' Hi Hi'.
  destruct (Nat.eq_dec i c) as [-> | Hne].
  - destruct (Hc cd Hi) as (cd1 & Hcd1 & Ed & Ei & Hrs).
    assert (cd' = cd1) by congruence. subst cd1.
    apply channel_requirement_antitone; [lia | assumption ..].
  - rewrite (Hother i Hne) in Hi'. assert (cd' = cd) by congruence.
    subst cd'. lia.
Qed.

(** X20: consumeChannel never raises what getSamplesRequired returns,
    and that is never more than a window: when a call of consumeChannel
    on a state with its channels returns, getSamplesRequired returns on
    the state before and on the state after, the later value is at most
    the earlier one, and both lie between 0 and the window size. *)
Theorem consumeChannel_lowers_requirement c (input : list sample) samples
    st n st' out :
  0 <= m_windowSize st < 2 ^ 64 ->
  (Z.to_nat (m_channels st) <= length (m_channelData st))%nat ->
  consumeChannel c input samples st = Some ((n, st'), out) ->
  exists r r',
    getSamplesRequired st = Some r
    /\ getSamplesRequired st' = Some r'
    /\ 0 <= r' <= r /\ r <= m_windowSize st.
Proof.
  intros Hw Hlen Hrun. unfold consumeChannel in Hrun.
  apply bind_Some in Hrun as (cd & ? & ? & _ & Hrun & _).
  apply consume_loop_fed in Hrun.
  exact (fed_requirement c st st' Hrun Hw Hlen).
Qed.

End Feeding.

Section FeedingExamples.

#[local] Existing Instance Reference.collaborators.

(** A fresh offline object requires half a window; after 1024 samples
    it requires nothing. *)
Lemma consumeChannel_lowers_requirement_witness :
  exists n st' out r',
    consumeChannel 0 (repeat 1%Q 1024) 1024 (Reference.offline_48k 1 1)
    = Some ((n, st'), out)
    /\ getSamplesRequired st' = Some r' /\ 0 <= r' <= 2048.
Proof.
  set (st := Reference.offline_48k 1 1).
  assert (Ew : m_windowSize st = 2048) by (vm_compute; reflexivity).
  assert (Ec : Z.to_nat (m_channels st) = 1%nat) by (vm_compute; reflexivity).
  assert (El : length (m_channelData st) = 1%nat) by (vm_compute; reflexivity).
  assert (Hret : returns (consumeChannel 0 (repeat 1%Q 1024) 1024 st) = true)
    by (vm_compute; reflexivity).
  destruct (returns_true _ Hret) as ([n st'] & out & Hrun).
  destruct (consumeChannel_lowers_requirement 0 (repeat 1%Q 1024) 1024 st n st' out)
    as (r & r' & _ & Hr' & Hle & Hb);
    [rewrite Ew; lia | rewrite Ec, El; lia | exact Hrun |].
  exists n, st', out, r'. split; [exact Hrun |]. split; [exact Hr' |].
  rewrite Ew in Hb. lia.
Defined.

End FeedingExamples.

(** ** The chunks that study analyses *)

Section Chunks.

Context `{Collaborators}.

Lemma analysed_zero st st' :
  m_phaseResetDf st' = m_phaseResetDf st ->
  m_stretchDf st' = m_stretchDf st ->
  m_inputDuration st' = m_inputDuration st ->
  analysed 0 st st'.
Proof.
  intros Ep Es Ed. exists [], []. rewrite !app_nil_r.
  repeat split; try assumption. rewrite Ed. simpl. lia.
Qed.

Lemma analysed_trans k1 k2 st1 st2 st3 :
  m_increment st2 = m_increment st1 ->
  analysed k1 st1 st2 -> analysed k2 st2 st3 -> analysed (k1 + k2) st1 st3.
Proof.
  intros Ei (a1 & a2 & Ha1 & Ha2 & Ep1 & Es1 & Ed1)
         (b1 & b2 & Hb1 & Hb2 & Ep2 & Es2 & Ed2).
  exists (a1 ++ b1), (a2 ++ b2). rewrite !length_app, !app_assoc.
  repeat split; try congruence. rewrite Ed2, Ed1, Ei. lia.
Qed.

(** One chunk: one value more in each curve, one increment more in the
    duration. *)
Lemma study_chunk_analysed st st' out total :
  studied st total ->
  0 <= m_increment st <= study_readSpace st ->
  m_windowSize st / 2 + total < 2 ^ 64 ->
  study_chunk st = Some (st', out) ->
  analysed 1 st st'.
Proof.
  intros (cd & Hcd & Hwf & Hsize & Hd & Hsum) Hinc Hbound.
  unfold study_readSpace in *. rewrite Hcd in Hinc.
  unfold study_chunk. rewrite Hcd. cbn [lift]. rewrite bind_ret_l.
  intros Hrun.
  apply bind_Some in Hrun as (window & ? & ? & _ & Hrun & _).
  apply bind_Some in Hrun as (fft & ? & ? & _ & Hrun & _).
  apply bind_Some in Hrun as (phaseReset & ? & ? & _ & Hrun & _).
  apply bind_Some in Hrun as (stretch & ? & ? & _ & Hrun & _).
  destruct (curve_process phaseReset _ _) as [df1 curve1].
  cbn [m_increment set_m_phaseResetDf set_m_phaseResetAudioCurve] in Hrun.
  destruct (curve_process stretch _ _) as [df2 curve2].
  apply ret_Some in Hrun as [-> _].
  exists [df1], [df2]. unfold set_channel. impl_cbn.
  rewrite size_add_id by (unfold in_size_t, size_t_modulus; lia).
  repeat split. lia.
Qed.

Lemma study_chunks_analysed fuel final st st' out total :
  studied st total ->
  0 <= m_increment st <= m_windowSize st / 2 ->
  0 <= m_windowSize st ->
  m_windowSize st / 2 + total < 2 ^ 64 ->
  study_chunks fuel final st = Some (st', out) ->
  exists k, analysed k st st'.
Proof.
  revert st out. induction fuel as [| fuel IH];
    intros st out Hst Hinc Hw Hbound Hrun; [discriminate |].
  cbn [study_chunks] in Hrun.
  apply bind_Some in Hrun as (cd & ? & ? & Hcd & Hrun & _).
  apply lift_Some in Hcd as [Hcd _].
  destruct (_ || _) eqn:Hcond in Hrun.
  - apply bind_Some in Hrun as (st1 & x1 & x2 & Hchunk & Hrun & _).
    assert (Hrs : m_windowSize st / 2 <= study_readSpace st).
    { unfold study_readSpace. rewrite Hcd.
      assert (m_windowSize st / 2 <= m_windowSize st)
        by (apply Z.div_le_upper_bound; lia).
      apply orb_true_iff in Hcond as [Hc | Hc].
      - apply Z.leb_le in Hc. lia.
      - apply andb_true_iff in Hc as [_ Hc]. now apply Z.leb_le in Hc. }
    destruct (study_chunk_studied st st1 x1 total Hst) as [Hst1 _];
      [lia | exact Hbound | exact Hchunk |].
    pose proof (study_chunk_analysed st st1 x1 total Hst
                  ltac:(lia) Hbound Hchunk) as H1.
    destruct (study_chunk_keeps _ _ _ Hchunk) as (_ & _ & _ & _ & Ew & Ei & _).
    destruct (IH st1 x2 Hst1) as [k Hk];
      [rewrite Ew, Ei; exact Hinc | rewrite Ew; exact Hw
       | rewrite Ew; exact Hbound | exact Hrun |].
    exists (1 + k)%nat. exact (analysed_trans 1 k st st1 st' Ei H1 Hk).
  - apply ret_Some in Hrun as [-> _]. exists 0%nat.
    apply analysed_zero; reflexivity.
Qed.

Lemma study_write_analysed mix samples consumed st consumed' st' out :
  study_write mix samples consumed st = Some ((consumed', st'), out) ->
  analysed 0 st st'.
Proof.
  unfold study_write. intros Hrun.
  apply bind_Some in Hrun as (cd & ? & ? & _ & Hrun & _).
  destruct (_ =? 0) in Hrun.
  - apply bind_Some in Hrun as (? & ? & ? & _ & Hrun & _).
    apply ret_Some in Hrun as [[= -> ->] _]. apply analysed_zero; reflexivity.
  - apply ret_Some in Hrun as [[= -> ->] _]. apply analysed_zero; reflexivity.
Qed.

Lemma study_loop_analysed fuel mix samples final consumed st st' out total :
  studied st (total + consumed) ->
  0 <= consumed <= samples ->
  0 <= total ->
  samples <= Z.of_nat (length mix) ->
  0 <= m_increment st <= m_windowSize st / 2 ->
  0 <= m_windowSize st ->
  m_windowSize st / 2 + total + samples < 2 ^ 64 ->
  study_loop fuel mix samples final consumed st = Some (st', out) ->
  exists k, analysed k st st'.
Proof.
  revert consumed st out. induction fuel as [| fuel IH];
    intros consumed st out Hst Hc Ht Hmix Hinc Hw Hbound Hrun; [discriminate |].
  cbn [study_loop] in Hrun.
  destruct (Z.ltb_spec consumed samples) as [Hlt | Hge].
  2:{ apply ret_Some in Hrun as [-> _]. exists 0%nat.
      apply analysed_zero; reflexivity. }
  apply bind_Some in Hrun as ([consumed' st1] & out1 & ? & Hwrite & Hrun & _).
  apply bind_Some in Hrun as (st2 & out2 & out3 & Hchunks & Hrun & _).
  cbn [fst snd] in *.
  destruct (study_write_studied mix samples consumed st consumed' st1 out1
              total Hst) as (Hst1 & Hc1 & _); [lia | exact Hmix | exact Hbound
                                               | exact Ht | exact Hw
                                               | exact Hwrite |].
  pose proof (study_write_analysed _ _ _ _ _ _ _ Hwrite) as H0.
  destruct (study_write_keeps _ _ _ _ _ _ _ Hwrite)
    as (_ & _ & _ & _ & Ew & Ei & _).
  assert (Hst2 : studied st2 (total + consumed')).
  { apply (study_chunks_studied fuel final st1 st2 out2 _ Hst1);
      [rewrite Ew, Ei; exact Hinc | rewrite Ew; exact Hw
       | rewrite Ew; lia | exact Hchunks]. }
  destruct (study_chunks_analysed fuel final st1 st2 out2 _ Hst1)
    as [k1 Hk1];
    [rewrite Ew, Ei; exact Hinc | rewrite Ew; exact Hw
     | rewrite Ew; lia | exact Hchunks |].
  destruct (study_chunks_keeps _ _ _ _ _ Hchunks)
    as (_ & _ & _ & _ & Ew2 & Ei2 & _).
  destruct (IH consumed' st2 out3 Hst2) as [k2 Hk2]; try assumption; try lia;
    try (rewrite ?Ew2, ?Ei2, ?Ew, ?Ei; assumption).
  exists (0 + k1 + k2)%nat.
  apply (analysed_trans (0 + k1) k2 st st2 st'); [congruence | | exact Hk2].
  exact (analysed_trans 0 k1 st st1 st2 Ei H0 Hk1).
Qed.

(** X21: the chunks that an accepted call of study analyses.  Offline,
    on an object that has not begun processing, with the bookkeeping of
    the duration in place and an increment of at most half a window:
    when the call returns, each of the two detection curves is the
    earlier curve followed by the same number k of new values, one per
    chunk; after a call that is not final the duration has grown by k
    increments and the ring holds the samples of the call less those k
    increments. *)
Theorem study_curves_grow_together fuel (input : list (list sample)) samples
    final st st' out total :
  m_realtime st = false ->
  m_mode st = JustCreated \/ m_mode st = Studying ->
  studied st total ->
  0 <= total -> 0 <= samples ->
  (final = false -> m_channels st <= 1 ->
   samples <= Z.of_nat (length (nth 0 input []))) ->
  0 <= m_increment st <= m_windowSize st / 2 ->
  0 <= m_windowSize st ->
  m_windowSize st / 2 + total + samples < 2 ^ 64 ->
  study fuel input samples final st = Some (st', out) ->
  exists (k : nat) l1 l2,
    length l1 = k /\ length l2 = k
    /\ m_phaseResetDf st' = m_phaseResetDf st ++ l1
    /\ m_stretchDf st' = m_stretchDf st ++ l2
    /\ (final = false ->
        m_inputDuration st'
        = m_inputDuration st + Z.of_nat k * m_increment st
        /\ study_readSpace st'
           = study_readSpace st + samples - Z.of_nat k * m_increment st).
Proof.
  intros Hrt Hmode Hst Ht Hs Hin Hinc Hw Hbound Hrun.
  pose proof (study_counts_samples fuel input samples final st st' out total
                Hrt Hmode Hst Ht Hs Hin Hinc Hw Hbound Hrun) as Hcount.
  unfold study in Hrun. rewrite Hrt in Hrun.
  assert (Emode : ProcessMode_eqb (m_mode st) Processing
                  || ProcessMode_eqb (m_mode st) Finished = false)
    by (destruct Hmode as [-> | ->]; reflexivity).
  rewrite Emode in Hrun.
  apply bind_Some in Hrun as (cd0 & ? & ? & _ & Hrun & _).
  apply bind_Some in Hrun as (st1 & out1 & out2 & Hloop & Hrun & _).
  assert (Hst0 : studied (set_m_mode Studying st) (total + 0))
    by (rewrite Z.add_0_r; exact Hst).
  assert (H0s : 0 <= 0 <= samples) by lia.
  destruct (fun Hmix =>
              study_loop_analysed fuel _ samples final 0
                (set_m_mode Studying st) st1 out1 total Hst0 H0s Ht Hmix
                Hinc Hw Hbound Hloop)
    as (k & l1 & l2 & Hl1 & Hl2 & Ep & Es & Ed).
  { cbn [m_channels set_m_mode].
    destruct ((1 <? m_channels st) || final) eqn:E;
      [rewrite mixdown_length; lia |].
    apply orb_false_iff in E as [E1 ->]. apply Z.ltb_ge in E1.
    apply Hin; [reflexivity | exact E1]. }
  impl_cbn.
  exists k, l1, l2. split; [exact Hl1 |]. split; [exact Hl2 |].
  destruct final.
  - unfold study_final in Hrun.
    apply bind_Some in Hrun as (cd & ? & ? & _ & Hrun & _).
    destruct (_ <? _) in Hrun; apply ret_Some in Hrun as [-> _]; impl_cbn;
      (split; [exact Ep |]; split; [exact Es | discriminate]).
  - apply ret_Some in Hrun as [-> _].
    split; [exact Ep |]. split; [exact Es |]. intros _.
    split; [exact Ed |].
    destruct (studied_readSpace st total Hst) as [_ Esum].
    destruct (studied_readSpace st1 _ Hcount) as [_ Esum1].
    destruct (study_loop_keeps _ _ _ _ _ _ _ _ Hloop)
      as (_ & _ & _ & _ & Ew & _ & _).
    cbn [m_windowSize set_m_mode] in Ew. rewrite Ew in Esum1. lia.
Qed.

End Chunks.

Section ChunksExamples.

#[local] Existing Instance Reference.collaborators.

(** 3000 samples in one call that is not final: the curves grow by the
    same number of values. *)
Lemma study_curves_grow_together_witness :
  exists st' out (k : nat),
    study 20 [repeat 1%Q 3000] 3000 false (Reference.offline_48k 1 1)
    = Some (st', out)
    /\ length (m_phaseResetDf st') = k /\ length (m_stretchDf st') = k
    /\ m_inputDuration st' = Z.of_nat k * 341.
Proof.
  set (st := Reference.offline_48k 1 1).
  assert (Ew : m_windowSize st = 2048) by (vm_compute; reflexivity).
  assert (Ei : m_increment st = 341) by (vm_compute; reflexivity).
  assert (Ed : m_inputDuration st = 0) by (vm_compute; reflexivity).
  assert (Ep : m_phaseResetDf st = []) by (vm_compute; reflexivity).
  assert (Es : m_stretchDf st = []) by (vm_compute; reflexivity).
  assert (Hret : returns (study 20 [repeat 1%Q 3000] 3000 false st) = true)
    by (vm_compute; reflexivity).
  destruct (returns_true _ Hret) as (st' & out & Hrun).
  destruct (study_curves_grow_together 20 [repeat 1%Q 3000] 3000 false st st'
              out 0)
    as (k & l1 & l2 & Hl1 & Hl2 & Ep' & Es' & Hd); try exact Hrun.
  - vm_compute. reflexivity.
  - left. vm_compute. reflexivity.
  - apply studiedb_true. vm_compute. reflexivity.
  - lia.
  - lia.
  - intros _ _. cbn [nth]. rewrite repeat_length. lia.
  - rewrite Ew, Ei. change (2048 / 2) with 1024. lia.
  - rewrite Ew. lia.
  - rewrite Ew. change (2048 / 2) with 1024. lia.
  - exists st', out, k. split; [exact Hrun |].
    rewrite Ep', Es', Ep, Es. cbn [app].
    split; [exact Hl1 |]. split; [exact Hl2 |].
    destruct (Hd eq_refl) as [Hdur _]. rewrite Hdur, Ed, Ei. lia.
Defined.

End ChunksExamples.

(** ** Sizing, construction and reconfiguration: the properties *)

Section SizingProperties.

Context `{Collaborators}.


(** X5: the sizing computation is idempotent: on the state that it
    returned it returns that state again. *)
Theorem calculateSizes_idempotent st st' :
  calculateSizes st = Some st' -> calculateSizes st' = Some st'.
Proof. exact (calculateSizes_twice st st'). Qed.

(** X6: the base window size that the constructor computes, for a
    sample rate of at most 48000 * 2^19: it is a power of two between
    1024 and 2^31, at least 2048 unless exactly one of OptionWindowShort
    and OptionWindowLong is given; up to 48000 Hz it is 2048, halved for
    the short window and doubled for the long one, and 2048 when both
    options are given. *)
Theorem constructor_baseWindowSize sampleRate channels options (t p : Q) :
  0 <= sampleRate <= 48000 * 2 ^ 19 ->
  let st := Impl_members sampleRate channels options t p in
  let short := has_option options OptionWindowShort in
  let long := has_option options OptionWindowLong in
  is_power_of_two (m_baseWindowSize st)
  /\ 1024 <= m_baseWindowSize st <= 2 ^ 31
  /\ (short = long -> 2048 <= m_baseWindowSize st <= 2 ^ 30)
  /\ (sampleRate <= 48000 ->
      m_baseWindowSize st
      = if short && long then 2048
        else if short then 1024 else if long then 4096 else 2048).
Proof.
  exact (Impl_members_baseWindowSize sampleRate channels options t p).
Qed.



(** A sized state has a window that fits the maximum process size and
    an increment that fits the expected input duration. *)
Lemma sized_facts st :
  calculateSizes st = Some st ->
  1 <= m_baseWindowSize st < 2 ^ 64 ->
  m_windowSize st <= m_maxProcessSize st
  /\ (0 < m_expectedInputDuration st ->
      size_mul (m_increment st) 4 <= m_expectedInputDuration st
      \/ m_increment st <= 1).
Proof.
  intros Hsized Hb.
  destruct (calculateSizes_total st Hb) as (st' & Hrun & Hw & _ & He).
  rewrite Hsized in Hrun. injection Hrun as <-. split; assumption.
Qed.

(** X9: setMaxProcessSize on a configured object (effective ratio at
    least 2^-28) returns.  A value that is not above the stored one
    changes nothing and prints nothing; a greater one is stored and the
    object reconfigured, after which the maximum process size is at
    least the value and at least the window size, and the object is
    configured as before. *)
Theorem setMaxProcessSize_spec samples st :
  configured st ->
  ratio_in_range (getEffectiveRatio st) ->
  exists st' out,
    setMaxProcessSize samples st = Some (st', out)
    /\ configured st'
    /\ if samples <=? m_maxProcessSize st
       then st' = st /\ out = []
       else samples <= m_maxProcessSize st'
            /\ m_windowSize st' <= m_maxProcessSize st'
            /\ m_mode st' = m_mode st.
Proof.
  intros Hconf Hratio. unfold setMaxProcessSize.
  destruct (samples <=? m_maxProcessSize st).
  { exists st, []. split; [reflexivity |]. split; [exact Hconf |].
    split; reflexivity. }
  destruct (reconfigure_configured (set_m_maxProcessSize samples st))
    as (st' & out & Erun & Hconf' & Hsized & _ & Hm & Emode & _).
  { exact Hconf. }
  { exact Hratio. }
  exists st', out. split; [exact Erun |]. split; [exact Hconf' |].
  split; [exact Hm |]. split; [| exact Emode].
  apply sized_facts; [exact Hsized |].
  destruct Hconf' as (_ & _ & _ & _ & _ & _ & Hb). exact Hb.
Qed.

(** X10: setExpectedInputDuration on a configured object (effective
    ratio at least 2^-28) returns with the value stored and the object
    still configured.  The stored value changes nothing more; a new
    value that is not zero leaves an increment of at most a quarter of
    it, or of at most 1. *)
Theorem setExpectedInputDuration_spec samples st :
  configured st ->
  ratio_in_range (getEffectiveRatio st) ->
  exists st' out,
    setExpectedInputDuration samples st = Some (st', out)
    /\ configured st'
    /\ m_expectedInputDuration st' = samples
    /\ if samples =? m_expectedInputDuration st
       then st' = st /\ out = []
       else m_mode st' = m_mode st
            /\ (0 < samples ->
                size_mul (m_increment st') 4 <= samples
                \/ m_increment st' <= 1).
Proof.
  intros Hconf Hratio. unfold setExpectedInputDuration.
  destruct (Z.eqb_spec samples (m_expectedInputDuration st)) as [E | E].
  { exists st, []. split; [reflexivity |]. split; [exact Hconf |].
    split; [symmetry; exact E |]. split; reflexivity. }
  destruct (reconfigure_configured (set_m_expectedInputDuration samples st))
    as (st' & out & Erun & Hconf' & Hsized & He & _ & Emode & _).
  { exact Hconf. }
  { exact Hratio. }
  cbn [m_expectedInputDuration set_m_expectedInputDuration] in He.
  exists st', out. split; [exact Erun |]. split; [exact Hconf' |].
  split; [exact He |]. split; [exact Emode |].
  rewrite <- He.
  apply sized_facts; [exact Hsized |].
  destruct Hconf' as (_ & _ & _ & _ & _ & _ & Hb). exact Hb.
Qed.

(** X11: unlike the ratio setters, setMaxProcessSize and
    setExpectedInputDuration are accepted offline while a study is
    under way, and a call that changes the value ends the study's
    collection: the schedule computed from the curves collected so far
    is appended to the output increments, both curves are cleared and
    the duration is set to zero, while the mode stays Studying. *)
Theorem size_setters_close_study samples st :
  configured st ->
  ratio_in_range (getEffectiveRatio st) ->
  m_realtime st = false ->
  m_mode st = Studying ->
  exists calculator,
    m_stretchCalculator st = Some calculator
    /\ let schedule :=
         m_outputIncrements st
         ++ calculate calculator (getEffectiveRatio st) (m_inputDuration st)
              (m_phaseResetDf st) (m_stretchDf st) in
       (m_maxProcessSize st < samples ->
        exists st' out,
          setMaxProcessSize samples st = Some (st', out)
          /\ m_mode st' = Studying
          /\ m_phaseResetDf st' = [] /\ m_stretchDf st' = []
          /\ m_inputDuration st' = 0
          /\ m_outputIncrements st' = schedule)
       /\ (samples <> m_expectedInputDuration st ->
           exists st' out,
             setExpectedInputDuration samples st = Some (st', out)
             /\ m_mode st' = Studying
             /\ m_phaseResetDf st' = [] /\ m_stretchDf st' = []
             /\ m_inputDuration st' = 0
             /\ m_outputIncrements st' = schedule).
Proof.
  intros Hconf Hratio Hrt Hmode.
  pose proof Hconf as (_ & _ & _ & _ & [calculator Ecalc] & _).
  exists calculator. split; [exact Ecalc |]. cbv zeta. split.
  - intros Hlt. unfold setMaxProcessSize.
    rewrite (proj2 (Z.leb_gt _ _) Hlt).
    destruct (reconfigure_configured (set_m_maxProcessSize samples st))
      as (st' & out & Erun & _ & _ & _ & _ & Emode & _ & Hclosed & Edur);
      [exact Hconf | exact Hratio |].
    unfold study_closed in Hclosed.
    cbn [m_realtime m_mode set_m_maxProcessSize] in Hclosed, Edur, Emode.
    rewrite Hrt, Hmode in Hclosed. cbn [negb andb ProcessMode_eqb] in Hclosed.
    rewrite Hrt in Edur.
    destruct Hclosed as (calculator' & Ecalc' & Ep & Es & Eo).
    cbn [m_stretchCalculator set_m_maxProcessSize] in Ecalc'.
    assert (calculator' = calculator) by congruence. subst calculator'.
    exists st', out. repeat split; try assumption. congruence.
  - intros Hne. unfold setExpectedInputDuration.
    rewrite (proj2 (Z.eqb_neq _ _) Hne).
    destruct (reconfigure_configured
                (set_m_expectedInputDuration samples st))
      as (st' & out & Erun & _ & _ & _ & _ & Emode & _ & Hclosed & Edur);
      [exact Hconf | exact Hratio |].
    unfold study_closed in Hclosed.
    cbn [m_realtime m_mode set_m_expectedInputDuration] in Hclosed, Edur, Emode.
    rewrite Hrt, Hmode in Hclosed. cbn [negb andb ProcessMode_eqb] in Hclosed.
    rewrite Hrt in Edur.
    destruct Hclosed as (calculator' & Ecalc' & Ep & Es & Eo).
    cbn [m_stretchCalculator set_m_expectedInputDuration] in Ecalc'.
    assert (calculator' = calculator) by congruence. subst calculator'.
    exists st', out. repeat split; try assumption. congruence.
Qed.


(** X13: being configured is an invariant of the session: whatever
    reset, study and the entry of process return on a configured object
    is configured. *)
Theorem configured_preserved st :
  configured st ->
  (forall st' out, reset st = Some (st', out) -> configured st')
  /\ (forall fuel input samples final st' out,
        study fuel input samples final st = Some (st', out) ->
        configured st')
  /\ (forall st' out,
        process_enter st = Some (Some st', out) -> configured st').
Proof.
  intros Hconf. split; [| split].
  - intros st' out Hrun.
    exact (same_setup_configured _ _ (reset_setup _ _ _ Hrun) Hconf).
  - intros fuel input samples final st' out Hrun.
    exact (same_setup_configured _ _ (study_setup _ _ _ _ _ _ _ Hrun) Hconf).
  - intros st' out Hrun.
    destruct (process_enter_configured st Hconf) as (r & out' & Erun & Hr).
    rewrite Hrun in Erun. injection Erun as <- <-.
    destruct (m_mode st).
    + destruct Hr as (st1 & [= ->] & _ & _ & Hsetup & _).
      exact (same_setup_configured _ _ Hsetup Hconf).
    + destruct Hr as (st1 & ? & [= ->] & _ & _ & Hsetup & _).
      exact (same_setup_configured _ _ Hsetup Hconf).
    + destruct Hr as [[= ->] _]. exact Hconf.
    + destruct Hr as [Hr _]. discriminate.
Qed.


(** X16: the mode after study.  In realtime mode study does nothing.
    Offline, a call on an object in mode Processing or Finished is
    refused with a diagnostic and changes nothing; every other call that
    returns leaves the mode Studying, also the final one, and leaves
    schedule and calculator as they were. *)
Theorem study_mode_transition fuel (input : list (list sample)) samples final
    st :
  if m_realtime st
  then study fuel input samples final st = Some (st, [])
  else match m_mode st with
       | Processing | Finished =>
           study fuel input samples final st
           = Some (st, [CannotStudyAfterProcessing])
       | JustCreated | Studying =>
           forall st' out,
             study fuel input samples final st = Some (st', out) ->
             m_mode st' = Studying
             /\ m_outputIncrements st' = m_outputIncrements st
             /\ m_stretchCalculator st' = m_stretchCalculator st
       end.
Proof.
  destruct (m_realtime st) eqn:Hrt.
  { unfold study. rewrite Hrt. reflexivity. }
  destruct (m_mode st) eqn:Hmode.
  - intros st' out Hrun.
    destruct (study_keeps fuel input samples final st st' out Hrt
                (or_introl Hmode) Hrun) as (Ho & Hc & Hm).
    repeat split; assumption.
  - intros st' out Hrun.
    destruct (study_keeps fuel input samples final st st' out Hrt
                (or_intror Hmode) Hrun) as (Ho & Hc & Hm).
    repeat split; assumption.
  - unfold study. rewrite Hrt, Hmode. reflexivity.
  - unfold study. rewrite Hrt, Hmode. reflexivity.
Qed.

End SizingProperties.

Section SizingExamples.

#[local] Existing Instance Reference.collaborators.

Lemma ratio_one_in_range : ratio_in_range (1 * 1).
Proof. unfold ratio_in_range. apply Qle_bool_iff. vm_compute. reflexivity. Qed.

Lemma offline_48k_configured :
  configured (Reference.offline_48k 1 1)
  /\ calculateSizes (Reference.offline_48k 1 1)
     = Some (Reference.offline_48k 1 1)
  /\ ratio_in_range (getEffectiveRatio (Reference.offline_48k 1 1)).
Proof.
  destruct (constructed_configured 48000 1 0 1 1) as [Hconf Hsized];
    [lia | exact ratio_one_in_range |].
  split; [exact Hconf |]. split; [exact Hsized |].
  unfold ratio_in_range. apply Qle_bool_iff. vm_compute. reflexivity.
Qed.

Lemma studying_48k_configured :
  configured studying_48k
  /\ ratio_in_range (getEffectiveRatio studying_48k)
  /\ m_realtime studying_48k = false
  /\ m_mode studying_48k = Studying.
Proof.
  destruct offline_48k_configured as (Hconf & _ & _).
  assert (Hret : returns (study 4 Reference.three_samples 3 false
                            (Reference.offline_48k 1 1)) = true)
    by (vm_compute; reflexivity).
  destruct (returns_true _ Hret) as (st' & out & Erun).
  assert (Est : studying_48k = st')
    by (unfold studying_48k; cbv zeta; rewrite Erun; reflexivity).
  split; [rewrite Est;
          exact (same_setup_configured _ _
                   (study_setup _ _ _ _ _ _ _ Erun) Hconf) |].
  split; [unfold ratio_in_range; apply Qle_bool_iff; vm_compute; reflexivity |].
  split; vm_compute; reflexivity.
Qed.


Lemma calculateSizes_idempotent_witness :
  exists st',
    calculateSizes (Impl_members 48000 1 0 1 1) = Some st'
    /\ calculateSizes st' = Some st'.
Proof.
  assert (Eb : m_baseWindowSize (Impl_members 48000 1 0 1 1) = 2048)
    by (vm_compute; reflexivity).
  destruct (calculateSizes_total (Impl_members 48000 1 0 1 1))
    as (st' & Hrun & _); [rewrite Eb; lia |].
  exists st'. split; [exact Hrun |].
  exact (calculateSizes_idempotent _ st' Hrun).
Defined.

(** At 44100 Hz the base window is the default of 2048. *)
Lemma constructor_baseWindowSize_witness :
  m_baseWindowSize (Impl_members 44100 2 0 1 1) = 2048.
Proof.
  assert (Hsr : 0 <= 44100 <= 48000 * 2 ^ 19) by lia.
  assert (Hle : 44100 <= 48000) by lia.
  exact (proj2 (proj2 (proj2 (constructor_baseWindowSize 44100 2 0 1 1 Hsr)))
           Hle).
Defined.



Lemma setMaxProcessSize_spec_witness :
  exists st' out,
    setMaxProcessSize 8192 (Reference.offline_48k 1 1) = Some (st', out)
    /\ 8192 <= m_maxProcessSize st'.
Proof.
  destruct offline_48k_configured as (Hconf & _ & Hratio).
  assert (Em : m_maxProcessSize (Reference.offline_48k 1 1) = 2048)
    by (vm_compute; reflexivity).
  destruct (setMaxProcessSize_spec 8192 _ Hconf Hratio)
    as (st' & out & Hrun & _ & Hspec).
  rewrite Em in Hspec. change (8192 <=? 2048) with false in Hspec.
  exists st', out. split; [exact Hrun | exact (proj1 Hspec)].
Defined.

Lemma setExpectedInputDuration_spec_witness :
  exists st' out,
    setExpectedInputDuration 100 (Reference.offline_48k 1 1)
    = Some (st', out)
    /\ m_expectedInputDuration st' = 100
    /\ (size_mul (m_increment st') 4 <= 100 \/ m_increment st' <= 1).
Proof.
  destruct offline_48k_configured as (Hconf & _ & Hratio).
  assert (Ee : m_expectedInputDuration (Reference.offline_48k 1 1) = 0)
    by (vm_compute; reflexivity).
  destruct (setExpectedInputDuration_spec 100 _ Hconf Hratio)
    as (st' & out & Hrun & _ & He & Hspec).
  rewrite Ee in Hspec. change (100 =? 0) with false in Hspec.
  exists st', out. split; [exact Hrun |]. split; [exact He |].
  apply (proj2 Hspec). lia.
Defined.

Lemma size_setters_close_study_witness :
  exists st' out,
    setMaxProcessSize 8192 studying_48k = Some (st', out)
    /\ m_mode st' = Studying
    /\ m_phaseResetDf st' = [] /\ m_stretchDf st' = []
    /\ m_inputDuration st' = 0.
Proof.
  destruct studying_48k_configured as (Hconf & Hratio & Hrt & Hmode).
  assert (Em : m_maxProcessSize studying_48k = 2048)
    by (vm_compute; reflexivity).
  destruct (size_setters_close_study 8192 _ Hconf Hratio Hrt Hmode)
    as (calculator & _ & Hmax & _).
  destruct Hmax as (st' & out & Hrun & Hm & Hp & Hs & Hd & _);
    [rewrite Em; lia |].
  exists st', out. repeat split; assumption.
Defined.


Lemma configured_preserved_witness :
  exists st' out,
    reset (Reference.offline_48k 1 1) = Some (st', out) /\ configured st'.
Proof.
  destruct offline_48k_configured as (Hconf & _ & _).
  assert (Hret : returns (reset (Reference.offline_48k 1 1)) = true)
    by (vm_compute; reflexivity).
  destruct (returns_true _ Hret) as (st' & out & Hrun).
  exists st', out. split; [exact Hrun |].
  exact (proj1 (configured_preserved _ Hconf) st' out Hrun).
Defined.


Lemma study_mode_transition_witness :
  exists st' out,
    study 4 Reference.three_samples 3 true (Reference.offline_48k 1 1)
    = Some (st', out)
    /\ m_mode st' = Studying.
Proof.
  set (st := Reference.offline_48k 1 1).
  assert (Hrt : m_realtime st = false) by (vm_compute; reflexivity).
  assert (Emode : m_mode st = JustCreated) by (vm_compute; reflexivity).
  assert (Hret : returns (study 4 Reference.three_samples 3 true st) = true)
    by (vm_compute; reflexivity).
  destruct (returns_true _ Hret) as (st' & out & Hrun).
  pose proof (study_mode_transition 4 Reference.three_samples 3 true st)
    as Hspec.
  rewrite Hrt, Emode in Hspec.
  exists st', out. split; [exact Hrun |].
  exact (proj1 (Hspec st' out Hrun)).
Defined.

End SizingExamples.

(** ** Sizes within range: the properties *)

Section SizeProperties.

Context `{Collaborators}.

(** X17: within the range where the casts and roundUp are exact (base
    window size a power of two between 4 and 2^30, rate multiple
    between 1 and 2^19, effective ratio between 2^-28 and 2^27) the
    sizing computation returns, and the window size it leaves is a power
    of two, in each of its four cases. *)
Theorem windowSize_power_of_two st :
  sizing_in_range st ->
  exists st',
    calculateSizes st = Some st' /\ is_power_of_two (m_windowSize st').
Proof.
  intros Hrange.
  destruct (calculateSizes_shape st Hrange) as (st' & Hrun & Hp & _).
  exists st'. split; assumption.
Qed.

(** X18: within that range the increment that the sizing computation
    leaves is at least 1 in realtime mode, and offline for an effective
    ratio below 1: the zero increment of the offline case for ratios of
    at least 1 has no counterpart in the other three cases. *)
Theorem increment_positive_outside_offline_stretch st :
  sizing_in_range st ->
  m_realtime st = true \/ (getEffectiveRatio st < 1)%Q ->
  exists st', calculateSizes st = Some st' /\ 1 <= m_increment st'.
Proof.
  intros Hrange Hcase.
  destruct (calculateSizes_shape st Hrange) as (st' & Hrun & _ & Hi).
  exists st'. split; [exact Hrun |]. apply Hi.
  destruct Hcase as [Hrt | Hlt]; [left; exact Hrt | right].
  apply Qltb_lt. exact Hlt.
Qed.


End SizeProperties.

Section SizePropertiesExamples.

#[local] Existing Instance Reference.collaborators.

Lemma sizing_in_range_48k (t p : Q) :
  Qle_bool 1 (inject_Z (2 ^ 28) * (t * p)) = true ->
  Qle_bool (t * p) (inject_Z (2 ^ 27)) = true ->
  sizing_in_range (Impl_members 48000 1 0 t p).
Proof.
  intros H1 H2. unfold sizing_in_range.
  assert (Eb : m_baseWindowSize (Impl_members 48000 1 0 t p) = 2048)
    by (vm_compute; reflexivity).
  rewrite Eb.
  split; [exists 11; split; [lia | reflexivity] |].
  split; [lia |].
  split; [apply Qle_bool_iff; vm_compute; reflexivity |].
  split; [apply Qle_bool_iff; vm_compute; reflexivity |].
  split; apply Qle_bool_iff; assumption.
Qed.

Lemma windowSize_power_of_two_witness :
  exists st',
    calculateSizes (Impl_members 48000 1 0 8 1) = Some st'
    /\ is_power_of_two (m_windowSize st').
Proof.
  apply windowSize_power_of_two.
  apply sizing_in_range_48k; vm_compute; reflexivity.
Defined.

Lemma increment_positive_outside_offline_stretch_witness :
  exists st',
    calculateSizes (Impl_members 48000 1 0 (1 # 2) 1) = Some st'
    /\ 1 <= m_increment st'.
Proof.
  apply increment_positive_outside_offline_stretch.
  - apply sizing_in_range_48k; vm_compute; reflexivity.
  - right. vm_compute. reflexivity.
Defined.


End SizePropertiesExamples.
